(** * MetaScooop: the recommendation engine of [app.py]

    A shallow embedding of the diagnostic core of [src/app.py]
    ([safe_float], [safe_int], [calculate_industry_benchmark],
    [analyze_creative_elements], [generate_ai_optimization_recommendations],
    the derived metrics of [show_demographic_analysis],
    [get_ad_insights_over_time] and [generate_strategic_analysis], and
    [age_sort_key]), with the properties of the specification stated and
    settled against it.

    Python floats are IEEE 754 binary64 numbers: they are modelled by Rocq's
    primitive floats, so that comparisons, NaN and infinities behave as in
    the program.  Python exceptions are modelled by an error monad. *)

From Stdlib Require Import ZArith List Ascii String Floats Lia Permutation Sorted.
From stdpp Require Import base option gmap strings.

#[local] Set Warnings "-inexact-float".
#[local] Open Scope Z_scope.

(* ===================================================================== *)
(** * Exceptions *)
(* ===================================================================== *)

Inductive exn : Type :=
| KeyError
| TypeError
| ValueError
| AttributeError
| OverflowError.

Inductive result (A : Type) : Type :=
| Ok (a : A)
| Raise (e : exn).
Arguments Ok {A} a.
Arguments Raise {A} e.

Definition rbind {A B} (m : result A) (k : A -> result B) : result B :=
  match m with
  | Ok a => k a
  | Raise e => Raise e
  end.

Notation "'do' x <- m ; k" := (rbind m (fun x => k))
  (at level 10, x name, m at level 100, k at level 200).

Definition is_ok {A} (r : result A) : bool :=
  match r with Ok _ => true | Raise _ => false end.

(** [try: ... except (e1, e2): return d] *)
Definition catching {A} (handled : exn -> bool) (m : result A) (d : A) : result A :=
  match m with
  | Ok a => Ok a
  | Raise e => if handled e then Ok d else Raise e
  end.

(* ===================================================================== *)
(** * Floats *)
(* ===================================================================== *)

Module F.
#[local] Open Scope float_scope.

(** Conversion of a Python [int] to a double, rounding to nearest even. *)
Definition of_Z (z : Z) : float :=
  SF2Prim (binary_normalize prec emax z 0 false).

Definition is_inf (x : float) : bool := (abs x =? infinity).

(** [x > y] and [x < y] of Python: false as soon as one side is NaN. *)
Definition gt (x y : float) : bool := (y <? x).
Definition lt (x y : float) : bool := (x <? y).

Definition is_zero (x : float) : bool := (x =? 0).

(** [int(x)] on a float: truncation towards zero. *)
Definition trunc (x : float) : result Z :=
  match Prim2SF x with
  | S754_zero _ => Ok 0%Z
  | S754_infinity _ => Raise OverflowError
  | S754_nan => Raise ValueError
  | S754_finite s m e =>
      let a := if (0 <=? e)%Z then (Z.pos m * 2 ^ e)%Z
               else (Z.pos m / 2 ^ (- e))%Z in
      Ok (if s then (- a)%Z else a)
  end.

(** The double nearest to [m * 10 ^ e10] (ties to even), for [0 <= m]. *)
Definition of_decimal (neg : bool) (m e10 : Z) : float :=
  let sgn (z : Z) := if neg then (- z)%Z else z in
  if (m =? 0)%Z then (if neg then (-0) else 0)
  else if (0 <=? e10)%Z then
    SF2Prim (binary_normalize prec emax (sgn (m * 10 ^ e10)%Z) 0 neg)
  else
    let d := (10 ^ (- e10))%Z in
    let s := (Z.log2_up d + 64)%Z in
    let n := (m * 2 ^ s)%Z in
    let q := (n / d)%Z in
    let sticky := if (n mod d =? 0)%Z then 0%Z else 1%Z in
    SF2Prim (binary_normalize prec emax (sgn (2 * q + sticky)%Z) (- s - 1) neg).
End F.

(* ===================================================================== *)
(** * Characters and the numeric literals of Python *)
(* ===================================================================== *)

Definition code (c : ascii) : N := N_of_ascii c.

(** The ASCII characters that are white space for [str.split]. *)
Definition is_space (c : ascii) : bool :=
  let n := code c in
  (((9 <=? n) && (n <=? 13)) || ((28 <=? n) && (n <=? 32)))%N.

(** The characters that [float()] and [int()] skip at both ends of a
    string: the white space of C, without the separators 0x1c to 0x1f. *)
Definition is_c_space (c : ascii) : bool :=
  let n := code c in
  (((9 <=? n) && (n <=? 13)) || (n =? 32))%N.

Definition is_digit (c : ascii) : bool :=
  let n := code c in ((48 <=? n) && (n <=? 57))%N.

Definition digit_val (c : ascii) : Z := Z.of_N (code c) - 48.

Definition lower (c : ascii) : ascii :=
  let n := code c in
  if ((65 <=? n) && (n <=? 90))%N then ascii_of_N (n + 32) else c.

Definition chars (s : string) : list ascii := list_ascii_of_string s.

(** Strings are kept in UTF-8.  Beyond ASCII, Python knows these
    white-space characters (code points), *)
Definition wide_spaces : list N := [
  0x85; 0xa0; 0x1680; 0x2000; 0x2001; 0x2002; 0x2003; 0x2004;
  0x2005; 0x2006; 0x2007; 0x2008; 0x2009; 0x200a; 0x2028; 0x2029;
  0x202f; 0x205f; 0x3000
]%N.

(** and these runs of ten decimal digits, given by their digit zero
    (Unicode 14, the tables of CPython 3.11). *)
Definition decimal_zeros : list N := [
  0x660; 0x6f0; 0x7c0; 0x966; 0x9e6; 0xa66; 0xae6; 0xb66;
  0xbe6; 0xc66; 0xce6; 0xd66; 0xde6; 0xe50; 0xed0; 0xf20;
  0x1040; 0x1090; 0x17e0; 0x1810; 0x1946; 0x19d0; 0x1a80; 0x1a90;
  0x1b50; 0x1bb0; 0x1c40; 0x1c50; 0xa620; 0xa8d0; 0xa900; 0xa9d0;
  0xa9f0; 0xaa50; 0xabf0; 0xff10; 0x104a0; 0x10d30; 0x11066; 0x110f0;
  0x11136; 0x111d0; 0x112f0; 0x11450; 0x114d0; 0x11650; 0x116c0; 0x11730;
  0x118e0; 0x11950; 0x11c50; 0x11d50; 0x11da0; 0x16a60; 0x16ac0; 0x16b50;
  0x1d7ce; 0x1d7d8; 0x1d7e2; 0x1d7ec; 0x1d7f6; 0x1e140; 0x1e2f0; 0x1e950;
  0x1fbf0
]%N.

(** What [str.split], [float()] and [int()] make of a character beyond
    ASCII: a white-space character stands for a space, a decimal digit for
    its ASCII digit. *)
Definition ascii_of_code_point (cp : N) : option ascii :=
  if existsb (N.eqb cp) wide_spaces then Some " "%char
  else
    match find (fun z => (z <=? cp) && (cp <? z + 10))%N decimal_zeros with
    | Some z => Some (ascii_of_N (48 + (cp - z)))
    | None => None
    end.

(** The six low bits of a continuation byte. *)
Definition low6 (c : ascii) : N := N.land (code c) 63.

(** The characters of a string with every white-space character and every
    decimal digit beyond ASCII replaced by its ASCII counterpart; what is
    neither stays as its bytes. *)
Fixpoint to_ascii (l : list ascii) : list ascii :=
  match l with
  | [] => []
  | c1 :: r1 =>
      if (code c1 <? 128)%N then c1 :: to_ascii r1
      else
        match r1 with
        | [] => l
        | c2 :: r2 =>
            if (code c1 <? 224)%N then
              match ascii_of_code_point
                      ((code c1 - 192) * 64 + low6 c2)%N with
              | Some a => a :: to_ascii r2
              | None => c1 :: c2 :: to_ascii r2
              end
            else
              match r2 with
              | [] => l
              | c3 :: r3 =>
                  if (code c1 <? 240)%N then
                    match ascii_of_code_point
                            ((code c1 - 224) * 4096 + low6 c2 * 64
                             + low6 c3)%N with
                    | Some a => a :: to_ascii r3
                    | None => c1 :: c2 :: c3 :: to_ascii r3
                    end
                  else
                    match r3 with
                    | [] => l
                    | c4 :: r4 =>
                        match ascii_of_code_point
                                ((code c1 - 240) * 262144 + low6 c2 * 4096
                                 + low6 c3 * 64 + low6 c4)%N with
                        | Some a => a :: to_ascii r4
                        | None => c1 :: c2 :: c3 :: c4 :: to_ascii r4
                        end
                    end
              end
        end
  end.

Fixpoint lstrip (l : list ascii) : list ascii :=
  match l with
  | c :: r => if is_c_space c then lstrip r else l
  | [] => []
  end.

(** The string that [float()] and [int()] parse: white space skipped at
    both ends. *)
Definition strip (l : list ascii) : list ascii := rev (lstrip (rev (lstrip l))).

(** [s.lower()].  Only the letters of ASCII are lowered here; it is used
    to look for an ASCII word in the titles of the recommendations, and no
    other character of theirs lowers to one of its letters. *)
Definition str_lower (s : string) : string :=
  string_of_list_ascii (map lower (chars s)).

Fixpoint is_prefix (p l : list ascii) : bool :=
  match p, l with
  | [], _ => true
  | c :: p', d :: l' => Ascii.eqb c d && is_prefix p' l'
  | _ :: _, [] => false
  end.

Fixpoint occurs_in (p l : list ascii) : bool :=
  is_prefix p l ||
  match l with
  | [] => false
  | _ :: l' => occurs_in p l'
  end.

(** [sub in s] *)
Definition str_contains (sub s : string) : bool :=
  occurs_in (chars sub) (chars s).

(** A maximal run [digit (["_"] digit)*] at the head of [l], underscores
    dropped, and what follows it. *)
Fixpoint digit_run (l : list ascii) : list ascii * list ascii :=
  match l with
  | c :: r =>
      if is_digit c then
        let (ds, rest) := digit_run r in (c :: ds, rest)
      else if (code c =? 95)%N then
        match r with
        | d :: _ => if is_digit d then digit_run r else ([], l)
        | [] => ([], l)
        end
      else ([], l)
  | [] => ([], [])
  end.

(** [digitpart]: a digit run that starts with a digit. *)
Definition digitpart (l : list ascii) : option (list ascii * list ascii) :=
  match l with
  | c :: _ => if is_digit c then Some (digit_run l) else None
  | [] => None
  end.

Definition digits_val (ds : list ascii) : Z :=
  fold_left (fun acc c => 10 * acc + digit_val c) ds 0.

(** An optional sign: [true] for ["-"]. *)
Definition take_sign (l : list ascii) : bool * list ascii :=
  match l with
  | c :: r =>
      if (code c =? 45)%N then (true, r)
      else if (code c =? 43)%N then (false, r)
      else (false, l)
  | [] => (false, [])
  end.

(** [int(s)] for a string, base ten.  CPython refuses a numeral of more
    than 4300 digits ([ValueError]). *)
Definition int_of_chars (l : list ascii) : option Z :=
  let (neg, r) := take_sign (strip (to_ascii l)) in
  match digitpart r with
  | Some (ds, []) =>
      if (length ds <=? 4300)%nat
      then Some (if neg then - digits_val ds else digits_val ds)
      else None
  | _ => None
  end.

Definition py_int_str (s : string) : result Z :=
  match int_of_chars (chars s) with
  | Some z => Ok z
  | None => Raise ValueError
  end.

(** The optional exponent [("e" | "E") [sign] digitpart] and what follows. *)
Definition take_exponent (l : list ascii) : option (Z * list ascii) :=
  match l with
  | c :: r =>
      if (code (lower c) =? 101)%N then
        let (neg, r') := take_sign r in
        match digitpart r' with
        | Some (ds, rest) =>
            Some (if neg then - digits_val ds else digits_val ds, rest)
        | None => None
        end
      else Some (0, l)
  | [] => Some (0, [])
  end.

(** [number]: [[digitpart] "." digitpart | digitpart ["."]], as the integer
    and fraction digits. *)
Definition take_number (l : list ascii)
  : option (list ascii * list ascii * list ascii) :=
  match digitpart l with
  | Some (ip, r) =>
      match r with
      | c :: r' =>
          if (code c =? 46)%N then
            match digitpart r' with
            | Some (fp, rest) => Some (ip, fp, rest)
            | None => Some (ip, [], r')
            end
          else Some (ip, [], r)
      | [] => Some (ip, [], [])
      end
  | None =>
      match l with
      | c :: r' =>
          if (code c =? 46)%N then
            match digitpart r' with
            | Some (fp, rest) => Some ([], fp, rest)
            | None => None
            end
          else None
      | [] => None
      end
  end.

(** [float(s)] for a string. *)
Definition float_of_chars (l : list ascii) : option float :=
  let (neg, r) := take_sign (strip (to_ascii l)) in
  let word := string_of_list_ascii (map lower r) in
  if (String.eqb word "inf" || String.eqb word "infinity")%bool then
    Some (if neg then neg_infinity else infinity)
  else if String.eqb word "nan" then Some nan
  else
    match take_number r with
    | Some (ip, fp, rest) =>
        match take_exponent rest with
        | Some (e, []) =>
            Some (F.of_decimal neg (digits_val (ip ++ fp))
                    (e - Z.of_nat (length fp)))
        | _ => None
        end
    | None => None
    end.

Definition py_float_str (s : string) : result float :=
  match float_of_chars (chars s) with
  | Some x => Ok x
  | None => Raise ValueError
  end.

Example float_of_chars_samples :
  map py_float_str ["4.0"; " 1.5 "; "0.005"; "1e3"; "-.5"; "1_0."; "abc"; "";
                    "1__0"; "0.1"; "1.7976931348623157e308"; "5e-324";
                    "2.4e-324"; "1e400"; "-Infinity"]%string
  = [Ok 4; Ok 1.5; Ok 0.005; Ok 1000; Ok (-0.5); Ok 10; Raise ValueError;
     Raise ValueError; Raise ValueError; Ok 0.1;
     Ok 0x1.fffffffffffffp+1023; Ok 0x1p-1074; Ok 0; Ok infinity;
     Ok neg_infinity]%float.
Proof. vm_compute. reflexivity. Qed.

Example int_of_chars_samples :
  map py_int_str ["18"; " 24 "; "+7"; "-3"; "1_000"; "65+"; ""; "1.5"; "007"]%string
  = [Ok 18; Ok 24; Ok 7; Ok (-3); Ok 1000; Raise ValueError; Raise ValueError;
     Raise ValueError; Ok 7].
Proof. vm_compute. reflexivity. Qed.

(** A string given by its bytes. *)
Definition of_bytes (l : list N) : string :=
  string_of_list_ascii (map ascii_of_N l).

(** The separator 0x1c is not skipped; the no-break space U+00A0 and the
    ideographic space U+3000 are; U+0662 and U+0665 are the Arabic-Indic
    digits two and five. *)
Example unicode_samples :
  map py_float_str [of_bytes [28; 50]%N; of_bytes [50; 31]%N;
                    of_bytes [194; 160; 50]%N; of_bytes [50; 227; 128; 128]%N;
                    of_bytes [217; 162; 46; 217; 165]%N;
                    of_bytes [49; 195; 169]%N]
  = [Raise ValueError; Raise ValueError; Ok 2; Ok 2; Ok 2.5;
     Raise ValueError]%float /\
  py_int_str (of_bytes [217; 162; 217; 165]%N) = Ok 25 /\
  py_int_str (string_of_list_ascii (repeat "1"%char 4300))
  = Ok (digits_val (repeat "1"%char 4300)) /\
  py_int_str (string_of_list_ascii (repeat "0"%char 4301)) = Raise ValueError.
Proof. vm_compute. repeat split; reflexivity. Qed.

(* ===================================================================== *)
(** * Python values *)
(* ===================================================================== *)

(** The scalar values that the fields of an insight record, of an ad's
    details and of a demographic row hold. *)
Inductive pyval : Type :=
| PNone
| PBool (b : bool)
| PInt (z : Z)
| PFloat (x : float)
| PStr (s : string).

(** A Python [dict] with string keys. *)
Abbreviation pydict := (gmap string pyval).

(** [d.get(k, dflt)] *)
Definition get (d : pydict) (k : string) (dflt : pyval) : pyval :=
  default dflt (d !! k).

(** [k in d] *)
Definition has_key (d : pydict) (k : string) : bool :=
  match d !! k with Some _ => true | None => false end.

(** [float(z)] for an [int]: [OverflowError] beyond the range of doubles. *)
Definition float_of_int (z : Z) : result float :=
  let x := F.of_Z z in
  if F.is_inf x then Raise OverflowError else Ok x.

(** [float(v)] *)
Definition py_float (v : pyval) : result float :=
  match v with
  | PNone => Raise TypeError
  | PBool b => Ok (if b then 1 else 0)%float
  | PInt z => float_of_int z
  | PFloat x => Ok x
  | PStr s => py_float_str s
  end.

(** [v in [None, '']] *)
Definition is_none_or_empty (v : pyval) : bool :=
  match v with
  | PNone => true
  | PStr s => String.eqb s ""
  | _ => false
  end.

(** [bool(v)] *)
Definition truthy (v : pyval) : bool :=
  match v with
  | PNone => false
  | PBool b => b
  | PInt z => negb (z =? 0)
  | PFloat x => negb (F.is_zero x)
  | PStr s => negb (String.eqb s "")
  end.

(** [v == s] for a string literal [s] *)
Definition eq_str (v : pyval) (s : string) : bool :=
  match v with
  | PStr x => String.eqb x s
  | _ => false
  end.

Definition type_or_value_error (e : exn) : bool :=
  match e with
  | TypeError | ValueError => true
  | _ => false
  end.

(** [safe_float(value, default)]: only [TypeError] and [ValueError] are
    caught. *)
Definition safe_float_or (value : pyval) (dflt : float) : result float :=
  catching type_or_value_error
    (if is_none_or_empty value then Ok dflt else py_float value) dflt.

Definition safe_float (value : pyval) : result float :=
  safe_float_or value 0%float.

(** [safe_int(value, default)]: [int(float(value))]. *)
Definition safe_int_or (value : pyval) (dflt : Z) : result Z :=
  catching type_or_value_error
    (if is_none_or_empty value then Ok dflt
     else do x <- py_float value; F.trunc x) dflt.

Definition safe_int (value : pyval) : result Z := safe_int_or value 0.

Example safe_float_samples :
  map safe_float [PNone; PStr ""; PStr "abc"; PStr "0.005"; PInt 7;
                  PFloat 2.5; PBool true; PInt (10 ^ 400); PStr "nan"]
  = [Ok 0; Ok 0; Ok 0; Ok 0.005; Ok 7; Ok 2.5; Ok 1; Raise OverflowError;
     Ok nan]%float.
Proof. vm_compute. reflexivity. Qed.

Example safe_int_samples :
  map safe_int [PNone; PStr ""; PStr "x"; PStr "12.9"; PStr "-12.9"; PInt 7;
                PFloat 1e20; PStr "inf"; PStr "nan"]
  = [Ok 0; Ok 0; Ok 0; Ok 12; Ok (-12); Ok 7; Ok 100000000000000000000;
     Raise OverflowError; Ok 0].
Proof. vm_compute. reflexivity. Qed.

(* ===================================================================== *)
(** * Formatted text *)
(* ===================================================================== *)

(** An f-string is kept as its pieces: the literal parts, the values
    formatted with [:.Nf], and the values formatted with [str]. *)
Inductive piece : Type :=
| Lit (s : string)
| FmtF (digits : nat) (x : float)
| Str (v : pyval).

Definition text := list piece.

(** [f"{v:.Nf}"]: a [str] has no format code ['f'] ([ValueError]), [None]
    has no format at all ([TypeError]); an [int] is converted to a double. *)
Definition format_f (digits : nat) (v : pyval) : result piece :=
  match v with
  | PNone => Raise TypeError
  | PStr _ => Raise ValueError
  | PBool b => Ok (FmtF digits (if b then 1 else 0)%float)
  | PInt z => do x <- float_of_int z; Ok (FmtF digits x)
  | PFloat x => Ok (FmtF digits x)
  end.

(** [sep.join(parts)] *)
Fixpoint join (sep : string) (parts : list text) : text :=
  match parts with
  | [] => []
  | [p] => p
  | p :: rest => p ++ Lit sep :: join sep rest
  end.

(* ===================================================================== *)
(** * Recommendations *)
(* ===================================================================== *)

Inductive Severity : Type := high | medium | low.

Record Recommendation : Type := {
  title : string;
  severity : Severity;
  diagnosis : text;
  actions : list text;
  expected_impact : string;
  timeframe : string
}.

(* ===================================================================== *)
(** * Benchmarks *)
(* ===================================================================== *)

Definition benchmarks : gmap string float :=
  <["CONVERSIONS" := 25.00%float]>
  (<["LEAD_GENERATION" := 15.00%float]>
  (<["LINK_CLICKS" := 1.20%float]>
  (<["REACH" := 5.00%float]>
  (<["BRAND_AWARENESS" := 10.00%float]>
  (<["VIDEO_VIEWS" := 0.50%float]> ∅))))).

(** [calculate_industry_benchmark(objective)]: [benchmarks.get(objective,
    20.00)].  Every scalar is hashable, and only a string equals a key. *)
Definition calculate_industry_benchmark (objective : pyval) : float :=
  match objective with
  | PStr s => default 20.00%float (benchmarks !! s)
  | _ => 20.00%float
  end.

(* ===================================================================== *)
(** * The creative rules: [analyze_creative_elements] *)
(* ===================================================================== *)

(** The number of maximal runs without white space that start in [l];
    [in_word]: a run has started before. *)
Fixpoint count_runs (in_word : bool) (l : list ascii) : nat :=
  match l with
  | [] => 0
  | c :: r =>
      if is_space c then count_runs false r
      else if in_word then count_runs true r
      else S (count_runs true r)
  end.

(** [len(text.split())]: the words are separated by the white space of
    Unicode. *)
Definition count_words (in_word : bool) (l : list ascii) : nat :=
  count_runs in_word (to_ascii l).

Example count_words_samples :
  map (fun s => count_words false (chars s))
    ["Compre agora"; "  a  b "; ""; of_bytes [97; 194; 160; 98]%N;
     of_bytes [97; 28; 98]%N; "promoção imperdível"]%string
  = [2; 2; 0; 2; 2; 2]%nat.
Proof. vm_compute. reflexivity. Qed.

(** [text.split()] exists on strings only. *)
Definition word_count (v : pyval) : result Z :=
  match v with
  | PStr s => Ok (Z.of_nat (count_words false (chars s)))
  | _ => Raise AttributeError
  end.

Definition text_length_recommendation (words : Z) : Recommendation := {|
  title := "Otimização de Texto";
  severity := medium;
  diagnosis := [Lit "Texto muito longo ("; Str (PInt words);
                Lit " palavras), ideal é <125 caracteres"];
  actions := [
    [Lit "Reduzir texto em 30-40% mantendo a mensagem principal"];
    [Lit "Testar versão com bullet points"];
    [Lit "Mover detalhes para a descrição ou website"]
  ];
  expected_impact := "Aumento de 10-20% no CTR";
  timeframe := "Imediato"
|}.

Definition missing_cta_recommendation : Recommendation := {|
  title := "Adicionar Call-to-Action";
  severity := high;
  diagnosis := [Lit "Nenhum CTA específico identificado no criativo"];
  actions := [
    [Lit "Adicionar CTA claro como 'Compre Agora' ou 'Saiba Mais'"];
    [Lit "Posicionar CTA nos primeiros 3 segundos (vídeo) ou acima do scroll (imagem)"];
    [Lit "Testar 2-3 variações de CTA"]
  ];
  expected_impact := "Aumento de 15-25% nas conversões";
  timeframe := "1-3 dias"
|}.

Definition analyze_creative_elements (creative_data : pydict)
  : result (list Recommendation) :=
  do r1 <-
    match creative_data !! "primary_text" with
    | Some txt =>
        do words <- word_count txt;
        if 125 <? words then Ok [text_length_recommendation words] else Ok []
    | None => Ok []
    end;
  let r2 :=
    match creative_data !! "cta" with
    | Some cta => if truthy cta then [] else [missing_cta_recommendation]
    | None => [missing_cta_recommendation]
    end in
  Ok (r1 ++ r2).

(* ===================================================================== *)
(** * The inputs of the engine *)
(* ===================================================================== *)

(** [ad_details]: the scalar fields, and the value under the key
    ['creative'] when it is a dictionary ([creative]); a scalar under that
    key is in [fields]. *)
Record AdDetails : Type := {
  fields : pydict;
  creative : option pydict
}.

(** [d[k]] *)
Definition getitem (d : pydict) (k : string) : result pyval :=
  match d !! k with
  | Some v => Ok v
  | None => Raise KeyError
  end.

(* ===================================================================== *)
(** * Rule 1: click-through rate *)
(* ===================================================================== *)

Definition avg_ctr_benchmark : float := 1.5%float.

Definition ctr_second_action (creative_type : pyval) : text :=
  if (eq_str creative_type "image" || eq_str creative_type "carousel")%bool
  then [Lit "Reduzir texto principal para menos de 125 caracteres"]
  else if eq_str creative_type "video"
  then [Lit "Adicionar legendas claras"]
  else [Lit "Simplificar mensagem"].

Definition ctr_recommendation (ad : AdDetails) (ctr : float)
    (causes : list text) : Recommendation :=
  let creative_type := get (fields ad) "ad_type" (PStr "desconhecido") in
  {| title := "Otimização de CTR Urgente";
     severity := high;
     diagnosis :=
       [Lit "CTR muito baixo ("; FmtF 2 ctr; Lit "% vs benchmark ";
        Str (PFloat avg_ctr_benchmark); Lit "%). Possíveis causas: "]
       ++ match causes with
          | [] => [Lit "criativo ou segmentação inadequados"]
          | _ => join ", " causes
          end;
     actions := [
       [Lit "Testar 3 novos criativos de "; Str creative_type;
        Lit " com abordagens diferentes"];
       ctr_second_action creative_type;
       [Lit "Ajustar público-alvo (atual: ";
        Str (get (fields ad) "targeting" (PStr "não especificado")); Lit ")"];
       [Lit "Implementar rodízio de criativos a cada 3 dias"]
     ];
     expected_impact := "Aumento de 30-50% no CTR";
     timeframe := "3-5 dias para ver resultados" |}.

(** The cause cited for a high frequency: the raw field is formatted, not
    its normalised value. *)
Definition frequency_cause (insights : pydict) : result (list text) :=
  do f <- safe_float (get insights "frequency" (PInt 0));
  if F.gt f 3 then
    do p <- format_f 1 (get insights "frequency" (PInt 0));
    Ok [[Lit "Frequência alta ("; p;
         Lit "x) indicando possível fadiga criativa"]]
  else Ok [].

Definition cpm_cause (insights : pydict) : result (list text) :=
  do m <- safe_float (get insights "cpm" (PInt 0));
  if F.gt m (avg_ctr_benchmark * 1.3)%float then
    do p <- format_f 2 (get insights "cpm" (PInt 0));
    Ok [[Lit "CPM elevado (R$"; p; Lit ") sugerindo público competitivo"]]
  else Ok [].

Definition ctr_rule (ad : AdDetails) (insights : pydict)
  : result (list Recommendation) :=
  do c <- safe_float (get insights "ctr" (PInt 0));
  let ctr := (c * 100)%float in
  if F.lt ctr (avg_ctr_benchmark * 0.7)%float then
    do d1 <- frequency_cause insights;
    do d2 <- cpm_cause insights;
    Ok [ctr_recommendation ad ctr (d1 ++ d2)]
  else Ok [].

(* ===================================================================== *)
(** * Rule 2: cost per conversion *)
(* ===================================================================== *)

Definition cost_recommendation (ad : AdDetails) (cost_per_conv benchmark_cpa : float)
  : Recommendation := {|
  title := "Redução de Custo por Conversão";
  severity := high;
  diagnosis :=
    [Lit "Custo por conversão (R$"; FmtF 2 cost_per_conv; Lit ") está ";
     FmtF 0 ((cost_per_conv / benchmark_cpa - 1) * 100)%float;
     Lit "% acima do benchmark ("; FmtF 2 benchmark_cpa; Lit ")"];
  actions := [
    [Lit "Otimizar página de destino para melhorar taxa de conversão"];
    [Lit "Testar novos CTAs no anúncio e na landing page"];
    [Lit "Ajustar bid strategy (atual: ";
     Str (get (fields ad) "bid_strategy" (PStr "não especificado")); Lit ")"];
    [Lit "Segmentar público semelhante a converters (lookalike)"]
  ];
  expected_impact := "Redução de 20-35% no CPA";
  timeframe := "1-2 semanas para otimização completa"
|}.

(** The rule as the engine runs it, given the two normalised fields. *)
Definition cost_rule_on (ad : AdDetails) (cost_per_conv conv_rate : float)
  : result (list Recommendation) :=
  if (F.gt cost_per_conv 0 && F.gt conv_rate 0)%bool then
    do objective <- getitem (fields ad) "campaign_objective";
    let benchmark_cpa := calculate_industry_benchmark objective in
    if F.gt cost_per_conv (benchmark_cpa * 1.2)%float
    then Ok [cost_recommendation ad cost_per_conv benchmark_cpa]
    else Ok []
  else Ok [].

Definition cost_rule (ad : AdDetails) (insights : pydict)
  : result (list Recommendation) :=
  do cost_per_conv <- safe_float (get insights "cost_per_conversion" (PInt 0));
  do conv_rate <- safe_float (get insights "conversion_rate" (PInt 0));
  cost_rule_on ad cost_per_conv conv_rate.

(* ===================================================================== *)
(** * Rule 3: frequency and saturation *)
(* ===================================================================== *)

Definition frequency_actions : list text := [
  [Lit "Pausar este anúncio por 7 dias"];
  [Lit "Criar 2-3 variações com novos criativos"];
  [Lit "Expandir público-alvo em 15-20%"]
].

Definition video_actions : list text := [
  [Lit "Testar versão resumida do vídeo (15-30s)"];
  [Lit "Adicionar hook nos primeiros 3 segundos"]
].

Definition frequency_recommendation (ad : AdDetails) (freq : float)
  : Recommendation := {|
  title := "Rotação de Criativos Necessária";
  severity := medium;
  diagnosis := [Lit "Frequência alta ("; FmtF 1 freq;
                Lit "x) indica saturação do público"];
  actions :=
    (* [rec['actions'].extend([...])] when the ad is a video;
       [ad_details.get('ad_type')] is [None] when the key is absent *)
    if eq_str (get (fields ad) "ad_type" PNone) "video"
    then frequency_actions ++ video_actions
    else frequency_actions;
  expected_impact := "Melhoria de 15-25% nas taxas de engajamento";
  timeframe := "Imediato"
|}.

Definition frequency_rule (ad : AdDetails) (insights : pydict)
  : result (list Recommendation) :=
  do freq <- safe_float (get insights "frequency" (PInt 0));
  if F.gt freq 3.5 then Ok [frequency_recommendation ad freq] else Ok [].

(* ===================================================================== *)
(** * Rule 4: demographic segments *)
(* ===================================================================== *)

(** A row of [demo_df].  The two counters are in columns of 64-bit
    integers, as the counts of the API are; a count beyond 64 bits would
    turn its column into one of Python objects, which is not modelled. *)
Record DemoRow : Type := {
  d_age : pyval;
  d_gender : pyval;
  d_impressions : Z;
  d_spend : float;
  d_conversions : Z
}.

(** [series.replace(0, 1)] on an integer column, element by element. *)
Definition replace_0_1 (n : Z) : Z := if n =? 0 then 1 else n.

(** [demo_df['spend'] / demo_df['conversions'].replace(0, 1)] on one row:
    the integer column is converted to doubles, the division is IEEE's. *)
Definition cpa (r : DemoRow) : float :=
  (d_spend r / F.of_Z (replace_0_1 (d_conversions r)))%float.

Definition demo_row (d : pydict) : result DemoRow :=
  do i <- safe_int (get d "impressions" (PInt 0));
  do s <- safe_float (get d "spend" (PInt 0));
  do c <- safe_int (get d "conversions" (PInt 0));
  Ok {| d_age := get d "age" (PStr "N/A");
        d_gender := get d "gender" (PStr "N/A");
        d_impressions := i; d_spend := s; d_conversions := c |}.

(** [[... for d in demographics if 'age' in d]] *)
Fixpoint demo_rows (demographics : list pydict) : result (list DemoRow) :=
  match demographics with
  | [] => Ok []
  | d :: rest =>
      if has_key d "age" then
        do r <- demo_row d;
        do rs <- demo_rows rest;
        Ok (r :: rs)
      else demo_rows rest
  end.

(** The first element with the greatest value; NaN compares false with
    everything, so it never replaces the current best. *)
Definition first_max {A} (value : A -> float) (x : A) (l : list A) : A :=
  fold_left (fun best y => if F.gt (value y) (value best) then y else best) l x.

(** [demo_df.sort_values('cpa', ascending=False).iloc[0]]: rows without a
    CPA (NaN) go last, the greatest CPA comes first.  Among rows of equal
    CPA the first one is taken; pandas leaves that order to its sorting
    routine, and nothing below depends on it. *)
Definition worst_performing (rows : list DemoRow) : option DemoRow :=
  match List.filter (fun r => negb (is_nan (cpa r))) rows with
  | r :: rest => Some (first_max cpa r rest)
  | [] => head rows
  end.

Definition demographic_recommendation (w : DemoRow) (cost_per_conv : float)
  : Recommendation := {|
  title := "Ajuste de Segmentação Demográfica";
  severity := medium;
  diagnosis :=
    [Lit "Segmento "; Str (d_age w); Lit " "; Str (d_gender w);
     Lit " tem CPA "; FmtF 2 (cpa w); Lit " (";
     FmtF 0 ((cpa w / cost_per_conv - 1) * 100)%float;
     Lit "% acima da média)"];
  actions := [
    [Lit "Reduzir orçamento para "; Str (d_age w); Lit " "; Str (d_gender w);
     Lit " em 30%"];
    [Lit "Criar anúncio específico para este segmento"];
    [Lit "Testar mensagens personalizadas para este grupo"]
  ];
  expected_impact := "Redução de 15-20% no CPA geral";
  timeframe := "5-7 dias"
|}.

(** [cost_per_conv] is the value that rule 2 normalised. *)
Definition demographic_rule (cost_per_conv : float) (demographics : list pydict)
  : result (list Recommendation) :=
  do rows <- demo_rows demographics;
  match worst_performing rows with
  | Some w =>
      if F.gt (cpa w) (cost_per_conv * 1.5)%float
      then Ok [demographic_recommendation w cost_per_conv]
      else Ok []
  | None => Ok []
  end.

(* ===================================================================== *)
(** * Data frames *)
(* ===================================================================== *)

(** A time stamp: the days since 1970-01-01 and the hour of the day. *)
Record Timestamp : Type := {
  ts_day : Z;
  ts_hour : Z
}.

(** A column with its dtype. *)
Inductive column : Type :=
| ColFloat (l : list float)
| ColInt (l : list Z)
| ColStr (l : list string)
| ColTime (l : list Timestamp).

(** A [DataFrame]: its columns in order, by name.  It is a mutable object:
    the functions that assign a column return the frame as it is after. *)
Definition DataFrame : Type := list (string * column).

Definition column_length (c : column) : nat :=
  match c with
  | ColFloat l => length l
  | ColInt l => length l
  | ColStr l => length l
  | ColTime l => length l
  end.

(** [df[name]] *)
Fixpoint df_get (df : DataFrame) (name : string) : result column :=
  match df with
  | [] => Raise KeyError
  | (n, c) :: rest => if String.eqb n name then Ok c else df_get rest name
  end.

(** [df[name] = c]: the column is replaced where it is, or added last. *)
Fixpoint df_set (df : DataFrame) (name : string) (c : column) : DataFrame :=
  match df with
  | [] => [(name, c)]
  | (n, c') :: rest =>
      if String.eqb n name then (n, c) :: rest
      else (n, c') :: df_set rest name c
  end.

(** [series.dt]: only on a column of time stamps. *)
Definition dt (c : column) : result (list Timestamp) :=
  match c with
  | ColTime l => Ok l
  | _ => Raise AttributeError
  end.

(** [.dt.day_name()]: 1970-01-01 was a Thursday. *)
Definition day_name (t : Timestamp) : string :=
  match (ts_day t + 3) mod 7 with
  | 0 => "Monday"
  | 1 => "Tuesday"
  | 2 => "Wednesday"
  | 3 => "Thursday"
  | 4 => "Friday"
  | 5 => "Saturday"
  | _ => "Sunday"
  end.

(** The values of a numeric column, as doubles. *)
Definition numeric (c : column) : result (list float) :=
  match c with
  | ColFloat l => Ok l
  | ColInt l => Ok (map F.of_Z l)
  | _ => Raise TypeError
  end.

(** The grouped reductions of pandas add with compensation (Kahan): a
    group is its running sum and the compensation of that sum, both 0 at
    first.  A value that is NaN is skipped; a compensation that is NaN (an
    infinite value came in) is set back to 0. *)
Definition kahan_add (group : float * float) (val : float) : float * float :=
  if is_nan val then group
  else
    let (sumx, compensation) := group in
    let y := (val - compensation)%float in
    let t := (sumx + y)%float in
    let c := (t - sumx - y)%float in
    (t, if is_nan c then 0%float else c).


Section GroupBy.
Context {K : Type} (eqb leb : K -> K -> bool).

Fixpoint group_add (k : K) (v : float) (groups : list (K * (float * float)))
  : list (K * (float * float)) :=
  match groups with
  | [] => [(k, kahan_add (0%float, 0%float) v)]
  | (k', g) :: rest =>
      if eqb k k' then (k', kahan_add g v) :: rest
      else (k', g) :: group_add k v rest
  end.

Fixpoint insert_group (g : K * float) (groups : list (K * float))
  : list (K * float) :=
  match groups with
  | [] => [g]
  | g' :: rest =>
      if leb (fst g) (fst g') then g :: groups
      else g' :: insert_group g rest
  end.

(** [df.groupby(key)[col].sum()]: one entry per key, keys ascending. *)
Definition groupby_sum (keys : list K) (values : list float)
  : list (K * float) :=
  fold_right insert_group []
    (map (fun g => (fst g, fst (snd g)))
       (fold_left (fun gs kv => group_add (fst kv) (snd kv) gs)
          (combine keys values) [])).

(** [series.idxmax()]: the label of the first greatest value; there is
    none in an empty series ([ValueError]). *)
Definition idxmax (s : list (K * float)) : result K :=
  match List.filter (fun g => negb (is_nan (snd g))) s with
  | g :: rest => Ok (fst (first_max snd g rest))
  | [] => Raise ValueError
  end.
End GroupBy.

(* ===================================================================== *)
(** * Rule 5: scheduling *)
(* ===================================================================== *)

Definition scheduling_recommendation (best_day : string) (best_hour : Z)
  : Recommendation := {|
  title := "Otimização de Agendamento";
  severity := low;
  diagnosis := [Lit "Melhor desempenho às "; Str (PInt best_hour);
                Lit "h nas "; Str (PStr best_day); Lit "s"];
  actions := [
    [Lit "Concentrar 40% do orçamento nas "; Str (PStr best_day); Lit "s"];
    [Lit "Aumentar bids em 15% entre "; Str (PInt (best_hour - 1)); Lit "-";
     Str (PInt (best_hour + 1)); Lit "h"];
    [Lit "Reduzir bids em 20% nos horários de pior desempenho"]
  ];
  expected_impact := "Aumento de 10-15% na eficiência do orçamento";
  timeframe := "Próxima semana"
|}.

(** [temporal_data['day_of_week'] = temporal_data['date_start'].dt.day_name()] *)
Definition assign_day_of_week (df : DataFrame) : result DataFrame :=
  do c <- df_get df "date_start";
  do ts <- dt c;
  Ok (df_set df "day_of_week" (ColStr (map day_name ts))).

(** [temporal_data['hour'] = temporal_data['date_start'].dt.hour] *)
Definition assign_hour (df : DataFrame) : result DataFrame :=
  do c <- df_get df "date_start";
  do ts <- dt c;
  Ok (df_set df "hour" (ColInt (map ts_hour ts))).

(** [temporal_data.groupby('day_of_week')['conversions'].sum().idxmax()] *)
Definition best_day_of_week (df : DataFrame) : result string :=
  do k <- df_get df "day_of_week";
  do v <- df_get df "conversions";
  do vs <- numeric v;
  match k with
  | ColStr days => idxmax (groupby_sum String.eqb String.leb days vs)
  | _ => Raise TypeError
  end.

(** [temporal_data.groupby('hour')['conversions'].sum().idxmax()] *)
Definition best_hour (df : DataFrame) : result Z :=
  do k <- df_get df "hour";
  do v <- df_get df "conversions";
  do vs <- numeric v;
  match k with
  | ColInt hours => idxmax (groupby_sum Z.eqb Z.leb hours vs)
  | _ => Raise TypeError
  end.

(** The rule on a frame that is there: the frame after the rule, and what
    the rule gave.  The two assignments change the caller's frame, and the
    change stays when a later statement raises. *)
Definition scheduling_rule (df : DataFrame)
  : DataFrame * result (list Recommendation) :=
  match assign_day_of_week df with
  | Raise e => (df, Raise e)
  | Ok df1 =>
      match assign_hour df1 with
      | Raise e => (df1, Raise e)
      | Ok df2 =>
          (df2,
           do day <- best_day_of_week df2;
           do hour <- best_hour df2;
           Ok [scheduling_recommendation day hour])
      end
  end.

(* ===================================================================== *)
(** * The prioritizer *)
(* ===================================================================== *)

(** [priority_order = {'high': 0, 'medium': 1, 'low': 2}] *)
Definition priority_order (s : Severity) : Z :=
  match s with
  | high => 0
  | medium => 1
  | low => 2
  end.

Section SortByKey.
Context {A K : Type} (key : A -> K) (leb : K -> K -> bool).

Fixpoint insert_by_key (x : A) (l : list A) : list A :=
  match l with
  | [] => [x]
  | y :: rest =>
      if leb (key x) (key y) then x :: l else y :: insert_by_key x rest
  end.

(** A stable sort by [key]: an element goes before the first one whose
    key is not smaller, so equal keys keep their order. *)
Definition sort_by_key (l : list A) : list A :=
  fold_right insert_by_key [] l.
End SortByKey.

(** [recommendations.sort(key=lambda x: priority_order[x['severity']])]:
    Python's [list.sort] is stable, and a stable sort has one result. *)
Definition prioritize (recommendations : list Recommendation)
  : list Recommendation :=
  sort_by_key (fun x => priority_order (severity x)) Z.leb recommendations.

(* ===================================================================== *)
(** * The engine: [generate_ai_optimization_recommendations] *)
(* ===================================================================== *)

(** The four arguments.  They are objects of the caller: the engine gives
    back the state they are in when it returns or raises. *)
Record Inputs : Type := {
  ad_details : AdDetails;
  insights : pydict;
  temporal_data : option DataFrame;
  demographics : list pydict
}.

Definition with_temporal (inp : Inputs) (df : DataFrame) : Inputs :=
  {| ad_details := ad_details inp;
     insights := insights inp;
     temporal_data := Some df;
     demographics := demographics inp |}.

(** Rules 1 to 4 read their inputs only.  Rule 4 compares with the
    [cost_per_conv] that rule 2 normalised. *)
Definition rules_1_to_4 (inp : Inputs) : result (list Recommendation) :=
  let ad := ad_details inp in
  do r1 <- ctr_rule ad (insights inp);
  do cost_per_conv <-
    safe_float (get (insights inp) "cost_per_conversion" (PInt 0));
  do conv_rate <- safe_float (get (insights inp) "conversion_rate" (PInt 0));
  do r2 <- cost_rule_on ad cost_per_conv conv_rate;
  do r3 <- frequency_rule ad (insights inp);
  do r4 <- demographic_rule cost_per_conv (demographics inp);
  Ok (r1 ++ r2 ++ r3 ++ r4).

(** Rule 5, on the frame if there is one. *)
Definition rule_5 (inp : Inputs) : Inputs * result (list Recommendation) :=
  match temporal_data inp with
  | Some df =>
      let (df', r) := scheduling_rule df in (with_temporal inp df', r)
  | None => (inp, Ok [])
  end.

(** [analyze_creative_elements] on a value that is no dictionary.  On a
    string [in] is the substring test, and a string is indexed by integers
    only ([TypeError]); another scalar is no container ([TypeError]). *)
Definition analyze_creative_scalar (creative_data : pyval)
  : result (list Recommendation) :=
  match creative_data with
  | PStr s =>
      if str_contains "primary_text" s then Raise TypeError
      else if str_contains "cta" s then Raise TypeError
      else Ok [missing_cta_recommendation]
  | _ => Raise TypeError
  end.

(** Rule 6, on whatever is under the key creative, if the key is there. *)
Definition rule_6 (inp : Inputs) : result (list Recommendation) :=
  match creative (ad_details inp) with
  | Some creative_data => analyze_creative_elements creative_data
  | None =>
      match fields (ad_details inp) !! "creative" with
      | Some creative_data => analyze_creative_scalar creative_data
      | None => Ok []
      end
  end.

(** The recommendations in the order in which the rules append them. *)
Definition emitted (inp : Inputs) : Inputs * result (list Recommendation) :=
  match rules_1_to_4 inp with
  | Raise e => (inp, Raise e)
  | Ok r14 =>
      let (inp', r5) := rule_5 inp in
      (inp',
       do r5' <- r5;
       do r6 <- rule_6 inp';
       Ok (r14 ++ r5' ++ r6))
  end.

Definition generate_ai_optimization_recommendations (inp : Inputs)
  : Inputs * result (list Recommendation) :=
  let (inp', r) := emitted inp in
  (inp', do recommendations <- r; Ok (prioritize recommendations)).

(* ===================================================================== *)
(** * Derived metrics *)
(* ===================================================================== *)

(** ** Segment level: [show_demographic_analysis] *)





(** The pairwise summation of numpy on a block of 8 to 128 values: eight
    running sums over the values taken eight by eight, added two by two,
    and then the values that are left of a length that is no multiple of
    8, one by one. *)
Fixpoint add_by_eight (r : list float) (l : list float) : list float * list float :=
  match l with
  | a0 :: a1 :: a2 :: a3 :: a4 :: a5 :: a6 :: a7 :: rest =>
      match r with
      | [r0; r1; r2; r3; r4; r5; r6; r7] =>
          add_by_eight [r0 + a0; r1 + a1; r2 + a2; r3 + a3;
                        r4 + a4; r5 + a5; r6 + a6; r7 + a7]%float rest
      | _ => (r, l)
      end
  | _ => (r, l)
  end.

Definition block_sum (l : list float) : float :=
  match l with
  | a0 :: a1 :: a2 :: a3 :: a4 :: a5 :: a6 :: a7 :: rest =>
      match add_by_eight [a0; a1; a2; a3; a4; a5; a6; a7] rest with
      | ([r0; r1; r2; r3; r4; r5; r6; r7], others) =>
          fold_left add others
            (((r0 + r1) + (r2 + r3)) + ((r4 + r5) + (r6 + r7)))%float
      | (_, _) => fold_left add l 0%float
      end
  | _ => fold_left add l 0%float
  end.

(** Above 128 values the block is cut in two, the first half of a length
    that is a multiple of 8, and the sums of the halves are added. *)
Fixpoint pairwise_sum (fuel : nat) (l : list float) : float :=
  match fuel with
  | O => block_sum l
  | S fuel' =>
      let n := length l in
      if (n <=? 128)%nat then block_sum l
      else
        let n2 := (n / 2 - (n / 2) mod 8)%nat in
        (pairwise_sum fuel' (firstn n2 l) + pairwise_sum fuel' (skipn n2 l))%float
  end.

(** [values.sum()] of numpy on a column of doubles: the reduction starts
    from 0 and adds the pairwise sum of the column; a list of [n] values is
    cut fewer than [n] times. *)
Definition np_sum (l : list float) : float :=
  (0 + pairwise_sum (length l) l)%float.

(** [series.mean()]: NaN counts for nothing; the mean of no value is NaN. *)
Definition mean (l : list float) : float :=
  let count := length (List.filter (fun x => negb (is_nan x)) l) in
  if (count =? 0)%nat then nan
  else (np_sum (map (fun x => if is_nan x then 0 else x) l)
        / F.of_Z (Z.of_nat count))%float.





(** ** Time-series level: [get_ad_insights_over_time] *)






(** ** Aggregate level: [generate_strategic_analysis] *)

Record Aggregate : Type := {
  a_ctr : float;
  a_conversion_rate : float;
  a_cost_per_conversion : float;
  a_cpm : float;
  a_cpc : float
}.

(** The preliminary computations of [generate_strategic_analysis]; the
    [else 0] of Python is the integer 0, which is the double 0 wherever it
    is used. *)
Definition strategic_metrics (insights : pydict) : result Aggregate :=
  do imp0 <- safe_float (get insights "impressions" (PInt 0));
  do ctr <-
    (if F.gt imp0 0 then
       do c <- safe_float (get insights "ctr" (PInt 0)); Ok (c * 100)%float
     else Ok 0%float);
  do clicks <- safe_float (get insights "clicks" (PInt 0));
  do conversions <- safe_float (get insights "conversions" (PInt 0));
  do spend <- safe_float (get insights "spend" (PInt 0));
  do impressions <- safe_float (get insights "impressions" (PInt 0));
  Ok {| a_ctr := ctr;
        a_conversion_rate :=
          if F.gt clicks 0 then (conversions / clicks * 100)%float else 0%float;
        a_cost_per_conversion :=
          if F.gt conversions 0 then (spend / conversions)%float else 0%float;
        a_cpm :=
          if F.gt impressions 0 then (spend / impressions * 1000)%float
          else 0%float;
        a_cpc := if F.gt clicks 0 then (spend / clicks)%float else 0%float |}.

(* ===================================================================== *)
(** * Growth rates: [generate_strategic_analysis] *)
(* ===================================================================== *)

(** [df.tail(n)] on a column *)
Definition tail {A} (n : nat) (l : list A) : list A :=
  skipn (length l - n) l.

Fixpoint pct_change_from (prev : float) (l : list float) : list float :=
  match l with
  | [] => []
  | x :: rest => (x / prev - 1)%float :: pct_change_from x rest
  end.

(** [series.pct_change()]: the first element has no predecessor. *)
Definition pct_change (l : list float) : list float :=
  match l with
  | [] => []
  | x :: rest => nan :: pct_change_from x rest
  end.

(** [temporal_data.tail(7)[metric].pct_change().mean() * 100] *)
Definition recent_growth_rate (df : DataFrame) (metric : string)
  : result float :=
  do c <- df_get df metric;
  do xs <- numeric c;
  Ok (mean (pct_change (tail 7 xs)) * 100)%float.

(* ===================================================================== *)
(** * Age buckets: [age_sort_key] *)
(* ===================================================================== *)

(** [s.split(sep)] for a one-character separator. *)
Fixpoint split_on (sep : ascii) (l : list ascii) : list (list ascii) :=
  match l with
  | [] => [[]]
  | c :: rest =>
      if Ascii.eqb c sep then [] :: split_on sep rest
      else match split_on sep rest with
           | h :: t => (c :: h) :: t
           | [] => [[c]]
           end
  end.

(** ['-' in s] *)
Definition has_dash (l : list ascii) : bool :=
  existsb (fun c => Ascii.eqb c "-") l.

(** Every exception ends in [(999, 999)]: the [except] is bare. *)
Definition age_sort_key (age_str : string) : Z * Z :=
  if String.eqb age_str "65+" then (65, 100)
  else if has_dash (chars age_str) then
    match split_on "-" (chars age_str) with
    | [a; b] =>
        match int_of_chars a, int_of_chars b with
        | Some start, Some end_ => (start, end_)
        | _, _ => (999, 999)
        end
    | _ => (999, 999)
    end
  else
    match int_of_chars (chars age_str) with
    | Some age => (age, age)
    | None => (999, 999)
    end.

(** The order of Python on pairs of integers. *)
Definition pair_leb (x y : Z * Z) : bool :=
  (fst x <? fst y) || ((fst x =? fst y) && (snd x <=? snd y)).

Definition pair_lt (x y : Z * Z) : Prop :=
  fst x < fst y \/ (fst x = fst y /\ snd x < snd y).

(** [sort_values('sort_key')] on the bucket labels of the frame, from
    which lines 640-641 have dropped the missing ages and the label N/A.
    For buckets of different keys the result does not depend on the
    sorting routine. *)
Definition sort_ages (ages : list string) : list string :=
  sort_by_key age_sort_key pair_leb ages.

Example age_sort_key_samples :
  map age_sort_key ["18-24"; "65+"; "13-17"; "unknown"; "N/A"; "30"; "-5";
                    "18-24-30"; "18 - 24"; "66-70"; ""]%string
  = [(18, 24); (65, 100); (13, 17); (999, 999); (999, 999); (30, 30);
     (999, 999); (999, 999); (18, 24); (66, 70); (999, 999)].
Proof. vm_compute. reflexivity. Qed.

(* ===================================================================== *)
(** * The short rule set: [generate_performance_recommendations] *)
(* ===================================================================== *)

(** The ['type'] of a recommendation of the short rule set. *)
Inductive Kind : Type := kind_error | kind_success | kind_warning.

Record PerfRecommendation : Type := {
  p_type : Kind;
  p_title : string;
  p_message : text;
  p_actions : list string
}.

Definition low_ctr_recommendation (ctr : float) : PerfRecommendation := {|
  p_type := kind_error;
  p_title := "CTR Baixo";
  p_message := [Lit "CTR de "; FmtF 2 ctr;
                Lit "% está abaixo do benchmark recomendado (1-2%)"];
  p_actions := [
    "Teste diferentes imagens/thumbnails no criativo";
    "Reduza o texto principal (ideal <125 caracteres)";
    "Posicione o CTA de forma mais destacada";
    "Teste diferentes cópias de texto"
  ]%string
|}.

Definition high_ctr_recommendation (ctr : float) : PerfRecommendation := {|
  p_type := kind_success;
  p_title := "CTR Alto";
  p_message := [Lit "Excelente CTR de "; FmtF 2 ctr; Lit "%!"];
  p_actions := [
    "Aumente o orçamento para escalar este desempenho";
    "Replique a estratégia para públicos similares";
    "Documente as características deste anúncio"
  ]%string
|}.

Definition high_cost_recommendation (cost_per_conv : float)
  : PerfRecommendation := {|
  p_type := kind_error;
  p_title := "Custo Alto por Conversão";
  p_message := [Lit "R$"; FmtF 2 cost_per_conv;
                Lit " por conversão (acima da média)"];
  p_actions := [
    "Otimize a landing page (taxa de conversão pode estar baixa)";
    "Ajuste a segmentação para públicos mais qualificados";
    "Teste diferentes objetivos de campanha";
    "Verifique a qualidade do tráfego"
  ]%string
|}.

Definition high_frequency_recommendation (freq : float)
  : PerfRecommendation := {|
  p_type := kind_warning;
  p_title := "Frequência Elevada";
  p_message := [Lit "Média de "; FmtF 1 freq;
                Lit " impressões por usuário (risco de fadiga)"];
  p_actions := [
    "Reduza o orçamento ou pause temporariamente";
    "Atualize o criativo para evitar saturação";
    "Expanda o público-alvo"
  ]%string
|}.

(** [temporal_data['frequency'].mean()] *)
Definition frequency_mean (df : DataFrame) : result float :=
  do c <- df_get df "frequency";
  do xs <- numeric c;
  Ok (mean xs).

Definition performance_ctr (ctr : float) : list PerfRecommendation :=
  if F.lt ctr 0.8 then [low_ctr_recommendation ctr]
  else if F.gt ctr 2.5 then [high_ctr_recommendation ctr]
  else [].

Definition performance_cost (cost_per_conv : float) : list PerfRecommendation :=
  if F.gt cost_per_conv 50 then [high_cost_recommendation cost_per_conv] else [].

Definition performance_frequency (temporal_data : option DataFrame)
  : result (list PerfRecommendation) :=
  match temporal_data with
  | Some df =>
      do freq <- frequency_mean df;
      if F.gt freq 3.5 then Ok [high_frequency_recommendation freq] else Ok []
  | None => Ok []
  end.

Definition generate_performance_recommendations (insights : pydict)
    (temporal_data : option DataFrame) : result (list PerfRecommendation) :=
  do c <- safe_float (get insights "ctr" (PInt 0));
  let r1 := performance_ctr (c * 100)%float in
  do cost_per_conv <- safe_float (get insights "cost_per_conversion" (PInt 0));
  let r2 := performance_cost cost_per_conv in
  do r3 <- performance_frequency temporal_data;
  Ok (r1 ++ r2 ++ r3).

(* ===================================================================== *)
(** * The action plan of [show_ad_results] *)
(* ===================================================================== *)

Record PlanRow : Type := {
  prioridade : string;
  acao : text;
  responsavel : string;
  prazo : string
}.

Definition prioridade_label (s : Severity) : string :=
  match s with
  | high => "Alta"
  | medium => "Média"
  | low => "Baixa"
  end.

(** One row of the plan; [r['actions'][0]] is an [IndexError] ([None]
    here) on a recommendation without actions. *)
Definition plan_row (r : Recommendation) : option PlanRow :=
  match actions r with
  | first :: _ =>
      Some {| prioridade := prioridade_label (severity r);
              acao := first;
              responsavel :=
                if str_contains "criativo" (str_lower (title r))
                then "Equipe de Criativos" else "Gestor de Tráfego";
              prazo := timeframe r |}
  | [] => None
  end.

Fixpoint plan_rows (recs : list Recommendation) : option (list PlanRow) :=
  match recs with
  | [] => Some []
  | r :: rest =>
      match plan_row r, plan_rows rest with
      | Some row, Some rows => Some (row :: rows)
      | _, _ => None
      end
  end.

(** [action_plan.sort_values('Prioridade')], on the branch where the list
    of recommendations is not empty: the rows in ascending order of the
    label, as strings.  The order among the rows of one label is that of
    the sorting routine; the properties below read the labels only. *)
Definition sorted_action_plan (recs : list Recommendation)
  : option (list PlanRow) :=
  match plan_rows recs with
  | Some rows => Some (sort_by_key prioridade String.leb rows)
  | None => None
  end.

(* ===================================================================== *)
(** * Demographic segments: [get_ad_demographics] and its readers *)
(* ===================================================================== *)

(** The dictionary built for one row of the breakdown. *)
Definition demographic_segment (insight : pydict) : result pydict :=
  do impressions <- safe_int (get insight "impressions" (PInt 0));
  do reach <- safe_int (get insight "reach" (PInt 0));
  do clicks <- safe_int (get insight "clicks" (PInt 0));
  do spend <- safe_float (get insight "spend" (PInt 0));
  do conversions <- safe_int (get insight "conversions" (PInt 0));
  do ctr <- safe_float (get insight "ctr" (PInt 0));
  do cpm <- safe_float (get insight "cpm" (PInt 0));
  Ok (<["age" := get insight "age" (PStr "N/A")]>
      (<["gender" := get insight "gender" (PStr "N/A")]>
      (<["impressions" := PInt impressions]>
      (<["reach" := PInt reach]>
      (<["clicks" := PInt clicks]>
      (<["spend" := PFloat spend]>
      (<["conversions" := PInt conversions]>
      (<["ctr" := PFloat (ctr * 100)%float]>
      (<["cpm" := PFloat cpm]> ∅))))))))).

(** The loop over the rows: a row whose construction raises is left out
    ([except Exception: continue]). *)
Fixpoint processed_data (insights : list pydict) : list pydict :=
  match insights with
  | [] => []
  | insight :: rest =>
      match demographic_segment insight with
      | Ok segment => segment :: processed_data rest
      | Raise _ => processed_data rest
      end
  end.

(** [show_detailed_audience_analysis]:
    [[d for d in demographics if d.get('segment_type') == segment_type]] *)
Definition segment_data (demographics : list pydict) (segment_type : string)
  : list pydict :=
  List.filter (fun d => eq_str (get d "segment_type" PNone) segment_type)
    demographics.

(** [v > 0] *)
Definition py_positive (v : pyval) : result bool :=
  match v with
  | PNone | PStr _ => Raise TypeError
  | PBool b => Ok b
  | PInt z => Ok (0 <? z)
  | PFloat x => Ok (F.gt x 0)
  end.

(** [show_video_analysis]:
    [[d for d in demographics if 'video_views' in d and d['video_views'] > 0]] *)
Fixpoint video_data (demographics : list pydict) : result (list pydict) :=
  match demographics with
  | [] => Ok []
  | d :: rest =>
      do keep <- match d !! "video_views" with
                 | Some v => py_positive v
                 | None => Ok false
                 end;
      do others <- video_data rest;
      Ok (if keep then d :: others else others)
  end.

(* ===================================================================== *)
(** * Daily rows: [get_ad_insights_over_time] *)
(* ===================================================================== *)

(** A row of the API: its scalar fields and its list of actions. *)
Record Insight : Type := {
  i_fields : pydict;
  i_actions : option (list pydict)
}.

Definition temporal_fields : list string := [
  "date_start"; "impressions"; "reach"; "spend"; "clicks"; "ctr";
  "frequency"; "cpm";
  "conversions"; "cost_per_conversion"; "unique_clicks"; "actions"
]%string.

(** The values that the generator of line 777 yields:
    [float(a['value']) for a in actions
       if a['action_type'] == 'conversion' and 'value' in a]. *)
Fixpoint conversion_values (acts : list pydict) : result (list float) :=
  match acts with
  | [] => Ok []
  | a :: rest =>
      do action_type <- getitem a "action_type";
      do here <-
        (if (eq_str action_type "conversion" && has_key a "value")%bool
         then do v <- getitem a "value"; do x <- py_float v; Ok [x]
         else Ok []);
      do others <- conversion_values rest;
      Ok (here ++ others)
  end.

(** [sum(...)]: the integer 0 when there is nothing to add. *)
Definition py_sum (xs : list float) : pyval :=
  match xs with
  | [] => PInt 0
  | _ => PFloat (fold_left add xs 0%float)
  end.

Definition temporal_row_field (insight : Insight) (row : pydict)
    (field : string) : result pydict :=
  if String.eqb field "actions" then
    do xs <- conversion_values (default [] (i_actions insight));
    Ok (<["conversions" := py_sum xs]> row)
  else Ok (<[field := get (i_fields insight) field (PInt 0)]> row).

(** The loop [for field in fields] on one row of the API. *)
Definition temporal_row (insight : Insight) : result pydict :=
  fold_left (fun acc field => do row <- acc; temporal_row_field insight row field)
    temporal_fields (Ok ∅).

(* ===================================================================== *)
(** * Strategic analysis: improvements and action plan *)
(* ===================================================================== *)

(** The fixed benchmarks of [generate_strategic_analysis]. *)
Definition benchmark_ctr : float := 2.0%float.
Definition benchmark_conversion_rate : float := 3.0%float.
Definition benchmark_cost_per_conversion : float := 50.0%float.

(** [freq_mean] *)
Definition strategic_frequency (temporal_data : option DataFrame)
  : result float :=
  match temporal_data with
  | Some df => frequency_mean df
  | None => Ok 0%float
  end.

(** The list [improvements] (section 3). *)
Definition improvements (m : Aggregate) (freq_mean : float) : list text :=
  (if F.lt (a_ctr m) (benchmark_ctr * 0.8)%float
   then [[Lit "CTR baixo ("; FmtF 2 (a_ctr m);
          Lit "%) - Testar novos criativos e chamadas para ação"]] else [])
  ++ (if F.lt (a_conversion_rate m) (benchmark_conversion_rate * 0.8)%float
      then [[Lit "Taxa de conversão baixa ("; FmtF 2 (a_conversion_rate m);
             Lit "%) - Otimizar landing page e jornada do usuário"]] else [])
  ++ (if F.gt (a_cost_per_conversion m) (benchmark_cost_per_conversion * 1.2)%float
      then [[Lit "Custo por conversão alto (R$"; FmtF 2 (a_cost_per_conversion m);
             Lit ") - Refinar público-alvo e segmentação"]] else [])
  ++ (if F.gt freq_mean 3.5
      then [[Lit "Frequência alta ("; FmtF 1 freq_mean;
             Lit "x) - Risco de saturação, considere atualizar criativos ou expandir público"]]
      else []).

Record PlanEntry : Type := {
  e_prioridade : string;
  e_acao : string;
  e_tarefas : list string;
  e_prazo : string;
  e_metrica : text
}.

Definition plan_ctr : PlanEntry := {|
  e_prioridade := "Alta";
  e_acao := "Otimizar CTR";
  e_tarefas := ["Criar 3 variações de imagens/thumbnails";
                "Testar diferentes textos principais (max 125 chars)";
                "Posicionar CTA mais destacado"]%string;
  e_prazo := "3 dias";
  e_metrica := [Lit "Aumentar CTR para ≥ "; Str (PFloat benchmark_ctr); Lit "%"]
|}.

Definition plan_conversion : PlanEntry := {|
  e_prioridade := "Alta";
  e_acao := "Melhorar Taxa de Conversão";
  e_tarefas := ["Otimizar landing page (velocidade, design, CTA)";
                "Implementar pop-ups inteligentes";
                "Simplificar formulários de conversão"]%string;
  e_prazo := "5 dias";
  e_metrica := [Lit "Aumentar conversão para ≥ ";
                Str (PFloat benchmark_conversion_rate); Lit "%"]
|}.

Definition plan_frequency : PlanEntry := {|
  e_prioridade := "Média";
  e_acao := "Reduzir Saturação";
  e_tarefas := ["Atualizar criativos principais";
                "Expandir público-alvo";
                "Ajustar orçamento por horário"]%string;
  e_prazo := "2 dias";
  e_metrica := [Lit "Reduzir frequência para ≤ 3x"]
|}.

Definition plan_default : PlanEntry := {|
  e_prioridade := "Otimização";
  e_acao := "Escalonar Performance";
  e_tarefas := ["Aumentar orçamento em 20% para melhores performers";
                "Criar públicos lookalike baseados em convertidos";
                "Testar novos formatos criativos"]%string;
  e_prazo := "Contínuo";
  e_metrica := [Lit "Manter ROAS ≥ 2.0"]
|}.

(** The list [action_plan] (section 5): the cost per conversion has no
    entry of its own. *)
Definition strategic_action_plan (m : Aggregate) (freq_mean : float)
  : list PlanEntry :=
  let plan :=
    (if F.lt (a_ctr m) (benchmark_ctr * 0.8)%float then [plan_ctr] else [])
    ++ (if F.lt (a_conversion_rate m) (benchmark_conversion_rate * 0.8)%float
        then [plan_conversion] else [])
    ++ (if F.gt freq_mean 3.5 then [plan_frequency] else []) in
  match plan with
  | [] => [plan_default]
  | _ => plan
  end.

(** The list [strengths] (section 2) as the three metrics fill it, before
    the demographic segments are read. *)
Definition strengths (m : Aggregate) : list text :=
  (if F.gt (a_ctr m) (benchmark_ctr * 1.2)%float
   then [[Lit "CTR excelente ("; FmtF 2 (a_ctr m); Lit "%) - ";
          FmtF 1 (a_ctr m / benchmark_ctr)%float; Lit "x acima da média"]]
   else [])
  ++ (if F.gt (a_conversion_rate m) (benchmark_conversion_rate * 1.2)%float
      then [[Lit "Taxa de conversão alta ("; FmtF 2 (a_conversion_rate m);
             Lit "%) - Eficiência no funnel"]] else [])
  ++ (if F.lt (a_cost_per_conversion m) (benchmark_cost_per_conversion * 0.8)%float
      then [[Lit "Custo por conversão baixo (R$";
             FmtF 2 (a_cost_per_conversion m);
             Lit ") - Eficiência de gastos"]] else []).

(* ===================================================================== *)
(** * Action statistics: [get_ad_insights] and the tab of actions *)
(* ===================================================================== *)

(** One entry of the lists actions and action_values of the API.  The API
    gives the type as a string; an entry without a type is formatted as
    [None] by the f-string that builds the key. *)
Record ActionStat : Type := {
  action_type : option string;
  value : option pyval
}.

Definition type_name (a : ActionStat) : string :=
  default "None"%string (action_type a).

(** A value of the row of the API: a scalar, or a list of statistics. *)
Inductive ival : Type :=
| Scalar (v : pyval)
| Stats (l : list ActionStat).

(** [insights[0].get(key, [])], as the loop iterates over it: a scalar is
    not iterable ([TypeError]), and the characters of a string have no
    method [get] ([AttributeError]). *)
Definition stats_of (raw : gmap string ival) (key : string)
  : result (list ActionStat) :=
  match raw !! key with
  | None => Ok []
  | Some (Stats l) => Ok l
  | Some (Scalar (PStr s)) =>
      if String.eqb s "" then Ok [] else Raise AttributeError
  | Some (Scalar _) => Raise TypeError
  end.

(** One of the two loops that fill [action_data]:
    [action_data[f'<prefix>{action_type}'] = safe_float(action.get('value', 0))]. *)
Fixpoint add_stats (prefix : string) (stats : list ActionStat)
    (action_data : gmap string float) : result (gmap string float) :=
  match stats with
  | [] => Ok action_data
  | a :: rest =>
      do v <- safe_float (default (PInt 0) (value a));
      add_stats prefix rest (<[String.append prefix (type_name a) := v]> action_data)
  end.

Definition action_data (raw : gmap string ival) : result (gmap string float) :=
  do actions <- stats_of raw "actions";
  do d <- add_stats "action_" actions ∅;
  do action_values <- stats_of raw "action_values";
  add_stats "action_value_" action_values d.

(** [{**insights[0], **action_data}]; an exception is caught by the
    function, which then returns [None]. *)
Definition insight_dict (raw : gmap string ival) : option (gmap string ival) :=
  match action_data raw with
  | Ok d => Some (((fun x => Scalar (PFloat x)) <$> d) ∪ raw)
  | Raise _ => None
  end.

(** [k.startswith(p)] *)
Definition startswith (k p : string) : bool := is_prefix (chars p) (chars k).

(** The dictionary [actions] of the tab. *)
Definition tab_actions (insights : gmap string ival) : gmap string ival :=
  filter (fun kv => startswith kv.1 "action_" || startswith kv.1 "action_value_" = true)
    insights.

Fixpoint after_first (sep : ascii) (l : list ascii) : option (list ascii) :=
  match l with
  | [] => None
  | c :: rest => if Ascii.eqb c sep then Some rest else after_first sep rest
  end.

(** [k.split('_', 1)[1]]; [None] stands for the [IndexError] on a key
    without an underscore. *)
Definition after_underscore (k : string) : option string :=
  string_of_list_ascii <$> after_first "_"%char (chars k).

(** [set([k.split('_', 1)[1] for k in actions.keys()])]: every key of
    [actions] has an underscore (lemma [tab_keys_split]). *)
Definition action_types (actions : gmap string ival) : gset string :=
  set_omap after_underscore (dom actions).

(** [safe_int] and [safe_float] on a value of the row: a list is neither
    [None] nor the empty string, [float] raises [TypeError] on it and the
    default is returned. *)
Definition safe_int_of (v : ival) : result Z :=
  match v with Scalar v => safe_int v | Stats _ => Ok 0 end.

Definition safe_float_of (v : ival) : result float :=
  match v with Scalar v => safe_float v | Stats _ => Ok 0%float end.

(** [safe_int(actions.get(f'action_{action_type}', 0))] *)
Definition action_count (actions : gmap string ival) (t : string) : result Z :=
  safe_int_of (default (Scalar (PInt 0)) (actions !! String.append "action_" t)).

(** [safe_float(actions.get(f'action_value_{action_type}', 0))] *)
Definition action_value (actions : gmap string ival) (t : string) : result float :=
  safe_float_of
    (default (Scalar (PInt 0)) (actions !! String.append "action_value_" t)).

(* ===================================================================== *)
(** * The details of the selected ad: [show_real_analysis] *)
(* ===================================================================== *)

(** [get_campaigns]: the dictionary built for one campaign of the API.
    The rows of the API are read through their scalar fields only. *)
Definition campaign_row (campaign : pydict) : pydict :=
  <["id" := get campaign "id" PNone]>
  (<["name" := get campaign "name" (PStr "Sem Nome")]>
  (<["objective" := get campaign "objective" (PStr "N/A")]>
  (<["status" := get campaign "status" (PStr "N/A")]>
  (<["start_time" := get campaign "start_time" (PStr "N/A")]>
  (<["stop_time" := get campaign "stop_time" (PStr "N/A")]>
  (<["buying_type" := get campaign "buying_type" (PStr "N/A")]> ∅)))))).

(** [get_adsets]: the dictionary built for one ad set. *)
Definition adset_row (adset : pydict) : result pydict :=
  do daily_budget <- safe_float (get adset "daily_budget" (PInt 0));
  do lifetime_budget <- safe_float (get adset "lifetime_budget" (PInt 0));
  Ok (<["id" := get adset "id" PNone]>
      (<["name" := get adset "name" (PStr "Sem Nome")]>
      (<["daily_budget" := PFloat daily_budget]>
      (<["lifetime_budget" := PFloat lifetime_budget]>
      (<["start_time" := get adset "start_time" (PStr "N/A")]>
      (<["end_time" := get adset "end_time" (PStr "N/A")]>
      (<["optimization_goal" := get adset "optimization_goal" (PStr "N/A")]>
      (<["billing_event" := get adset "billing_event" (PStr "N/A")]>
      (<["bid_strategy" := get adset "bid_strategy" (PStr "N/A")]> ∅))))))))).

(** [get_ads]: the dictionary built for one ad; the creative that the
    query asks for is not copied. *)
Definition ad_row (ad : pydict) : result pydict :=
  do bid_amount <- safe_float (get ad "bid_amount" (PInt 0));
  Ok (<["id" := get ad "id" PNone]>
      (<["name" := get ad "name" (PStr "Sem Nome")]>
      (<["status" := get ad "status" (PStr "N/A")]>
      (<["created_time" := get ad "created_time" (PStr "N/A")]>
      (<["adset_id" := get ad "adset_id" (PStr "N/A")]>
      (<["bid_amount" := PFloat bid_amount]>
      (<["conversion_domain" := get ad "conversion_domain" (PStr "N/A")]> ∅))))))).

(** The dictionary [ad_details] that the application hands to
    [show_ad_results], and from there to the engine: twelve scalar fields,
    of which three are read with [d['id']]. *)
Definition selected_ad_details
    (selected_ad selected_campaign selected_adset : pydict) : result AdDetails :=
  do ad_id <- getitem selected_ad "id";
  do campaign_id <- getitem selected_campaign "id";
  do adset_id <- getitem selected_adset "id";
  Ok {| fields :=
          <["id" := ad_id]>
          (<["name" := get selected_ad "name" (PStr "N/A")]>
          (<["status" := get selected_ad "status" (PStr "N/A")]>
          (<["created_time" := get selected_ad "created_time" (PStr "N/A")]>
          (<["bid_amount" := get selected_ad "bid_amount" (PStr "N/A")]>
          (<["campaign_id" := campaign_id]>
          (<["campaign_name" := get selected_campaign "name" (PStr "N/A")]>
          (<["campaign_objective" :=
               get selected_campaign "objective" (PStr "N/A")]>
          (<["adset_id" := adset_id]>
          (<["adset_name" := get selected_adset "name" (PStr "N/A")]>
          (<["adset_budget" := get selected_adset "daily_budget" (PStr "N/A")]>
          (<["adset_optimization" :=
               get selected_adset "optimization_goal" (PStr "N/A")]> ∅)))))))))));
        creative := None |}.

(* ===================================================================== *)
(** * Properties *)
(* ===================================================================== *)

(** ** The error monad *)

Lemma rbind_ok {A B} (m : result A) (k : A -> result B) (b : B) :
  rbind m k = Ok b -> exists a, m = Ok a /\ k a = Ok b.
Proof. destruct m as [a|e]; simpl; [eauto | discriminate]. Qed.

Ltac rbind_inv H :=
  let a := fresh "a" in
  let Ha := fresh "Ha" in
  apply rbind_ok in H; destruct H as (a & Ha & H).

Tactic Notation "rbind_inv_as" hyp(H) ident(a) ident(Ha) :=
  apply rbind_ok in H; destruct H as (a & Ha & H).

(** ** Floats *)

(** A zero of either sign is not greater than 0. *)
Lemma gt_zero_false (x : float) : F.is_zero x = true -> F.gt x 0 = false.
Proof.
  unfold F.is_zero, F.gt.
  rewrite FloatAxioms.eqb_spec, FloatAxioms.ltb_spec.
  destruct (Prim2SF x) as [s| s | |s m e]; try destruct s; cbv; congruence.
Qed.

(** ** The benchmark table *)

Lemma benchmark_values (s : string) :
  In (default 20.00%float (benchmarks !! s))
     [25.00; 15.00; 1.20; 5.00; 10.00; 0.50; 20.00]%float.
Proof.
  unfold benchmarks.
  repeat (rewrite lookup_insert; case_decide; [simpl; tauto|]).
  rewrite lookup_empty. simpl. tauto.
Qed.

(** The benchmark is never zero: the division in the diagnosis of rule 2
    cannot raise. *)
Lemma benchmark_nonzero (objective : pyval) :
  F.is_zero (calculate_industry_benchmark objective) = false.
Proof.
  destruct objective; try reflexivity.
  simpl. pose proof (benchmark_values s) as H. simpl in H.
  repeat (destruct H as [<-|H]; [reflexivity|]). destruct H.
Qed.

(** C9. [calculate_industry_benchmark] is a total function: it maps
    CONVERSIONS to 25.00, LEAD_GENERATION to 15.00, LINK_CLICKS to 1.20,
    REACH to 5.00, BRAND_AWARENESS to 10.00, VIDEO_VIEWS to 0.50, and every
    other objective string to 20.00 (as every objective that is not a
    string); no objective raises. *)
Theorem benchmark_for_table :
  calculate_industry_benchmark (PStr "CONVERSIONS") = 25.00%float /\
  calculate_industry_benchmark (PStr "LEAD_GENERATION") = 15.00%float /\
  calculate_industry_benchmark (PStr "LINK_CLICKS") = 1.20%float /\
  calculate_industry_benchmark (PStr "REACH") = 5.00%float /\
  calculate_industry_benchmark (PStr "BRAND_AWARENESS") = 10.00%float /\
  calculate_industry_benchmark (PStr "VIDEO_VIEWS") = 0.50%float /\
  (forall s : string,
     ~ In s ["CONVERSIONS"; "LEAD_GENERATION"; "LINK_CLICKS"; "REACH";
             "BRAND_AWARENESS"; "VIDEO_VIEWS"]%string ->
     calculate_industry_benchmark (PStr s) = 20.00%float) /\
  (forall v : pyval,
     (forall s, v <> PStr s) -> calculate_industry_benchmark v = 20.00%float).
Proof.
  repeat split; try reflexivity.
  - intros s Hs. unfold calculate_industry_benchmark, benchmarks.
    repeat (rewrite lookup_insert_ne
              by (intros Heq; apply Hs; rewrite <- Heq; simpl; auto 10)).
    rewrite lookup_empty. reflexivity.
  - intros v Hv. destruct v; try reflexivity. exfalso. eapply Hv. reflexivity.
Qed.

Lemma benchmark_for_table_witness :
  calculate_industry_benchmark (PStr "N/A") = 20.00%float /\
  calculate_industry_benchmark PNone = 20.00%float.
Proof.
  destruct benchmark_for_table as (_ & _ & _ & _ & _ & _ & Hs & Hv).
  split.
  - apply Hs. simpl. intros H.
    repeat (destruct H as [H|H]; [discriminate H|]). exact H.
  - apply Hv. intros s. discriminate.
Defined.

(** ** Sorting by a key *)

Section SortFacts.
Context {A K : Type} (key : A -> K) (leb : K -> K -> bool).

Lemma insert_by_key_perm (x : A) (l : list A) :
  Permutation (x :: l) (insert_by_key key leb x l).
Proof.
  induction l as [|y l IH]; simpl; [apply Permutation_refl|].
  destruct (leb (key x) (key y)); [apply Permutation_refl|].
  eapply perm_trans; [apply perm_swap|]. apply perm_skip, IH.
Qed.

Lemma sort_by_key_perm (l : list A) :
  Permutation l (sort_by_key key leb l).
Proof.
  induction l as [|x l IH]; simpl; [apply perm_nil|].
  eapply perm_trans; [apply perm_skip, IH|]. apply insert_by_key_perm.
Qed.

(** An element passes the ones it is not below, and stops at the first
    one it is below. *)
Lemma insert_by_key_app (x : A) (l1 l2 : list A) :
  Forall (fun y => leb (key x) (key y) = false) l1 ->
  insert_by_key key leb x (l1 ++ l2) = l1 ++ insert_by_key key leb x l2.
Proof.
  induction 1 as [|y l1 Hy _ IH]; simpl; [reflexivity|].
  rewrite Hy, IH. reflexivity.
Qed.

Lemma insert_by_key_head (x : A) (l : list A) :
  Forall (fun y => leb (key x) (key y) = true) l ->
  insert_by_key key leb x l = x :: l.
Proof. destruct 1 as [|y l Hy _]; simpl; [|rewrite Hy]; reflexivity. Qed.

Hypothesis leb_total : forall a b, leb a b = true \/ leb b a = true.
Hypothesis leb_trans :
  forall a b c, leb a b = true -> leb b c = true -> leb a c = true.

Definition key_le (a b : A) : Prop := leb (key a) (key b) = true.

Lemma insert_by_key_sorted (x : A) (l : list A) :
  StronglySorted key_le l -> StronglySorted key_le (insert_by_key key leb x l).
Proof.
  induction 1 as [|y l Hl IH Hy]; simpl.
  - constructor; constructor.
  - destruct (leb (key x) (key y)) eqn:E.
    + constructor; [constructor; assumption|].
      constructor; [exact E|].
      eapply List.Forall_impl; [|exact Hy].
      intros z Hz. unfold key_le in *. eauto.
    + constructor; [exact IH|].
      eapply Permutation_Forall; [apply insert_by_key_perm|].
      constructor; [|exact Hy].
      unfold key_le. destruct (leb_total (key x) (key y)); congruence.
Qed.

Lemma sort_by_key_sorted (l : list A) :
  StronglySorted key_le (sort_by_key key leb l).
Proof.
  induction l as [|x l IH]; simpl; [constructor|].
  apply insert_by_key_sorted, IH.
Qed.
End SortFacts.

(** ** The prioritizer *)

Definition has_severity (s : Severity) (r : Recommendation) : bool :=
  match s, severity r with
  | high, high | medium, medium | low, low => true
  | _, _ => false
  end.

(** The recommendations of severity high in their order, then those of
    severity medium, then those of severity low. *)
Definition by_severity (l : list Recommendation) : list Recommendation :=
  List.filter (has_severity high) l ++ List.filter (has_severity medium) l
  ++ List.filter (has_severity low) l.

Definition rank (r : Recommendation) : Z := priority_order (severity r).

Lemma Forall_filter {A} (f : A -> bool) (P : A -> Prop) (l : list A) :
  (forall x, f x = true -> P x) -> Forall P (List.filter f l).
Proof.
  intros H. apply List.Forall_forall. intros x Hx.
  apply List.filter_In in Hx. apply H, Hx.
Qed.

Lemma has_severity_rank (s : Severity) (r : Recommendation) :
  has_severity s r = true -> rank r = priority_order s.
Proof. unfold has_severity, rank. destruct s, (severity r); simpl; congruence. Qed.

Lemma has_severity_spec (s : Severity) (x : Recommendation) :
  has_severity s x = match s, severity x with
                     | high, high | medium, medium | low, low => true
                     | _, _ => false
                     end.
Proof. reflexivity. Qed.

Ltac severity_filter y Hx :=
  apply Forall_filter; intros y Hy; apply has_severity_rank in Hy;
  unfold rank in *; rewrite Hx, Hy; reflexivity.

Lemma insert_by_severity (x : Recommendation) (l : list Recommendation) :
  insert_by_key rank Z.leb x (by_severity l) = by_severity (x :: l).
Proof.
  unfold by_severity. cbn [List.filter].
  rewrite !(has_severity_spec _ x).
  destruct (severity x) eqn:Hx.
  - apply insert_by_key_head.
    rewrite !List.Forall_app. repeat split; severity_filter y Hx.
  - rewrite insert_by_key_app by severity_filter y Hx.
    f_equal. apply insert_by_key_head.
    rewrite !List.Forall_app. repeat split; severity_filter y Hx.
  - rewrite app_assoc, insert_by_key_app.
    + rewrite <- app_assoc. do 2 f_equal. apply insert_by_key_head.
      severity_filter y Hx.
    + rewrite !List.Forall_app. repeat split; severity_filter y Hx.
Qed.

Lemma prioritize_by_severity (l : list Recommendation) :
  prioritize l = by_severity l.
Proof.
  unfold prioritize. induction l as [|x l IH]; [reflexivity|].
  simpl. rewrite IH. apply insert_by_severity.
Qed.

Lemma filter_filter_severity (s s' : Severity) (l : list Recommendation) :
  List.filter (has_severity s) (List.filter (has_severity s') l)
  = if has_severity s {| title := ""; severity := s'; diagnosis := [];
                         actions := []; expected_impact := "";
                         timeframe := "" |}
    then List.filter (has_severity s) l else [].
Proof.
  rewrite has_severity_spec. cbn [severity].
  induction l as [|x l IH]; [destruct s, s'; reflexivity|].
  cbn [List.filter]. rewrite !(has_severity_spec _ x).
  destruct s, s', (severity x) eqn:Hx; cbn [List.filter];
    rewrite ?(has_severity_spec _ x), ?Hx, ?IH; reflexivity.
Qed.

Lemma filter_by_severity (s : Severity) (l : list Recommendation) :
  List.filter (has_severity s) (by_severity l) = List.filter (has_severity s) l.
Proof.
  unfold by_severity. rewrite !List.filter_app, !filter_filter_severity.
  destruct s; simpl; rewrite ?app_nil_r; reflexivity.
Qed.

Lemma StronglySorted_weaken {A} (R S : A -> A -> Prop) (l : list A) :
  (forall a b, R a b -> S a b) -> StronglySorted R l -> StronglySorted S l.
Proof.
  intros H. induction 1 as [|x l _ IH Hx]; constructor; [exact IH|].
  eapply List.Forall_impl; [|exact Hx]. intros b. apply H.
Qed.

Lemma filter_has_severity_split (A B : Recommendation)
    (l1 l2 l3 : list Recommendation) :
  severity A = severity B ->
  List.filter (has_severity (severity A)) (l1 ++ A :: l2 ++ B :: l3)
  = List.filter (has_severity (severity A)) l1
    ++ A :: List.filter (has_severity (severity A)) l2
    ++ B :: List.filter (has_severity (severity A)) l3.
Proof.
  intros HAB. rewrite List.filter_app. cbn [List.filter].
  rewrite List.filter_app. cbn [List.filter].
  assert (HA : has_severity (severity A) A = true)
    by (rewrite has_severity_spec; destruct (severity A); reflexivity).
  assert (HB : has_severity (severity A) B = true)
    by (rewrite HAB, has_severity_spec; destruct (severity B); reflexivity).
  rewrite HA, HB. reflexivity.
Qed.

Lemma app_two_marked {T} (p a b c q : list T) (A B : T) :
  p ++ (a ++ A :: b ++ B :: c) ++ q = (p ++ a) ++ A :: b ++ B :: c ++ q.
Proof.
  rewrite <- !app_assoc. cbn [app]. rewrite <- !app_assoc. reflexivity.
Qed.

Lemma emitted_then_prioritized (inp : Inputs) :
  snd (generate_ai_optimization_recommendations inp)
  = rbind (snd (emitted inp)) (fun recs => Ok (prioritize recs)).
Proof.
  unfold generate_ai_optimization_recommendations.
  destruct (emitted inp) as [inp' r]. reflexivity.
Qed.

(** C4. The prioritizer is the stable sort of the emitted list by the rank
    high: 0, medium: 1, low: 2.  Its output is the recommendations of
    severity high in their emission order, then those of severity medium,
    then those of severity low: it is a permutation of the emitted list,
    no recommendation comes before one of a lower rank, the
    recommendations of each severity keep their order, and two
    recommendations of equal severity emitted in the order A, B come out
    in the order A, B.  What the engine returns is the prioritizer's output
    on the emitted list. *)
Theorem prioritizer_is_stable_sort (recs : list Recommendation) :
  prioritize recs = by_severity recs /\
  Permutation recs (prioritize recs) /\
  StronglySorted (fun a b => rank a <= rank b) (prioritize recs) /\
  (forall s, List.filter (has_severity s) (prioritize recs)
             = List.filter (has_severity s) recs) /\
  (forall l1 A l2 B l3,
     recs = l1 ++ A :: l2 ++ B :: l3 -> severity A = severity B ->
     exists m1 m2 m3, prioritize recs = m1 ++ A :: m2 ++ B :: m3) /\
  (forall inp,
     snd (emitted inp) = Ok recs ->
     snd (generate_ai_optimization_recommendations inp) = Ok (prioritize recs)).
Proof.
  split; [apply prioritize_by_severity|].
  split; [apply sort_by_key_perm|].
  split.
  { eapply StronglySorted_weaken; [|apply sort_by_key_sorted].
    - intros a b H. apply Z.leb_le, H.
    - intros a b. destruct (Z.leb_spec a b); [left; reflexivity|].
      right. apply Z.leb_le. lia.
    - intros a b c Hab Hbc. apply Z.leb_le. apply Z.leb_le in Hab, Hbc. lia. }
  split.
  { intros s. rewrite prioritize_by_severity. apply filter_by_severity. }
  split.
  { intros l1 A l2 B l3 -> HAB. rewrite prioritize_by_severity.
    unfold by_severity.
    pose proof (filter_has_severity_split A B l1 l2 l3 HAB) as H.
    destruct (severity A); rewrite H.
    - eexists _, _, _. apply (app_two_marked []).
    - eexists _, _, _. apply app_two_marked.
    - eexists _, _, _. rewrite app_assoc.
      rewrite <- (app_nil_r (List.filter _ l1 ++ _)). apply app_two_marked. }
  intros inp H. rewrite emitted_then_prioritized, H. reflexivity.
Qed.

Lemma prioritizer_is_stable_sort_witness :
  let A := scheduling_recommendation "Monday" 9 in
  let B := text_length_recommendation 130 in
  let C := missing_cta_recommendation in
  let D := frequency_recommendation {| fields := ∅; creative := None |} 4 in
  prioritize [A; B; C; D] = [C; B; D; A] /\
  exists m1 m2 m3, prioritize [A; B; C; D] = m1 ++ B :: m2 ++ D :: m3.
Proof.
  intros A B C D.
  destruct (prioritizer_is_stable_sort [A; B; C; D]) as (H1 & _ & _ & _ & H5 & _).
  split; [rewrite H1; reflexivity|].
  apply (H5 [A] B [C] D []); reflexivity.
Defined.

(** ** Normalisation *)

(** A field that is absent reads as the integer 0, which normalises to 0. *)
Lemma safe_float_absent (d : pydict) (k : string) :
  d !! k = None -> safe_float (get d k (PInt 0)) = Ok 0%float.
Proof. intros H. unfold get. rewrite H. reflexivity. Qed.

(** [None], the empty string and a string that is no number normalise to
    the default. *)
Lemma safe_float_malformed (v : pyval) :
  v = PNone \/ v = PStr "" \/ (exists s, v = PStr s /\ py_float_str s = Raise ValueError) ->
  safe_float v = Ok 0%float.
Proof.
  intros [->|[->|(s & -> & Hs)]]; try reflexivity.
  unfold safe_float, safe_float_or. simpl.
  destruct (String.eqb s ""); [reflexivity|]. rewrite Hs. reflexivity.
Qed.

(** The value normalises to a zero (of either sign). *)
Definition normalizes_to_zero (v : pyval) : Prop :=
  exists x, safe_float v = Ok x /\ F.is_zero x = true.

(** A rule emits a recommendation. *)
Definition fires {A} (r : result (list A)) : bool :=
  match r with
  | Ok (_ :: _) => true
  | _ => false
  end.

(** ** Rule 2 *)

Lemma cost_rule_on_zero (ad : AdDetails) (c r : float) :
  F.gt c 0 = false \/ F.gt r 0 = false -> cost_rule_on ad c r = Ok [].
Proof.
  intros H. unfold cost_rule_on.
  destruct H as [-> | ->]; [|rewrite andb_false_r]; reflexivity.
Qed.

Lemma cost_rule_on_objective (ad : AdDetails) (c r : float) (objective : pyval) :
  fields ad !! "campaign_objective" = Some objective ->
  cost_rule_on ad c r
  = if (F.gt c 0 && F.gt r 0
        && F.gt c (calculate_industry_benchmark objective * 1.2)%float)%bool
    then Ok [cost_recommendation ad c (calculate_industry_benchmark objective)]
    else Ok [].
Proof.
  intros H. unfold cost_rule_on, getitem. rewrite H. simpl.
  destruct (F.gt c 0 && F.gt r 0)%bool; reflexivity.
Qed.

(** The preliminary metrics of the strategic analysis, when they are
    computed, follow the guard [x if denominator > 0 else 0]. *)
Lemma strategic_metrics_guard (ins : pydict) (m : Aggregate) :
  strategic_metrics ins = Ok m ->
  exists impressions clicks conversions,
    safe_float (get ins "impressions" (PInt 0)) = Ok impressions /\
    safe_float (get ins "clicks" (PInt 0)) = Ok clicks /\
    safe_float (get ins "conversions" (PInt 0)) = Ok conversions /\
    (F.gt impressions 0 = false -> a_ctr m = 0%float /\ a_cpm m = 0%float) /\
    (F.gt clicks 0 = false ->
       a_conversion_rate m = 0%float /\ a_cpc m = 0%float) /\
    (F.gt conversions 0 = false -> a_cost_per_conversion m = 0%float).
Proof.
  unfold strategic_metrics. intros H.
  rbind_inv H. rename a into imp0, Ha into Himp0.
  rbind_inv H. rename a into ctr, Ha into Hctr.
  rbind_inv H. rename a into clicks, Ha into Hclicks.
  rbind_inv H. rename a into conversions, Ha into Hconv.
  rbind_inv H. rename a into spend, Ha into Hspend.
  rbind_inv H. rename a into impressions, Ha into Himp.
  injection H as <-. rewrite Himp0 in Himp. injection Himp as <-.
  exists imp0, clicks, conversions.
  split; [exact Himp0|]. split; [exact Hclicks|]. split; [exact Hconv|].
  cbn [a_ctr a_cpm a_conversion_rate a_cpc a_cost_per_conversion].
  split; [|split].
  - intros H. rewrite H in Hctr |- *. split; [congruence|reflexivity].
  - intros H. rewrite H. split; reflexivity.
  - intros H. rewrite H. reflexivity.
Qed.

Lemma cost_rule_silent (ad : AdDetails) (ins : pydict) (k : string) :
  k = "cost_per_conversion"%string \/ k = "conversion_rate"%string ->
  ins !! k = None \/ normalizes_to_zero (get ins k (PInt 0)) ->
  fires (cost_rule ad ins) = false /\
  (is_ok (safe_float (get ins "cost_per_conversion" (PInt 0))) = true ->
   is_ok (safe_float (get ins "conversion_rate" (PInt 0))) = true ->
   cost_rule ad ins = Ok []).
Proof.
  intros Hk Hz.
  assert (Hn : normalizes_to_zero (get ins k (PInt 0))).
  { destruct Hz as [Hz|Hz]; [|exact Hz].
    exists 0%float. split; [apply safe_float_absent, Hz|reflexivity]. }
  destruct Hn as (x & Hx & Hx0). apply gt_zero_false in Hx0.
  unfold cost_rule.
  destruct Hk as [-> | ->].
  - rewrite Hx. simpl.
    destruct (safe_float (get ins "conversion_rate" (PInt 0))) as [r|e]; simpl.
    + rewrite cost_rule_on_zero by (left; exact Hx0). split; reflexivity.
    + split; [reflexivity|discriminate].
  - rewrite Hx.
    destruct (safe_float (get ins "cost_per_conversion" (PInt 0))) as [c|e]; simpl.
    + rewrite cost_rule_on_zero by (right; exact Hx0). split; reflexivity.
    + split; [reflexivity|discriminate].
Qed.

(** C7. The cost-per-conversion rule reads the fields cost_per_conversion
    and conversion_rate of the insight record and nothing else of it: two
    records that agree on these two fields give the same result, whatever
    their spend, clicks and conversions.  When one of the two fields is
    absent or normalises to 0, the rule emits nothing (and it returns the
    empty list as soon as both fields can be normalised). *)
Theorem cost_rule_reads_supplied_fields (ad : AdDetails) (ins : pydict) :
  (forall ins' : pydict,
     ins' !! "cost_per_conversion" = ins !! "cost_per_conversion" ->
     ins' !! "conversion_rate" = ins !! "conversion_rate" ->
     cost_rule ad ins' = cost_rule ad ins) /\
  (forall spend clicks conversions : pyval,
     cost_rule ad (<["spend" := spend]> (<["clicks" := clicks]>
                     (<["conversions" := conversions]> ins)))
     = cost_rule ad ins) /\
  (forall k : string,
     k = "cost_per_conversion"%string \/ k = "conversion_rate"%string ->
     ins !! k = None \/ normalizes_to_zero (get ins k (PInt 0)) ->
     fires (cost_rule ad ins) = false /\
     (is_ok (safe_float (get ins "cost_per_conversion" (PInt 0))) = true ->
      is_ok (safe_float (get ins "conversion_rate" (PInt 0))) = true ->
      cost_rule ad ins = Ok [])).
Proof.
  assert (Hsame : forall ins' : pydict,
             ins' !! "cost_per_conversion" = ins !! "cost_per_conversion" ->
             ins' !! "conversion_rate" = ins !! "conversion_rate" ->
             cost_rule ad ins' = cost_rule ad ins).
  { intros ins' H1 H2. unfold cost_rule, get. rewrite H1, H2. reflexivity. }
  split; [exact Hsame|]. split.
  - intros spend clicks conversions.
    apply Hsame; rewrite !lookup_insert_ne by discriminate; reflexivity.
  - intros k. apply cost_rule_silent.
Qed.

Lemma cost_rule_reads_supplied_fields_witness :
  let ad := {| fields := {["campaign_objective" := PStr "CONVERSIONS"]};
               creative := None |} in
  let ins : pydict :=
    <["cost_per_conversion" := PStr "0.0"]>
      (<["conversion_rate" := PFloat 5]> ∅) in
  cost_rule ad (<["spend" := PFloat 500]> (<["clicks" := PInt 50]>
                  (<["conversions" := PInt 5]> ins))) = Ok [] /\
  cost_rule ad (<["conversion_rate" := PFloat 5]>
                  (<["spend" := PFloat 500]> ∅)) = Ok [].
Proof.
  intros ad ins.
  destruct (cost_rule_reads_supplied_fields ad ins) as (_ & H2 & H3).
  split.
  - rewrite H2.
    destruct (H3 "cost_per_conversion"%string) as (_ & H).
    + left. reflexivity.
    + right. exists 0%float. split; reflexivity.
    + apply H; reflexivity.
  - destruct (cost_rule_reads_supplied_fields ad
                (<["conversion_rate" := PFloat 5]> (<["spend" := PFloat 500]> ∅)))
      as (_ & _ & H).
    destruct (H "cost_per_conversion"%string) as (_ & H').
    + left. reflexivity.
    + left. reflexivity.
    + apply H'; reflexivity.
Defined.

(** ** C5 *)

(** The claim as stated fails: a record of which clicks, conversions and
    spend are 0 has the derived conversion rate 0 and the derived cost per
    conversion 0, and yet the rule fires on it when the record's own fields
    cost_per_conversion and conversion_rate say otherwise. *)
Lemma cost_rule_fires_on_zero_counters :
  let ad := {| fields := {["campaign_objective" := PStr "CONVERSIONS"]};
               creative := None |} in
  let ins : pydict :=
    <["clicks" := PInt 0]> (<["conversions" := PInt 0]>
    (<["spend" := PInt 0]> (<["cost_per_conversion" := PFloat 100]>
    (<["conversion_rate" := PFloat 5]> ∅)))) in
  safe_float (get ins "clicks" (PInt 0)) = Ok 0%float /\
  safe_float (get ins "conversions" (PInt 0)) = Ok 0%float /\
  safe_float (get ins "spend" (PInt 0)) = Ok 0%float /\
  rbind (strategic_metrics ins) (fun m => Ok (a_conversion_rate m)) = Ok 0%float /\
  rbind (strategic_metrics ins) (fun m => Ok (a_cost_per_conversion m)) = Ok 0%float /\
  cost_rule ad ins = Ok [cost_recommendation ad 100 25] /\
  fires (cost_rule ad ins) = true.
Proof. vm_compute. repeat split; reflexivity. Qed.

(** C5 (amended). For an ad with a campaign objective, and with c and r
    the normalised fields cost_per_conversion and conversion_rate of the
    record, the rule emits one recommendation, of severity high, if and
    only if c > 0 and r > 0 and c > benchmark_for(objective) * 1.2, and
    nothing otherwise.  In particular the rule does not fire when c or r is
    0; for a record with clicks = 0 and conversions = 0 the derived
    conversion rate and cost per conversion are 0, and the rule does not
    fire when the record's two fields carry these derived values. *)
Theorem cost_rule_trigger (ad : AdDetails) (ins : pydict) (c r : float)
    (objective : pyval) :
  safe_float (get ins "cost_per_conversion" (PInt 0)) = Ok c ->
  safe_float (get ins "conversion_rate" (PInt 0)) = Ok r ->
  fields ad !! "campaign_objective" = Some objective ->
  let benchmark := calculate_industry_benchmark objective in
  (F.gt c 0 = true /\ F.gt r 0 = true /\ F.gt c (benchmark * 1.2)%float = true ->
   cost_rule ad ins = Ok [cost_recommendation ad c benchmark] /\
   severity (cost_recommendation ad c benchmark) = high) /\
  (~ (F.gt c 0 = true /\ F.gt r 0 = true /\ F.gt c (benchmark * 1.2)%float = true) ->
   cost_rule ad ins = Ok []) /\
  (fires (cost_rule ad ins) = true <->
   F.gt c 0 = true /\ F.gt r 0 = true /\ F.gt c (benchmark * 1.2)%float = true) /\
  (F.is_zero c = true \/ F.is_zero r = true -> cost_rule ad ins = Ok []) /\
  (forall m clicks conversions,
     strategic_metrics ins = Ok m ->
     safe_float (get ins "clicks" (PInt 0)) = Ok clicks ->
     safe_float (get ins "conversions" (PInt 0)) = Ok conversions ->
     F.is_zero clicks = true -> F.is_zero conversions = true ->
     a_conversion_rate m = 0%float /\ a_cost_per_conversion m = 0%float /\
     (c = a_cost_per_conversion m \/ r = a_conversion_rate m ->
      cost_rule ad ins = Ok [])).
Proof.
  intros Hc Hr Hobj benchmark.
  assert (E : cost_rule ad ins = cost_rule_on ad c r)
    by (unfold cost_rule; rewrite Hc, Hr; reflexivity).
  rewrite E, (cost_rule_on_objective ad c r objective Hobj).
  fold benchmark.
  set (t := (F.gt c 0 && F.gt r 0 && F.gt c (benchmark * 1.2)%float)%bool).
  assert (Ht : t = true <->
               F.gt c 0 = true /\ F.gt r 0 = true /\
               F.gt c (benchmark * 1.2)%float = true).
  { unfold t. rewrite !andb_true_iff. tauto. }
  assert (Hz : F.is_zero c = true \/ F.is_zero r = true ->
               (if t then Ok [cost_recommendation ad c benchmark] else Ok [])
               = Ok []).
  { intros [H|H]; apply gt_zero_false in H; unfold t; rewrite H;
      rewrite ?andb_false_r; reflexivity. }
  split; [|split; [|split; [|split]]].
  - intros Hall. apply Ht in Hall. rewrite Hall. split; reflexivity.
  - intros Hn. destruct t; [|reflexivity].
    exfalso. apply Hn, Ht. reflexivity.
  - split.
    + intros Hf. apply Ht. destruct t; [reflexivity|discriminate Hf].
    + intros Hall. apply Ht in Hall. rewrite Hall. reflexivity.
  - exact Hz.
  - intros m clicks conversions Hm Hk Hv Hk0 Hv0.
    destruct (strategic_metrics_guard ins m Hm)
      as (i & k & v & _ & Hk' & Hv' & _ & Hkg & Hvg).
    rewrite Hk in Hk'. injection Hk' as <-.
    rewrite Hv in Hv'. injection Hv' as <-.
    apply gt_zero_false in Hk0, Hv0.
    destruct (Hkg Hk0) as [Hcr _]. specialize (Hvg Hv0).
    split; [exact Hcr|]. split; [exact Hvg|].
    intros [Hx | Hx]; apply Hz; [left; rewrite Hx, Hvg | right; rewrite Hx, Hcr];
      reflexivity.
Qed.

Lemma cost_rule_trigger_witness :
  let ad := {| fields := {["campaign_objective" := PStr "CONVERSIONS"]};
               creative := None |} in
  let ins : pydict :=
    <["cost_per_conversion" := PStr "100"]>
      (<["conversion_rate" := PFloat 2]> ∅) in
  cost_rule ad ins = Ok [cost_recommendation ad 100 25] /\
  severity (cost_recommendation ad 100 25) = high.
Proof.
  intros ad ins.
  destruct (cost_rule_trigger ad ins 100 2 (PStr "CONVERSIONS")) as (H & _);
    try reflexivity.
  apply H. repeat split; reflexivity.
Defined.

(** ** Rule 1 *)

Lemma is_zero_cases (x : float) :
  F.is_zero x = true -> x = 0%float \/ x = (-0)%float.
Proof.
  unfold F.is_zero. rewrite FloatAxioms.eqb_spec. intros H.
  destruct (Prim2SF x) as [s| s | |s m e] eqn:E;
    try (destruct s; cbv in H; discriminate H); try discriminate H.
  apply (f_equal SF2Prim) in E. rewrite SF2Prim_Prim2SF in E. subst x.
  destruct s; [right|left]; reflexivity.
Qed.

(** A click-through rate that normalises to 0 is below the threshold
    [1.5 * 0.7]. *)
Lemma zero_ctr_below_threshold (c : float) :
  F.is_zero c = true -> F.lt (c * 100) (avg_ctr_benchmark * 0.7) = true.
Proof. intros H. destruct (is_zero_cases c H) as [-> | ->]; reflexivity. Qed.

(** With a click-through rate field that is absent, [None], empty,
    malformed or 0, the rule emits its recommendation, of severity high,
    provided that citing the causes does not raise. *)
Lemma ctr_rule_fires_on_zero_ctr (ad : AdDetails) (ins : pydict)
    (d1 d2 : list text) :
  ins !! "ctr" = None \/ normalizes_to_zero (get ins "ctr" (PInt 0)) ->
  frequency_cause ins = Ok d1 ->
  cpm_cause ins = Ok d2 ->
  exists ctr, ctr_rule ad ins = Ok [ctr_recommendation ad ctr (d1 ++ d2)] /\
              severity (ctr_recommendation ad ctr (d1 ++ d2)) = high.
Proof.
  intros Hctr H1 H2.
  assert (Hn : normalizes_to_zero (get ins "ctr" (PInt 0))).
  { destruct Hctr as [Hz|Hz]; [|exact Hz].
    exists 0%float. split; [apply safe_float_absent, Hz|reflexivity]. }
  destruct Hn as (c & Hc & Hc0).
  exists (c * 100)%float. unfold ctr_rule. rewrite Hc. cbn [rbind].
  rewrite (zero_ctr_below_threshold c Hc0), H1, H2. split; reflexivity.
Qed.

(** The causes are cited without an exception when the two raw fields are
    absent or are doubles. *)
Lemma causes_of_doubles (ins : pydict) :
  (ins !! "frequency" = None \/ exists x, ins !! "frequency" = Some (PFloat x)) ->
  (ins !! "cpm" = None \/ exists x, ins !! "cpm" = Some (PFloat x)) ->
  is_ok (frequency_cause ins) = true /\ is_ok (cpm_cause ins) = true.
Proof.
  intros Hf Hm. unfold frequency_cause, cpm_cause, get. split.
  - destruct Hf as [-> | (x & ->)]; [reflexivity|].
    simpl. unfold safe_float, safe_float_or. simpl.
    destruct (F.gt x _); reflexivity.
  - destruct Hm as [-> | (x & ->)]; [reflexivity|].
    simpl. unfold safe_float, safe_float_or. simpl.
    destruct (F.gt x _); reflexivity.
Qed.

(** C8 (code_bug). An ad that was shown and never clicked: the fields are
    the numeric strings of the API, ctr is 0 and frequency is above 3.  The
    guard of rule 1 holds, but the rule formats the raw frequency field, a
    string, with [:.1f]: the engine raises [ValueError] and emits nothing.
    Rule 3 formats the normalised frequency and has no such failure. *)
Theorem ctr_rule_raises_on_string_frequency :
  let ad := {| fields := {["campaign_objective" := PStr "CONVERSIONS"]};
               creative := None |} in
  let ins : pydict :=
    <["ctr" := PStr "0"]> (<["frequency" := PStr "4.0"]> ∅) in
  let inp := {| ad_details := ad; insights := ins; temporal_data := None;
                demographics := [] |} in
  normalizes_to_zero (get ins "ctr" (PInt 0)) /\
  safe_float (get ins "frequency" (PInt 0)) = Ok 4%float /\
  ctr_rule ad ins = Raise ValueError /\
  snd (generate_ai_optimization_recommendations inp) = Raise ValueError /\
  is_ok (frequency_rule ad ins) = true.
Proof.
  intros ad ins inp. split.
  - exists 0%float. split; reflexivity.
  - vm_compute. repeat split; reflexivity.
Qed.

(** ** The action lists *)

(** Three or four actions; five for the frequency rule on a video ad. *)
Definition action_count_ok (ad : AdDetails) (r : Recommendation) : Prop :=
  (3 <= length (actions r) <= 4)%nat \/
  (length (actions r) = 5%nat /\
   (exists freq, r = frequency_recommendation ad freq) /\
   eq_str (get (fields ad) "ad_type" PNone) "video" = true).

Lemma ctr_rule_actions (ad : AdDetails) (ins : pydict) recs :
  ctr_rule ad ins = Ok recs -> Forall (action_count_ok ad) recs.
Proof.
  unfold ctr_rule. intros H. rbind_inv H.
  destruct (F.lt _ _).
  - rbind_inv H. rbind_inv H. injection H as <-.
    constructor; [|constructor]. left. simpl. lia.
  - injection H as <-. constructor.
Qed.

Lemma cost_rule_on_actions (ad : AdDetails) (c r : float) recs :
  cost_rule_on ad c r = Ok recs -> Forall (action_count_ok ad) recs.
Proof.
  unfold cost_rule_on. intros H.
  destruct (_ && _)%bool.
  - rbind_inv H. destruct (F.gt _ _); injection H as <-; constructor;
      [|constructor]. left. simpl. lia.
  - injection H as <-. constructor.
Qed.

Lemma frequency_rule_actions (ad : AdDetails) (ins : pydict) recs :
  frequency_rule ad ins = Ok recs -> Forall (action_count_ok ad) recs.
Proof.
  unfold frequency_rule. intros H. rbind_inv H.
  destruct (F.gt _ _); injection H as <-; constructor; [|constructor].
  unfold action_count_ok.
  destruct (eq_str (get (fields ad) "ad_type" PNone) "video") eqn:E.
  - right. simpl. rewrite E. repeat split. exists a. reflexivity.
  - left. simpl. rewrite E. simpl. lia.
Qed.

Lemma demographic_rule_actions (ad : AdDetails) (c : float) demo recs :
  demographic_rule c demo = Ok recs -> Forall (action_count_ok ad) recs.
Proof.
  unfold demographic_rule. intros H. rbind_inv H.
  destruct (worst_performing a) as [w|].
  - destruct (F.gt _ _); injection H as <-; constructor; [|constructor].
    left. simpl. lia.
  - injection H as <-. constructor.
Qed.

Lemma scheduling_rule_actions (ad : AdDetails) (df : DataFrame) recs :
  snd (scheduling_rule df) = Ok recs -> Forall (action_count_ok ad) recs.
Proof.
  unfold scheduling_rule.
  destruct (assign_day_of_week df) as [df1|e]; [|discriminate].
  destruct (assign_hour df1) as [df2|e]; [|discriminate].
  simpl. intros H. rbind_inv H. rbind_inv H. injection H as <-.
  constructor; [|constructor]. left. simpl. lia.
Qed.

Lemma creative_actions (ad : AdDetails) (creative_data : pydict) recs :
  analyze_creative_elements creative_data = Ok recs ->
  Forall (action_count_ok ad) recs.
Proof.
  unfold analyze_creative_elements. intros H. rbind_inv H. injection H as <-.
  apply List.Forall_app. split.
  - destruct (creative_data !! "primary_text") as [txt|].
    + rbind_inv Ha. destruct (125 <? a0); injection Ha as <-; constructor;
        [|constructor]. left. simpl. lia.
    + injection Ha as <-. constructor.
  - assert (Hcta : Forall (action_count_ok ad) [missing_cta_recommendation])
      by (constructor; [left; simpl; lia|constructor]).
    destruct (creative_data !! "cta") as [cta|]; [|exact Hcta].
    destruct (truthy cta); [constructor|exact Hcta].
Qed.

Lemma creative_scalar_actions (ad : AdDetails) (creative_data : pyval) recs :
  analyze_creative_scalar creative_data = Ok recs ->
  Forall (action_count_ok ad) recs.
Proof.
  destruct creative_data as [|b|z|x|s]; try discriminate. cbn [analyze_creative_scalar].
  destruct (str_contains "primary_text" s); [discriminate|].
  destruct (str_contains "cta" s); [discriminate|].
  intros [= <-]. constructor; [left; simpl; lia|constructor].
Qed.

Lemma rule_6_actions (inp : Inputs) recs :
  rule_6 inp = Ok recs -> Forall (action_count_ok (ad_details inp)) recs.
Proof.
  unfold rule_6.
  destruct (creative (ad_details inp)) as [creative_data|].
  - apply creative_actions.
  - destruct (fields (ad_details inp) !! "creative") as [v|].
    + apply creative_scalar_actions.
    + intros [= <-]. constructor.
Qed.

Lemma rule_5_frame (inp : Inputs) :
  ad_details (fst (rule_5 inp)) = ad_details inp /\
  insights (fst (rule_5 inp)) = insights inp /\
  demographics (fst (rule_5 inp)) = demographics inp.
Proof.
  unfold rule_5. destruct (temporal_data inp) as [df|]; [|repeat split].
  destruct (scheduling_rule df). repeat split.
Qed.

Lemma emitted_actions (inp : Inputs) recs :
  snd (emitted inp) = Ok recs -> Forall (action_count_ok (ad_details inp)) recs.
Proof.
  unfold emitted.
  destruct (rules_1_to_4 inp) as [r14|e] eqn:H14; [|discriminate].
  pose proof (rule_5_frame inp) as (Had & _).
  destruct (rule_5 inp) as [inp' r5] eqn:H5. simpl in *.
  intros H. rbind_inv H. rename a into r5'. rbind_inv H. injection H as <-.
  rewrite !List.Forall_app. repeat split.
  - unfold rules_1_to_4 in H14.
    rbind_inv_as H14 r1 H1. rbind_inv_as H14 c Hc. rbind_inv_as H14 r Hr.
    rbind_inv_as H14 r2 H2. rbind_inv_as H14 r3 H3. rbind_inv_as H14 r4 H4.
    injection H14 as <-. rewrite !List.Forall_app.
    repeat split;
      eauto using ctr_rule_actions, cost_rule_on_actions,
        frequency_rule_actions, demographic_rule_actions.
  - unfold rule_5 in H5. destruct (temporal_data inp) as [df|].
    + destruct (scheduling_rule df) as [df' r] eqn:Hs.
      injection H5 as <- <-. apply (scheduling_rule_actions _ df).
      rewrite Hs. exact Ha.
    + injection H5 as <- <-. injection Ha as <-. constructor.
  - rewrite <- Had. apply rule_6_actions, Ha0.
Qed.

(** What rules 1 to 4 emit when they return, rule by rule. *)
Lemma rules_1_to_4_parts (inp : Inputs) (r14 : list Recommendation) :
  rules_1_to_4 inp = Ok r14 ->
  exists r1 r2 r3 r4,
    r14 = r1 ++ r2 ++ r3 ++ r4 /\
    ctr_rule (ad_details inp) (insights inp) = Ok r1 /\
    cost_rule (ad_details inp) (insights inp) = Ok r2 /\
    frequency_rule (ad_details inp) (insights inp) = Ok r3.
Proof.
  unfold rules_1_to_4, cost_rule. intros H14.
  rbind_inv_as H14 r1 H1. rbind_inv_as H14 c Hc. rbind_inv_as H14 r Hr.
  rbind_inv_as H14 r2 H2. rbind_inv_as H14 r3 H3. rbind_inv_as H14 r4 H4.
  injection H14 as <-. exists r1, r2, r3, r4.
  split; [reflexivity|]. split; [exact H1|]. split; [|exact H3].
  rewrite Hc, Hr. exact H2.
Qed.

(** When the engine returns, it returns what rule 3 emitted, among the
    rest. *)
Lemma frequency_rule_is_returned (inp : Inputs) (recs r3 : list Recommendation) :
  snd (generate_ai_optimization_recommendations inp) = Ok recs ->
  frequency_rule (ad_details inp) (insights inp) = Ok r3 ->
  incl r3 recs.
Proof.
  rewrite emitted_then_prioritized. intros H H3. rbind_inv_as H em Hem.
  injection H as <-. unfold emitted in Hem.
  destruct (rules_1_to_4 inp) as [r14|e] eqn:H14; [|discriminate Hem].
  destruct (rules_1_to_4_parts inp r14 H14) as (r1 & r2 & r3' & r4 & -> & _ & _ & H3').
  rewrite H3 in H3'. injection H3' as <-.
  destruct (rule_5 inp) as [inp' r5]. cbn [snd] in Hem.
  rbind_inv_as Hem r5' Hr5. rbind_inv_as Hem r6 Hr6. injection Hem as <-.
  intros r Hr. eapply Permutation_in; [apply sort_by_key_perm|].
  rewrite !in_app_iff. left. right. right. left. exact Hr.
Qed.

(** The claim as stated fails: on a video ad with a frequency above 3.5
    the engine returns a recommendation with five actions. *)
Lemma video_frequency_has_five_actions :
  let ad := {| fields := <["ad_type" := PStr "video"]>
                           {["campaign_objective" := PStr "CONVERSIONS"]};
               creative := None |} in
  let ins : pydict := <["ctr" := PFloat 0.05]> (<["frequency" := PFloat 4]> ∅) in
  let inp := {| ad_details := ad; insights := ins; temporal_data := None;
                demographics := [] |} in
  snd (generate_ai_optimization_recommendations inp)
  = Ok [frequency_recommendation ad 4] /\
  actions (frequency_recommendation ad 4) = frequency_actions ++ video_actions /\
  length (actions (frequency_recommendation ad 4)) = 5%nat.
Proof. vm_compute. repeat split; reflexivity. Qed.

(** C6 (amended). Every recommendation that the engine returns carries a
    non-empty ordered list of three or four actions, except the one of the
    frequency-saturation rule on a video ad, which carries five: its three
    actions followed by the two video-specific ones.  That recommendation
    is returned whenever the engine returns, the ad is a video and the
    normalised frequency is above 3.5; on an ad that is no video every
    list has three or four actions. *)
Theorem emitted_action_counts (inp : Inputs) (recs : list Recommendation) :
  snd (generate_ai_optimization_recommendations inp) = Ok recs ->
  Forall (fun r =>
            (2 <= length (actions r) <= 4)%nat \/
            (length (actions r) = 5%nat /\
             (exists freq, r = frequency_recommendation (ad_details inp) freq) /\
             eq_str (get (fields (ad_details inp)) "ad_type" PNone) "video" = true))
         recs /\
  Forall (fun r => (3 <= length (actions r) <= 5)%nat) recs /\
  Forall (fun r =>
            length (actions r) = 5%nat ->
            title r = "Rotação de Criativos Necessária"%string /\
            actions r
            = [[Lit "Pausar este anúncio por 7 dias"];
               [Lit "Criar 2-3 variações com novos criativos"];
               [Lit "Expandir público-alvo em 15-20%"];
               [Lit "Testar versão resumida do vídeo (15-30s)"];
               [Lit "Adicionar hook nos primeiros 3 segundos"]])
         recs /\
  (forall freq,
     safe_float (get (insights inp) "frequency" (PInt 0)) = Ok freq ->
     F.gt freq 3.5 = true ->
     exists r,
       In r recs /\
       title r = "Rotação de Criativos Necessária"%string /\
       actions r
       = [[Lit "Pausar este anúncio por 7 dias"];
          [Lit "Criar 2-3 variações com novos criativos"];
          [Lit "Expandir público-alvo em 15-20%"]]
         ++ (if eq_str (get (fields (ad_details inp)) "ad_type" PNone) "video"
             then [[Lit "Testar versão resumida do vídeo (15-30s)"];
                   [Lit "Adicionar hook nos primeiros 3 segundos"]]
             else [])) /\
  (eq_str (get (fields (ad_details inp)) "ad_type" PNone) "video" = false ->
   Forall (fun r => (3 <= length (actions r) <= 4)%nat) recs).
Proof.
  intros Hrecs. pose proof Hrecs as H.
  rewrite emitted_then_prioritized in H. rbind_inv H. injection H as <-.
  apply emitted_actions in Ha.
  assert (Hp : Forall (action_count_ok (ad_details inp)) (prioritize a))
    by (eapply Permutation_Forall; [apply sort_by_key_perm|exact Ha]).
  split; [|split; [|split; [|split]]].
  - eapply List.Forall_impl; [|exact Hp]. intros r [H|(H & Hr)].
    + left. lia.
    + right. split; [exact H|exact Hr].
  - eapply List.Forall_impl; [|exact Hp]. intros r [H|(H & Hr)]; lia.
  - eapply List.Forall_impl; [|exact Hp].
    intros r [H|(_ & (freq & ->) & Hv)] H5; [lia|].
    split; [reflexivity|]. cbn [actions frequency_recommendation].
    rewrite Hv. reflexivity.
  - intros freq Hf Hgt.
    exists (frequency_recommendation (ad_details inp) freq).
    split; [|split].
    + apply (frequency_rule_is_returned inp _
               [frequency_recommendation (ad_details inp) freq] Hrecs);
        [|left; reflexivity].
      unfold frequency_rule. rewrite Hf. cbn [rbind]. rewrite Hgt. reflexivity.
    + reflexivity.
    + cbn [actions frequency_recommendation].
      destruct (eq_str _ _); reflexivity.
  - intros Hv. eapply List.Forall_impl; [|exact Hp].
    intros r [H|(_ & _ & Hv')]; [exact H|congruence].
Qed.

Lemma emitted_action_counts_witness :
  let ad := {| fields := <["ad_type" := PStr "video"]>
                           {["campaign_objective" := PStr "CONVERSIONS"]};
               creative := Some ∅ |} in
  let ins : pydict := <["ctr" := PFloat 0.005]> (<["frequency" := PFloat 4]> ∅) in
  let inp := {| ad_details := ad; insights := ins; temporal_data := None;
                demographics := [] |} in
  let recs := [ctr_recommendation ad 0.5
                 [[Lit "Frequência alta ("; FmtF 1 4;
                   Lit "x) indicando possível fadiga criativa"]];
               missing_cta_recommendation;
               frequency_recommendation ad 4] in
  Forall (fun r => (3 <= length (actions r) <= 5)%nat) recs /\
  actions (frequency_recommendation ad 4)
  = [[Lit "Pausar este anúncio por 7 dias"];
     [Lit "Criar 2-3 variações com novos criativos"];
     [Lit "Expandir público-alvo em 15-20%"];
     [Lit "Testar versão resumida do vídeo (15-30s)"];
     [Lit "Adicionar hook nos primeiros 3 segundos"]].
Proof.
  intros ad ins inp recs.
  destruct (emitted_action_counts inp recs) as (_ & H35 & H5 & _).
  { vm_compute. reflexivity. }
  split; [exact H35|].
  apply (Forall_inv (Forall_inv_tail (Forall_inv_tail H5))). reflexivity.
Defined.

(** ** What the engine does to its inputs *)

Lemma df_get_set_ne (df : DataFrame) (n name : string) (c : column) :
  name <> n -> df_get (df_set df n c) name = df_get df name.
Proof.
  intros Hne. induction df as [|[n' c'] df IH]; simpl.
  - destruct (String.eqb_spec n name); [congruence|reflexivity].
  - destruct (String.eqb_spec n' n) as [->|Hn]; simpl.
    + destruct (String.eqb_spec n name); [congruence|reflexivity].
    + destruct (String.eqb n' name); [reflexivity|exact IH].
Qed.

Lemma df_get_set_eq (df : DataFrame) (n : string) (c : column) :
  df_get (df_set df n c) n = Ok c.
Proof.
  induction df as [|[n' c'] df IH]; simpl.
  - rewrite String.eqb_refl. reflexivity.
  - destruct (String.eqb_spec n' n) as [->|Hn]; simpl.
    + rewrite String.eqb_refl. reflexivity.
    + destruct (String.eqb_spec n' n); [congruence|exact IH].
Qed.

(** The frame after the two assignments of rule 5. *)
Definition with_day_and_hour (df : DataFrame) (ts : list Timestamp) : DataFrame :=
  df_set (df_set df "day_of_week" (ColStr (map day_name ts)))
         "hour" (ColInt (map ts_hour ts)).

(** Rule 5 leaves the frame as it is when [date_start] is missing or holds
    no time stamps, and assigns the two columns otherwise. *)
Lemma scheduling_rule_frame (df : DataFrame) :
  (is_ok (rbind (df_get df "date_start") dt) = false /\
   fst (scheduling_rule df) = df) \/
  (exists ts, df_get df "date_start" = Ok (ColTime ts) /\
              fst (scheduling_rule df) = with_day_and_hour df ts).
Proof.
  unfold scheduling_rule, assign_day_of_week, assign_hour.
  destruct (df_get df "date_start") as [c|e] eqn:Hc; simpl; [|left; split; reflexivity].
  destruct c as [l|l|l|ts]; simpl; try (left; split; reflexivity).
  right. exists ts. split; [reflexivity|].
  rewrite df_get_set_ne by discriminate. rewrite Hc. reflexivity.
Qed.

Lemma with_day_and_hour_other (df : DataFrame) (ts : list Timestamp) (name : string) :
  name <> "day_of_week"%string -> name <> "hour"%string ->
  df_get (with_day_and_hour df ts) name = df_get df name.
Proof.
  intros H1 H2. unfold with_day_and_hour.
  rewrite !df_get_set_ne by assumption. reflexivity.
Qed.





(** ** Zero denominators *)





(** ** Empty series *)

(** Rule 5 on a series without rows: the grouped sums are empty, and
    [idxmax] of an empty series raises. *)
Lemma scheduling_rule_empty (df : DataFrame) :
  df_get df "date_start" = Ok (ColTime []) ->
  is_ok (snd (scheduling_rule df)) = false /\
  (is_ok (rbind (df_get df "conversions") numeric) = true ->
   snd (scheduling_rule df) = Raise ValueError).
Proof.
  intros H. unfold scheduling_rule, assign_day_of_week, assign_hour.
  rewrite H. simpl. rewrite df_get_set_ne by discriminate. rewrite H. simpl.
  unfold best_day_of_week.
  rewrite df_get_set_ne by discriminate. rewrite df_get_set_eq. simpl.
  rewrite !df_get_set_ne by discriminate.
  destruct (df_get df "conversions") as [c|e]; simpl; [|split; [reflexivity|discriminate]].
  destruct (numeric c) as [vs|e]; simpl; [|split; [reflexivity|discriminate]].
  split; reflexivity.
Qed.

(** The growth rate of a metric without values is the mean of nothing. *)
Lemma recent_growth_rate_empty (df : DataFrame) (metric : string) :
  df_get df metric = Ok (ColFloat []) ->
  recent_growth_rate df metric = Ok nan.
Proof. intros H. unfold recent_growth_rate. rewrite H. reflexivity. Qed.

(** An absent series is skipped: rule 5 emits nothing and raises nothing. *)
Lemma rule_5_absent (inp : Inputs) :
  temporal_data inp = None -> rule_5 inp = (inp, Ok []).
Proof. intros H. unfold rule_5. rewrite H. reflexivity. Qed.

(** C2 (code_bug). A TemporalSeries with the columns of
    [get_ad_insights_over_time] and no row.  The engine guards against an
    absent series only: on the empty one [idxmax] raises [ValueError], so
    best_day_of_week and best_hour signal nothing and the engine raises;
    the growth rates of the strategic analysis are NaN, not 0.  Both hold
    for every series of length 0. *)
Theorem empty_series_raises :
  let df : DataFrame :=
    [("date_start", ColTime []); ("impressions", ColFloat []);
     ("reach", ColFloat []); ("spend", ColFloat []); ("clicks", ColFloat []);
     ("ctr", ColFloat []); ("frequency", ColFloat []); ("cpm", ColFloat []);
     ("conversions", ColFloat [])] in
  let inp := {| ad_details := {| fields := ∅; creative := None |};
                insights := {["ctr" := PFloat 0.05]};
                temporal_data := Some df; demographics := [] |} in
  snd (generate_ai_optimization_recommendations inp) = Raise ValueError /\
  rbind (assign_day_of_week df) best_day_of_week = Raise ValueError /\
  rbind (assign_hour df) best_hour = Raise ValueError /\
  recent_growth_rate df "impressions" = Ok nan /\
  recent_growth_rate df "ctr" = Ok nan /\
  recent_growth_rate df "conversions" = Ok nan /\
  (forall df' : DataFrame,
     df_get df' "date_start" = Ok (ColTime []) ->
     is_ok (snd (scheduling_rule df')) = false) /\
  (forall (df' : DataFrame) (metric : string),
     df_get df' metric = Ok (ColFloat []) ->
     recent_growth_rate df' metric = Ok nan) /\
  (forall inp' : Inputs,
     temporal_data inp' = None -> rule_5 inp' = (inp', Ok [])).
Proof.
  intros df inp.
  repeat (split; [reflexivity|]).
  split; [intros df' H; apply scheduling_rule_empty, H|].
  split; [apply recent_growth_rate_empty|apply rule_5_absent].
Qed.

(** ** Age buckets *)

Lemma digit_facts (c : ascii) :
  is_digit c = true ->
  is_c_space c = false /\ (code c =? 45)%N = false /\ (code c =? 43)%N = false /\
  (code c =? 95)%N = false /\ Ascii.eqb c "-" = false.
Proof.
  destruct c as [[] [] [] [] [] [] [] []]; vm_compute; intros H;
    try discriminate H; repeat split.
Qed.

Lemma digit_is_ascii (c : ascii) : is_digit c = true -> (code c <? 128)%N = true.
Proof.
  destruct c as [[] [] [] [] [] [] [] []]; vm_compute; intros H;
    try discriminate H; reflexivity.
Qed.

(** A decimal numeral that [int()] reads: ASCII digits only, at least one
    and at most 4300. *)
Definition numeral (s : string) : Prop :=
  s <> ""%string /\ forallb is_digit (chars s) = true /\
  (length (chars s) <= 4300)%nat.

Definition numeral_val (s : string) : Z := digits_val (chars s).

(** The label ["A-B"] of a bounded range. *)
Definition range_label (a b : string) : string := a +:+ "-" +:+ b.

Lemma chars_app (a b : string) : chars (a +:+ b) = chars a ++ chars b.
Proof. induction a as [|c a IH]; simpl; [reflexivity|]. f_equal. exact IH. Qed.

Lemma to_ascii_digits (l : list ascii) :
  forallb is_digit l = true -> to_ascii l = l.
Proof.
  induction l as [|c l IH]; [reflexivity|].
  cbn [forallb]. intros H. apply andb_prop in H as [Hc Hl].
  cbn [to_ascii]. rewrite (digit_is_ascii c Hc), (IH Hl). reflexivity.
Qed.

Lemma digit_run_digits (l : list ascii) :
  forallb is_digit l = true -> digit_run l = (l, []).
Proof.
  induction l as [|c l IH]; simpl; [reflexivity|].
  intros H. apply andb_prop in H as [Hc Hl]. rewrite Hc, (IH Hl). reflexivity.
Qed.

Lemma lstrip_digits (l : list ascii) :
  forallb is_digit l = true -> lstrip l = l.
Proof.
  destruct l as [|c l]; simpl; [reflexivity|].
  intros H. apply andb_prop in H as [Hc _].
  destruct (digit_facts c Hc) as (-> & _). reflexivity.
Qed.

Lemma forallb_rev_digits (l : list ascii) :
  forallb is_digit l = true -> forallb is_digit (rev l) = true.
Proof.
  rewrite !List.forallb_forall. intros H c Hc. apply H, List.in_rev, Hc.
Qed.

Lemma strip_digits (l : list ascii) :
  forallb is_digit l = true -> strip l = l.
Proof.
  intros H. unfold strip. rewrite (lstrip_digits l H).
  rewrite (lstrip_digits _ (forallb_rev_digits l H)). apply rev_involutive.
Qed.

Lemma int_of_chars_digits (l : list ascii) :
  l <> [] -> forallb is_digit l = true -> (length l <= 4300)%nat ->
  int_of_chars l = Some (digits_val l).
Proof.
  intros Hne H Hlen. unfold int_of_chars.
  rewrite (to_ascii_digits l H), (strip_digits l H).
  destruct l as [|c r]; [congruence|].
  pose proof H as H'. simpl in H'. apply andb_prop in H' as [Hc _].
  destruct (digit_facts c Hc) as (_ & H45 & H43 & _).
  unfold take_sign. rewrite H45, H43.
  unfold digitpart. rewrite Hc, (digit_run_digits _ H).
  apply Nat.leb_le in Hlen. rewrite Hlen. reflexivity.
Qed.

Lemma numeral_chars (s : string) :
  numeral s ->
  chars s <> [] /\ forallb is_digit (chars s) = true /\
  (length (chars s) <= 4300)%nat.
Proof.
  intros (Hne & H & Hlen). split; [|split; assumption].
  destruct s; [congruence|discriminate].
Qed.

Lemma int_of_numeral (s : string) :
  numeral s -> int_of_chars (chars s) = Some (numeral_val s).
Proof.
  intros H. apply numeral_chars in H as (Hne & H & Hlen).
  apply int_of_chars_digits; assumption.
Qed.

Lemma digits_no_dash (l : list ascii) :
  forallb is_digit l = true -> has_dash l = false.
Proof.
  induction l as [|c l IH]; simpl; [reflexivity|].
  intros H. apply andb_prop in H as [Hc Hl].
  destruct (digit_facts c Hc) as (_ & _ & _ & _ & ->). apply IH, Hl.
Qed.

Lemma split_on_digits (l : list ascii) :
  forallb is_digit l = true -> split_on "-" l = [l].
Proof.
  induction l as [|c l IH]; simpl; [reflexivity|].
  intros H. apply andb_prop in H as [Hc Hl].
  destruct (digit_facts c Hc) as (_ & _ & _ & _ & ->).
  rewrite (IH Hl). reflexivity.
Qed.

Lemma split_on_range (a b : list ascii) :
  forallb is_digit a = true -> forallb is_digit b = true ->
  split_on "-" (a ++ "-"%char :: b) = [a; b].
Proof.
  intros Ha Hb. induction a as [|c a IH]; simpl.
  - rewrite (split_on_digits b Hb). reflexivity.
  - simpl in Ha. apply andb_prop in Ha as [Hc Ha].
    destruct (digit_facts c Hc) as (_ & _ & _ & _ & ->).
    rewrite (IH Ha). reflexivity.
Qed.

Lemma has_dash_range (a b : list ascii) : has_dash (a ++ "-"%char :: b) = true.
Proof.
  unfold has_dash. rewrite List.existsb_app. simpl. apply orb_true_r.
Qed.

Lemma chars_range (a b : string) :
  chars (range_label a b) = chars a ++ "-"%char :: chars b.
Proof. unfold range_label. rewrite chars_app. reflexivity. Qed.

Lemma range_is_not_65_plus (a b : string) :
  String.eqb (range_label a b) "65+" = false.
Proof.
  destruct (String.eqb_spec (range_label a b) "65+") as [E|]; [|reflexivity].
  pose proof (has_dash_range (chars a) (chars b)) as H.
  rewrite <- chars_range, E in H. discriminate H.
Qed.

Lemma age_sort_key_range (a b : string) :
  numeral a -> numeral b ->
  age_sort_key (range_label a b) = (numeral_val a, numeral_val b).
Proof.
  intros Ha Hb. unfold age_sort_key.
  rewrite range_is_not_65_plus, chars_range, has_dash_range.
  destruct (numeral_chars a Ha) as (_ & Hda & _).
  destruct (numeral_chars b Hb) as (_ & Hdb & _).
  rewrite (split_on_range _ _ Hda Hdb).
  rewrite (int_of_numeral a Ha), (int_of_numeral b Hb). reflexivity.
Qed.

Lemma age_sort_key_single (s : string) :
  numeral s -> age_sort_key s = (numeral_val s, numeral_val s).
Proof.
  intros Hs. unfold age_sort_key.
  destruct (numeral_chars s Hs) as (_ & Hd & _).
  destruct (String.eqb_spec s "65+") as [->|_]; [discriminate Hd|].
  rewrite (digits_no_dash _ Hd), (int_of_numeral s Hs). reflexivity.
Qed.

Lemma pair_leb_spec (x y : Z * Z) :
  pair_leb x y = true <-> fst x < fst y \/ (fst x = fst y /\ snd x <= snd y).
Proof.
  unfold pair_leb. rewrite orb_true_iff, andb_true_iff.
  rewrite Z.ltb_lt, Z.eqb_eq, Z.leb_le. reflexivity.
Qed.

Lemma pair_leb_total (x y : Z * Z) : pair_leb x y = true \/ pair_leb y x = true.
Proof. rewrite !pair_leb_spec. lia. Qed.

Lemma pair_leb_trans (x y z : Z * Z) :
  pair_leb x y = true -> pair_leb y z = true -> pair_leb x z = true.
Proof. rewrite !pair_leb_spec. lia. Qed.

Lemma pair_lt_not_leb (x y : Z * Z) : pair_lt x y -> pair_leb y x = false.
Proof.
  intros H. destruct (pair_leb y x) eqn:E; [|reflexivity].
  apply pair_leb_spec in E. unfold pair_lt in H. lia.
Qed.

(** Two buckets of which the first has the greater key change places. *)
Lemma sort_ages_swap (s u : string) :
  pair_lt (age_sort_key s) (age_sort_key u) -> sort_ages [u; s] = [s; u].
Proof.
  intros H. unfold sort_ages. simpl.
  rewrite (pair_lt_not_leb _ _ H). reflexivity.
Qed.

(** The age buckets.  A bounded range is a label ["A-B"] whose ages are
    below 65, where the open bucket ["65+"] starts; a label is unparsable
    when it is not ["65+"] and its conversion to integers raises. *)
Definition bounded_range (s : string) : Prop :=
  exists a b : string,
    numeral a /\ numeral b /\ s = range_label a b /\ numeral_val a < 65.

Definition unparsable (s : string) : Prop :=
  s <> "65+"%string /\
  if has_dash (chars s)
  then forall a b, split_on "-" (chars s) = [a; b] ->
                   int_of_chars a = None \/ int_of_chars b = None
  else int_of_chars (chars s) = None.

Definition age_bucket (s : string) : Prop :=
  bounded_range s \/ s = "65+"%string \/ unparsable s.

Lemma unparsable_key (s : string) : unparsable s -> age_sort_key s = (999, 999).
Proof.
  intros (Hs & Hp). unfold age_sort_key.
  destruct (String.eqb_spec s "65+"); [congruence|].
  destruct (has_dash (chars s)); [|rewrite Hp; reflexivity].
  destruct (split_on "-" (chars s)) as [|a [|b [|c l]]]; try reflexivity.
  destruct (Hp a b eq_refl) as [-> | ->]; [reflexivity|].
  destruct (int_of_chars a); reflexivity.
Qed.

Lemma bounded_range_key (s : string) :
  bounded_range s -> fst (age_sort_key s) < 65.
Proof.
  intros (a & b & Ha & Hb & -> & Hlt).
  rewrite age_sort_key_range by assumption. exact Hlt.
Qed.

(** A list in ascending order of the keys, whose elements are of three
    classes with keys apart, is the elements of the first class, then those
    of the second, then those of the third. *)
Lemma sorted_in_three_runs (P0 P1 P2 : string -> Prop) (l : list string) :
  (forall x y, P1 x -> P0 y -> pair_leb (age_sort_key x) (age_sort_key y) = false) ->
  (forall x y, P2 x -> P0 y -> pair_leb (age_sort_key x) (age_sort_key y) = false) ->
  (forall x y, P2 x -> P1 y -> pair_leb (age_sort_key x) (age_sort_key y) = false) ->
  StronglySorted
    (fun s u => pair_leb (age_sort_key s) (age_sort_key u) = true) l ->
  Forall (fun x => P0 x \/ P1 x \/ P2 x) l ->
  exists l0 l1 l2,
    l = l0 ++ l1 ++ l2 /\ Forall P0 l0 /\ Forall P1 l1 /\ Forall P2 l2.
Proof.
  intros H10 H20 H21 Hs. induction Hs as [|x l Hs IH Hx]; intros Hall.
  - exists [], [], []. repeat split; constructor.
  - apply Forall_cons_iff in Hall as [Hcx Hall].
    destruct (IH Hall) as (l0 & l1 & l2 & -> & F0 & F1 & F2).
    rewrite !List.Forall_app in Hx. destruct Hx as (Hx0 & Hx1 & Hx2).
    destruct Hcx as [Hc|[Hc|Hc]].
    + exists (x :: l0), l1, l2. split; [reflexivity|].
      split; [constructor; assumption|]. split; assumption.
    + assert (l0 = []) as ->.
      { destruct l0 as [|y l0]; [reflexivity|]. exfalso.
        apply Forall_cons_iff in Hx0 as [Hxy _].
        apply Forall_cons_iff in F0 as [Hy _].
        rewrite (H10 x y Hc Hy) in Hxy. discriminate Hxy. }
      exists [], (x :: l1), l2. split; [reflexivity|].
      split; [constructor|]. split; [constructor; assumption|assumption].
    + assert (l0 = []) as ->.
      { destruct l0 as [|y l0]; [reflexivity|]. exfalso.
        apply Forall_cons_iff in Hx0 as [Hxy _].
        apply Forall_cons_iff in F0 as [Hy _].
        rewrite (H20 x y Hc Hy) in Hxy. discriminate Hxy. }
      assert (l1 = []) as ->.
      { destruct l1 as [|y l1]; [reflexivity|]. exfalso.
        apply Forall_cons_iff in Hx1 as [Hxy _].
        apply Forall_cons_iff in F1 as [Hy _].
        rewrite (H21 x y Hc Hy) in Hxy. discriminate Hxy. }
      exists [], [], (x :: l2). split; [reflexivity|].
      split; [constructor|]. split; [constructor|constructor; assumption].
Qed.

(** Outside the age buckets the key is still the pair of numbers, and the
    fixed pairs (65, 100) and (999, 999) are no longer greater than every
    other key: a range that starts above 65 sorts after ["65+"], and one
    that starts above 999 after a label that is no number. *)
Example keys_beyond_the_age_buckets :
  age_sort_key "66-70" = (66, 70) /\
  age_sort_key "65+" = (65, 100) /\
  sort_ages ["66-70"; "65+"]%string = ["65+"; "66-70"]%string /\
  age_sort_key "Unknown" = (999, 999) /\
  sort_ages ["1000-2000"; "Unknown"]%string = ["Unknown"; "1000-2000"]%string.
Proof. vm_compute. repeat split; reflexivity. Qed.

(** C10. The sort key orders the age buckets by numbers, not by their
    spelling.  ["A-B"] has the key (A, B): ranges sort by their lower bound
    and then by their upper bound.  ["65+"] has the key (65, 100) and sorts
    after every bounded range of ages (a range that starts below 65).  A
    bucket that cannot be parsed has the key (999, 999) and sorts last,
    after ["65+"] and after every bounded range.  So the sorted buckets
    are the bounded ranges in ascending order, then ["65+"], then the
    unparsable ones; in particular ["45-54"; "18-24"; "65+"; "35-44"] sorts
    to ["18-24"; "35-44"; "45-54"; "65+"]. *)
Theorem age_sort_key_order :
  age_sort_key "65+" = (65, 100) /\
  (forall a b : string,
     numeral a -> numeral b ->
     age_sort_key (range_label a b) = (numeral_val a, numeral_val b)) /\
  (forall a b a' b' : string,
     numeral a -> numeral b -> numeral a' -> numeral b' ->
     numeral_val a < numeral_val a' \/
     (numeral_val a = numeral_val a' /\ numeral_val b < numeral_val b') ->
     sort_ages [range_label a' b'; range_label a b]
     = [range_label a b; range_label a' b']) /\
  (forall a b : string,
     numeral a -> numeral b -> numeral_val a < 65 ->
     sort_ages ["65+"%string; range_label a b] = [range_label a b; "65+"%string]) /\
  (forall s : string,
     s <> "65+"%string -> has_dash (chars s) = false ->
     int_of_chars (chars s) = None -> age_sort_key s = (999, 999)) /\
  (forall s : string,
     s <> "65+"%string -> has_dash (chars s) = true ->
     (forall a b, split_on "-" (chars s) = [a; b] ->
                  int_of_chars a = None \/ int_of_chars b = None) ->
     age_sort_key s = (999, 999)) /\
  (forall s u : string,
     age_sort_key u = (999, 999) -> fst (age_sort_key s) < 999 ->
     sort_ages [u; s] = [s; u]) /\
  (forall ages : list string,
     Permutation ages (sort_ages ages) /\
     StronglySorted
       (fun s u => pair_leb (age_sort_key s) (age_sort_key u) = true)
       (sort_ages ages)) /\
  sort_ages ["45-54"; "18-24"; "65+"; "35-44"]%string
  = ["18-24"; "35-44"; "45-54"; "65+"]%string /\
  (String.ltb "18-24" "5-9" = true /\
   sort_ages ["18-24"; "5-9"]%string = ["5-9"; "18-24"]%string) /\
  (forall s u : string,
     unparsable u -> bounded_range s \/ s = "65+"%string ->
     sort_ages [u; s] = [s; u]) /\
  (forall ages : list string,
     Forall age_bucket ages ->
     exists ranges open_bucket others,
       sort_ages ages = ranges ++ open_bucket ++ others /\
       Forall bounded_range ranges /\
       Forall (fun s => s = "65+"%string) open_bucket /\
       Forall unparsable others).
Proof.
  split; [reflexivity|].
  split; [apply age_sort_key_range|].
  split.
  { intros a b a' b' Ha Hb Ha' Hb' H. apply sort_ages_swap.
    rewrite !age_sort_key_range by assumption. exact H. }
  split.
  { intros a b Ha Hb H. apply sort_ages_swap.
    rewrite age_sort_key_range by assumption. left. exact H. }
  split.
  { intros s Hs Hd Hi. apply unparsable_key. split; [exact Hs|].
    rewrite Hd. exact Hi. }
  split.
  { intros s Hs Hd Hp. apply unparsable_key. split; [exact Hs|].
    rewrite Hd. exact Hp. }
  split.
  { intros s u Hu Hs. apply sort_ages_swap. rewrite Hu. left. exact Hs. }
  assert (Hsorted : forall ages : list string,
     Permutation ages (sort_ages ages) /\
     StronglySorted
       (fun s u => pair_leb (age_sort_key s) (age_sort_key u) = true)
       (sort_ages ages)).
  { intros ages. split; [apply sort_by_key_perm|].
    apply sort_by_key_sorted; [apply pair_leb_total|apply pair_leb_trans]. }
  split; [exact Hsorted|].
  split; [reflexivity|]. split; [split; reflexivity|].
  assert (H65 : age_sort_key "65+" = (65, 100)) by reflexivity.
  split.
  { intros s u Hu Hs. apply sort_ages_swap. rewrite (unparsable_key u Hu).
    left. destruct Hs as [Hs | ->].
    - apply bounded_range_key in Hs. cbn [fst]. lia.
    - rewrite H65. cbn [fst]. lia. }
  intros ages Hall. destruct (Hsorted ages) as (Hperm & Hs).
  apply (sorted_in_three_runs bounded_range (fun s => s = "65+"%string)
           unparsable (sort_ages ages)).
  - intros x y -> Hy. apply pair_lt_not_leb. left.
    apply bounded_range_key in Hy. rewrite H65. cbn [fst]. exact Hy.
  - intros x y Hx Hy. apply pair_lt_not_leb. left.
    rewrite (unparsable_key x Hx). apply bounded_range_key in Hy.
    cbn [fst]. lia.
  - intros x y Hx ->. apply pair_lt_not_leb. left.
    rewrite (unparsable_key x Hx), H65. cbn [fst]. lia.
  - exact Hs.
  - eapply Permutation_Forall; [exact Hperm|exact Hall].
Qed.

Lemma age_sort_key_order_witness :
  sort_ages ["65+"; "18-24"]%string = ["18-24"; "65+"]%string /\
  sort_ages ["unknown"; "55-64"]%string = ["55-64"; "unknown"]%string.
Proof.
  destruct age_sort_key_order as (_ & _ & _ & H65 & _ & _ & Hlast & _).
  split.
  - apply (H65 "18"%string "24"%string).
    + split; [discriminate|]. split; [reflexivity|]. simpl. lia.
    + split; [discriminate|]. split; [reflexivity|]. simpl. lia.
    + reflexivity.
  - apply (Hlast "55-64"%string "unknown"%string); reflexivity.
Defined.

(* ===================================================================== *)
(** * Further properties of the code *)
(* ===================================================================== *)

(** ** Normalisation: [safe_float] and [safe_int] *)

Lemma py_float_str_raises (s : string) (e : exn) :
  py_float_str s = Raise e -> e = ValueError.
Proof. unfold py_float_str. destruct (float_of_chars _); congruence. Qed.

Lemma py_float_raises (v : pyval) (e : exn) :
  py_float v = Raise e ->
  e = TypeError \/ e = ValueError \/
  (e = OverflowError /\ exists z, v = PInt z /\ F.is_inf (F.of_Z z) = true).
Proof.
  destruct v as [|b|z|x|s]; simpl.
  - intros [= <-]. left. reflexivity.
  - discriminate.
  - unfold float_of_int. destruct (F.is_inf (F.of_Z z)) eqn:E; [|discriminate].
    intros [= <-]. right. right. split; [reflexivity|]. exists z. split; [reflexivity|exact E].
  - discriminate.
  - intros H. apply py_float_str_raises in H. right. left. exact H.
Qed.

(** X1. [safe_float] fails closed: [None], the empty string and a string
    that is no number give the default, a double is returned as it is, and
    no [TypeError] or [ValueError] leaves the function.  One exception does:
    [OverflowError], on an integer beyond the range of doubles. *)
Theorem safe_float_fails_closed (v : pyval) (d : float) :
  (is_none_or_empty v = true -> safe_float_or v d = Ok d) /\
  (forall s, v = PStr s -> py_float_str s = Raise ValueError ->
             safe_float_or v d = Ok d) /\
  (forall x, v = PFloat x -> safe_float_or v d = Ok x) /\
  (forall e, safe_float_or v d = Raise e ->
             e = OverflowError /\
             exists z, v = PInt z /\ F.is_inf (F.of_Z z) = true).
Proof.
  unfold safe_float_or. split; [|split; [|split]].
  - intros ->. reflexivity.
  - intros s -> Hs. simpl. destruct (String.eqb s ""); [reflexivity|].
    rewrite Hs. reflexivity.
  - intros x ->. reflexivity.
  - intros e. destruct (is_none_or_empty v); [discriminate|].
    destruct (py_float v) as [x|e'] eqn:E; [discriminate|].
    apply py_float_raises in E.
    destruct E as [-> | [-> | (-> & Hz)]]; simpl; try discriminate.
    intros [= <-]. split; [reflexivity|exact Hz].
Qed.

Lemma safe_float_fails_closed_witness :
  safe_float_or (PStr "n/d") 7 = Ok 7%float.
Proof.
  destruct (safe_float_fails_closed (PStr "n/d") 7) as (_ & H & _).
  apply (H "n/d"%string); reflexivity.
Defined.

Lemma is_nan_spec_float (x : float) :
  is_nan x = true -> Prim2SF x = S754_nan.
Proof.
  unfold is_nan. rewrite FloatAxioms.eqb_spec.
  destruct (Prim2SF x) as [s|s| |s m e]; try reflexivity.
  - destruct s; discriminate.
  - destruct s; discriminate.
  - unfold SFeqb, SFcompare. rewrite Z.compare_refl.
    destruct s; rewrite Pos.compare_cont_refl; discriminate.
Qed.

Lemma is_inf_spec_float (x : float) :
  F.is_inf x = true -> exists s, Prim2SF x = S754_infinity s.
Proof.
  unfold F.is_inf. rewrite FloatAxioms.eqb_spec, FloatAxioms.abs_spec.
  destruct (Prim2SF x) as [s|s| |s m e]; try discriminate.
  intros _. exists s. reflexivity.
Qed.

Lemma trunc_raises (x : float) (e : exn) :
  F.trunc x = Raise e -> e = OverflowError \/ e = ValueError.
Proof.
  unfold F.trunc. destruct (Prim2SF x); intros [= <-]; auto.
Qed.

(** X2. [safe_int] gives the default for [None], the empty string and NaN,
    but it does not fail closed on an infinite value: [int(float('inf'))]
    raises [OverflowError], which the function does not catch.  No other
    exception leaves it. *)
Theorem safe_int_lets_overflow_through (v : pyval) (d : Z) :
  (is_none_or_empty v = true -> safe_int_or v d = Ok d) /\
  (forall x, py_float v = Ok x -> is_nan x = true -> safe_int_or v d = Ok d) /\
  (forall x, py_float v = Ok x -> F.is_inf x = true ->
             is_none_or_empty v = false ->
             safe_int_or v d = Raise OverflowError) /\
  (forall e, safe_int_or v d = Raise e -> e = OverflowError).
Proof.
  unfold safe_int_or. split; [|split; [|split]].
  - intros ->. reflexivity.
  - intros x Hx Hnan. destruct (is_none_or_empty v); [reflexivity|].
    rewrite Hx. simpl. unfold F.trunc. rewrite (is_nan_spec_float x Hnan).
    reflexivity.
  - intros x Hx Hinf ->. rewrite Hx. simpl. unfold F.trunc.
    destruct (is_inf_spec_float x Hinf) as [s ->]. reflexivity.
  - intros e. destruct (is_none_or_empty v); [discriminate|].
    destruct (py_float v) as [x|e'] eqn:E; simpl.
    + destruct (F.trunc x) as [z|e'] eqn:Et; [discriminate|].
      apply trunc_raises in Et. destruct Et as [-> | ->]; simpl; congruence.
    + apply py_float_raises in E.
      destruct E as [-> | [-> | (-> & _)]]; simpl; congruence.
Qed.

Lemma safe_int_lets_overflow_through_witness :
  safe_int_or (PStr "nan") 3 = Ok 3 /\
  safe_int_or (PStr "inf") 3 = Raise OverflowError.
Proof.
  destruct (safe_int_lets_overflow_through (PStr "nan") 3) as (_ & Hnan & _).
  destruct (safe_int_lets_overflow_through (PStr "inf") 3) as (_ & _ & Hinf & _).
  split.
  - apply (Hnan nan); reflexivity.
  - apply (Hinf infinity); reflexivity.
Defined.

(** ** The creative rules *)

(** X3. [analyze_creative_elements] returns at most two recommendations,
    the one on the text before the one on the call to action.  The call to
    action is reported exactly when the key cta is absent or its value is
    falsy, and the text exactly when primary_text is a string of more than
    125 words.  When primary_text is present and is not a string (even
    [None]) the function raises [AttributeError]. *)
Theorem creative_rules (creative_data : pydict) :
  (forall v, creative_data !! "primary_text" = Some v ->
             (forall s, v <> PStr s) ->
             analyze_creative_elements creative_data = Raise AttributeError) /\
  (forall recs,
     analyze_creative_elements creative_data = Ok recs ->
     (length recs <= 2)%nat /\
     (In missing_cta_recommendation recs <->
      creative_data !! "cta" = None \/
      exists v, creative_data !! "cta" = Some v /\ truthy v = false) /\
     (forall w, In (text_length_recommendation w) recs <->
                125 < w /\
                exists s, creative_data !! "primary_text" = Some (PStr s) /\
                          w = Z.of_nat (count_words false (chars s))) /\
     (forall w, In (text_length_recommendation w) recs ->
                In missing_cta_recommendation recs ->
                recs = [text_length_recommendation w; missing_cta_recommendation])).
Proof.
  unfold analyze_creative_elements. split.
  - intros v Hv Hns. rewrite Hv.
    destruct v; try reflexivity. exfalso. apply (Hns s). reflexivity.
  - intros recs H. rbind_inv_as H r1 H1. injection H as <-.
    set (r2 := match creative_data !! "cta" with
               | Some cta => if truthy cta then [] else [missing_cta_recommendation]
               | None => [missing_cta_recommendation]
               end).
    assert (Hr2 : (r2 = [] /\ exists v, creative_data !! "cta" = Some v /\ truthy v = true) \/
                  (r2 = [missing_cta_recommendation] /\
                   (creative_data !! "cta" = None \/
                    exists v, creative_data !! "cta" = Some v /\ truthy v = false))).
    { unfold r2. destruct (creative_data !! "cta") as [cta|]; [|right; auto].
      destruct (truthy cta) eqn:E; [left|right]; eauto. }
    assert (Hr1 : (r1 = [] /\
                   forall w s, creative_data !! "primary_text" = Some (PStr s) ->
                               w = Z.of_nat (count_words false (chars s)) ->
                               ~ 125 < w) \/
                  (exists s, creative_data !! "primary_text" = Some (PStr s) /\
                             125 < Z.of_nat (count_words false (chars s)) /\
                             r1 = [text_length_recommendation
                                     (Z.of_nat (count_words false (chars s)))])).
    { destruct (creative_data !! "primary_text") as [txt|].
      - rbind_inv_as H1 words Hw. destruct txt; try discriminate Hw.
        injection Hw as <-.
        destruct (Z.ltb_spec 125 (Z.of_nat (count_words false (chars s))));
          injection H1 as <-.
        + right. exists s. auto.
        + left. split; [reflexivity|]. intros w s' [= <-] ->. lia.
      - injection H1 as <-. left. split; [reflexivity|]. discriminate. }
    assert (Hne : forall w, text_length_recommendation w <> missing_cta_recommendation)
      by discriminate.
    destruct Hr1 as [(-> & Hno) | (s & Hs & Hlong & ->)];
      destruct Hr2 as [(-> & v & Hv & Htv) | (-> & Hcta)]; simpl.
    + split; [lia|]. split; [|split].
      * split; [tauto|]. intros [Hc|(v' & Hc & Hf)]; congruence.
      * intros w. split; [tauto|]. intros (Hw & s & Hs & ->). eapply Hno; eauto.
      * tauto.
    + split; [lia|]. split; [|split].
      * split; [intros _; exact Hcta|]. auto.
      * intros w. split.
        -- intros [Hc|[]]. exfalso. eapply Hne. symmetry. exact Hc.
        -- intros (Hw & s & Hs & ->). exfalso. eapply Hno; eauto.
      * intros w [Hc|[]]. exfalso. eapply Hne. symmetry. exact Hc.
    + split; [lia|]. split; [|split].
      * split.
        -- intros [Hc|[]]. exfalso. eapply Hne. exact Hc.
        -- intros [Hc|(v' & Hc & Hf)]; congruence.
      * intros w. split.
        -- intros [Hc|[]]. injection Hc as <-. split; [exact Hlong|]. eauto.
        -- intros (Hw & s' & Hs' & ->). rewrite Hs in Hs'. injection Hs' as <-.
           left. reflexivity.
      * intros w _ [Hc|[]]. exfalso. eapply Hne. exact Hc.
    + split; [lia|]. split; [|split].
      * split; [intros _; exact Hcta|]. auto.
      * intros w. split.
        -- intros [Hc|[Hc|[]]].
           ++ injection Hc as <-. split; [exact Hlong|]. eauto.
           ++ exfalso. eapply Hne. symmetry. exact Hc.
        -- intros (Hw & s' & Hs' & ->). rewrite Hs in Hs'. injection Hs' as <-.
           left. reflexivity.
      * intros w [Hc|[Hc|[]]] _.
        -- injection Hc as <-. reflexivity.
        -- exfalso. eapply Hne. symmetry. exact Hc.
Qed.

Lemma creative_rules_witness :
  analyze_creative_elements {["primary_text" := PNone]} = Raise AttributeError.
Proof.
  destruct (creative_rules {["primary_text" := PNone]}) as (H & _).
  apply (H PNone); [reflexivity|discriminate].
Defined.

(** ** The engine *)

Lemma with_temporal_same (inp : Inputs) (df : DataFrame) :
  temporal_data inp = Some df -> with_temporal inp df = inp.
Proof. destruct inp. simpl. intros ->. reflexivity. Qed.

Lemma rules_1_to_4_with_temporal (inp : Inputs) (df : DataFrame) :
  rules_1_to_4 (with_temporal inp df) = rules_1_to_4 inp.
Proof. reflexivity. Qed.

(** X4. The path to the success message: when the click-through rate is
    not below 1.05 %, the record has no conversion_rate field (the API
    returns none), the frequency is not above 3.5, there are no
    demographics and no TemporalSeries, and the ad details have no key
    creative, the engine returns the empty list and leaves its inputs as
    they are.  The key decides: with a string under it that holds neither
    primary_text nor cta the engine returns the call-to-action
    recommendation, and with any other scalar under it (even [None]) it
    raises [TypeError]. *)
Theorem healthy_ad_gets_no_recommendation (inp : Inputs) (c k f : float) :
  safe_float (get (insights inp) "ctr" (PInt 0)) = Ok c ->
  F.lt (c * 100) (avg_ctr_benchmark * 0.7) = false ->
  safe_float (get (insights inp) "cost_per_conversion" (PInt 0)) = Ok k ->
  insights inp !! "conversion_rate" = None ->
  safe_float (get (insights inp) "frequency" (PInt 0)) = Ok f ->
  F.gt f 3.5 = false ->
  demographics inp = [] ->
  temporal_data inp = None ->
  creative (ad_details inp) = None ->
  (fields (ad_details inp) !! "creative" = None ->
   generate_ai_optimization_recommendations inp = (inp, Ok [])) /\
  (forall s,
     fields (ad_details inp) !! "creative" = Some (PStr s) ->
     str_contains "primary_text" s = false -> str_contains "cta" s = false ->
     generate_ai_optimization_recommendations inp
     = (inp, Ok [missing_cta_recommendation])) /\
  (forall v,
     fields (ad_details inp) !! "creative" = Some v ->
     (forall s, v <> PStr s) ->
     generate_ai_optimization_recommendations inp = (inp, Raise TypeError)).
Proof.
  intros Hc Hlow Hk Hr Hf Hfreq Hd Ht Hcr.
  unfold generate_ai_optimization_recommendations, emitted.
  assert (H14 : rules_1_to_4 inp = Ok []).
  { unfold rules_1_to_4, ctr_rule, frequency_rule.
    rewrite Hc. cbn [rbind]. rewrite Hlow. cbn [rbind].
    rewrite Hk, (safe_float_absent _ _ Hr). cbn [rbind].
    rewrite cost_rule_on_zero by (right; reflexivity). cbn [rbind].
    rewrite Hf. cbn [rbind]. rewrite Hfreq. cbn [rbind].
    rewrite Hd. reflexivity. }
  rewrite H14. unfold rule_5, rule_6. rewrite Ht, Hcr.
  split; [|split].
  - intros ->. reflexivity.
  - intros s -> H1 H2. cbn [analyze_creative_scalar]. rewrite H1, H2.
    reflexivity.
  - intros v -> Hv. destruct v as [|b|z|x|s]; try reflexivity.
    contradiction (Hv s eq_refl).
Qed.

Lemma healthy_ad_gets_no_recommendation_witness :
  let ins : pydict := <["ctr" := PStr "0.021"]>
                      (<["frequency" := PStr "1.8"]>
                      (<["cost_per_conversion" := PStr "12.5"]> ∅)) in
  let inp := {| ad_details := {| fields := {["campaign_objective" := PStr "REACH"]};
                                 creative := None |};
                insights := ins; temporal_data := None; demographics := [] |} in
  let named := {| ad_details := {| fields := {["creative" := PStr "banner.png"]};
                                   creative := None |};
                  insights := ins; temporal_data := None; demographics := [] |} in
  generate_ai_optimization_recommendations inp = (inp, Ok []) /\
  generate_ai_optimization_recommendations named
  = (named, Ok [missing_cta_recommendation]).
Proof.
  intros ins inp named.
  destruct (healthy_ad_gets_no_recommendation inp 0.021 12.5 1.8)
    as (H & _); try reflexivity.
  destruct (healthy_ad_gets_no_recommendation named 0.021 12.5 1.8)
    as (_ & Hs & _); try reflexivity.
  split; [apply H; reflexivity|].
  apply (Hs "banner.png"%string); reflexivity.
Defined.

(** X6. The campaign objective is read with [ad_details['campaign_objective']]:
    when both normalised fields are positive and the ad has no such key,
    rule 2 raises [KeyError] whatever the cost, and so does the engine when
    rule 1 returned; the inputs are as before. *)
Theorem missing_objective_raises (inp : Inputs) (c r : float) :
  safe_float (get (insights inp) "cost_per_conversion" (PInt 0)) = Ok c ->
  safe_float (get (insights inp) "conversion_rate" (PInt 0)) = Ok r ->
  F.gt c 0 = true -> F.gt r 0 = true ->
  fields (ad_details inp) !! "campaign_objective" = None ->
  cost_rule (ad_details inp) (insights inp) = Raise KeyError /\
  (is_ok (ctr_rule (ad_details inp) (insights inp)) = true ->
   generate_ai_optimization_recommendations inp = (inp, Raise KeyError)).
Proof.
  intros Hc Hr Hc0 Hr0 Hobj.
  assert (Hon : cost_rule_on (ad_details inp) c r = Raise KeyError).
  { unfold cost_rule_on, getitem. rewrite Hc0, Hr0, Hobj. reflexivity. }
  split.
  - unfold cost_rule. rewrite Hc, Hr. exact Hon.
  - intros H1. unfold generate_ai_optimization_recommendations, emitted,
      rules_1_to_4.
    destruct (ctr_rule (ad_details inp) (insights inp)); [|discriminate H1].
    cbn [rbind]. rewrite Hc, Hr. cbn [rbind]. rewrite Hon. reflexivity.
Qed.

Lemma missing_objective_raises_witness :
  let inp := {| ad_details := {| fields := ∅; creative := None |};
                insights := <["ctr" := PFloat 0.05]>
                            (<["cost_per_conversion" := PFloat 1]>
                            (<["conversion_rate" := PFloat 2]> ∅));
                temporal_data := None; demographics := [] |} in
  cost_rule (ad_details inp) (insights inp) = Raise KeyError.
Proof.
  intros inp.
  exact (proj1 (missing_objective_raises inp 1 2
                  eq_refl eq_refl eq_refl eq_refl eq_refl)).
Defined.

(** X7. Rule 4 sees only the rows that have the key age: the other rows
    are left out before any of their fields is read, and without a row that
    has it the rule is silent. *)
Theorem demographic_rule_reads_rows_with_age (c : float) (demo : list pydict) :
  demographic_rule c demo
  = demographic_rule c (List.filter (fun d => has_key d "age") demo) /\
  (Forall (fun d => d !! "age" = None) demo -> demographic_rule c demo = Ok []).
Proof.
  assert (Hrows : demo_rows demo
                  = demo_rows (List.filter (fun d => has_key d "age") demo)).
  { induction demo as [|d demo IH]; [reflexivity|].
    cbn [demo_rows List.filter]. destruct (has_key d "age") eqn:E.
    - cbn [demo_rows]. rewrite E, IH. reflexivity.
    - exact IH. }
  split.
  - unfold demographic_rule. rewrite Hrows. reflexivity.
  - intros Hall. unfold demographic_rule. rewrite Hrows.
    assert (Hnil : List.filter (fun d => has_key d "age") demo = []).
    { clear Hrows. induction Hall as [|d demo Hd _ IH]; [reflexivity|].
      cbn [List.filter]. unfold has_key at 1. rewrite Hd. exact IH. }
    rewrite Hnil. reflexivity.
Qed.

Lemma demographic_rule_reads_rows_with_age_witness :
  demographic_rule 50 [{["spend" := PStr "inf"]}; {["impressions" := PNone]}]
  = Ok [].
Proof.
  destruct (demographic_rule_reads_rows_with_age 50
              [{["spend" := PStr "inf"]}; {["impressions" := PNone]}]) as (_ & H).
  apply H. repeat constructor.
Defined.

(** ** A second call *)

Lemma df_set_same (df : DataFrame) (n : string) (c : column) :
  df_get df n = Ok c -> df_set df n c = df.
Proof.
  induction df as [|[n' c'] df IH]; simpl; [discriminate|].
  destruct (String.eqb n' n).
  - intros [= ->]. reflexivity.
  - intros H. rewrite (IH H). reflexivity.
Qed.

Lemma scheduling_rule_again (df : DataFrame) :
  scheduling_rule (fst (scheduling_rule df))
  = (fst (scheduling_rule df), snd (scheduling_rule df)).
Proof.
  destruct (scheduling_rule_frame df) as [(Hno & Hsame)|(ts & Hts & Hnew)].
  - rewrite Hsame. destruct (scheduling_rule df) as [d r].
    cbn [fst snd] in *. subst d. reflexivity.
  - assert (Hsnd : snd (scheduling_rule df)
                   = (do day <- best_day_of_week (with_day_and_hour df ts);
                      do hour <- best_hour (with_day_and_hour df ts);
                      Ok [scheduling_recommendation day hour])).
    { unfold scheduling_rule, assign_day_of_week, assign_hour.
      rewrite Hts. cbn [rbind dt]. rewrite df_get_set_ne by discriminate.
      rewrite Hts. reflexivity. }
    rewrite Hnew, Hsnd. set (X := with_day_and_hour df ts).
    assert (Hd : df_get X "date_start" = Ok (ColTime ts))
      by (unfold X; rewrite with_day_and_hour_other by discriminate; exact Hts).
    assert (H1 : df_set X "day_of_week" (ColStr (map day_name ts)) = X).
    { apply df_set_same. unfold X, with_day_and_hour.
      rewrite df_get_set_ne by discriminate. apply df_get_set_eq. }
    assert (H2 : df_set X "hour" (ColInt (map ts_hour ts)) = X).
    { apply df_set_same. unfold X, with_day_and_hour. apply df_get_set_eq. }
    unfold scheduling_rule, assign_day_of_week, assign_hour.
    rewrite Hd. cbn [rbind dt]. rewrite H1, Hd. cbn [rbind dt]. rewrite H2.
    reflexivity.
Qed.

(** X5. Calling the engine again on the inputs as the first call left them
    gives the same result and changes nothing more: the two columns that
    rule 5 assigned are assigned the same values. *)
Theorem engine_second_call (inp : Inputs) :
  generate_ai_optimization_recommendations
    (fst (generate_ai_optimization_recommendations inp))
  = generate_ai_optimization_recommendations inp.
Proof.
  unfold generate_ai_optimization_recommendations, emitted.
  destruct (rules_1_to_4 inp) as [r14|e] eqn:H14.
  - unfold rule_5. destruct (temporal_data inp) as [df|] eqn:Ht.
    + pose proof (scheduling_rule_again df) as Hs.
      destruct (scheduling_rule df) as [df' r5] eqn:E. cbn [fst snd] in *.
      rewrite rules_1_to_4_with_temporal, H14. cbn [temporal_data with_temporal].
      rewrite Hs. reflexivity.
    + cbn [fst]. rewrite H14, Ht. reflexivity.
  - cbn [fst]. rewrite H14. reflexivity.
Qed.

(** ** Rule 5 picks a day and an hour of the series *)

Lemma first_max_in {A} (value : A -> float) (x : A) (l : list A) :
  In (first_max value x l) (x :: l).
Proof.
  unfold first_max. revert x. induction l as [|y l IH]; intros x.
  - left. reflexivity.
  - cbn [fold_left]. destruct (F.gt (value y) (value x)).
    + right. apply IH.
    + destruct (IH x) as [H|H]; [left; exact H|right; right; exact H].
Qed.

Section GroupKeys.
Context {K : Type} (eqb leb : K -> K -> bool).

Lemma group_add_keys (k : K) (v : float)
    (groups : list (K * (float * float))) (k' : K) :
  In k' (map fst (group_add eqb k v groups)) ->
  k' = k \/ In k' (map fst groups).
Proof.
  induction groups as [|[k0 s] groups IH]; simpl.
  - intros [H|[]]. left. symmetry. exact H.
  - destruct (eqb k k0); simpl; [tauto|].
    intros [H|H]; [tauto|]. destruct (IH H); tauto.
Qed.

Lemma grouped_keys (kvs : list (K * float))
    (acc : list (K * (float * float))) (k' : K) :
  In k' (map fst (fold_left (fun gs kv => group_add eqb (fst kv) (snd kv) gs)
                    kvs acc)) ->
  In k' (map fst kvs) \/ In k' (map fst acc).
Proof.
  revert acc. induction kvs as [|[k v] kvs IH]; intros acc; simpl.
  - tauto.
  - intros H. apply IH in H.
    destruct H as [H|H]; [tauto|].
    apply group_add_keys in H. simpl in H.
    destruct H as [H|H]; [left; left; symmetry; exact H|right; exact H].
Qed.

Lemma insert_group_keys (g : K * float) (groups : list (K * float)) (k' : K) :
  In k' (map fst (insert_group leb g groups)) ->
  k' = fst g \/ In k' (map fst groups).
Proof.
  induction groups as [|g0 groups IH]; simpl.
  - intros [H|[]]. left. symmetry. exact H.
  - destruct (leb (fst g) (fst g0)); simpl.
    + intros [H|H]; [left; symmetry; exact H|tauto].
    + intros [H|H]; [tauto|]. destruct (IH H); tauto.
Qed.

Lemma sorted_group_keys (groups : list (K * float)) (k' : K) :
  In k' (map fst (fold_right (insert_group leb) [] groups)) ->
  In k' (map fst groups).
Proof.
  induction groups as [|g groups IH]; simpl; [tauto|].
  intros H. apply insert_group_keys in H. destruct H as [H|H]; [left; symmetry; exact H|].
  right. apply IH, H.
Qed.

Lemma groupby_sum_keys (keys : list K) (values : list float) (k' : K) :
  In k' (map fst (groupby_sum eqb leb keys values)) -> In k' keys.
Proof.
  unfold groupby_sum. intros H. apply sorted_group_keys in H.
  rewrite List.map_map in H. cbn [fst] in H.
  apply grouped_keys in H. destruct H as [H|[]].
  apply List.in_map_iff in H. destruct H as ([k v] & <- & Hin).
  apply List.in_combine_l in Hin. exact Hin.
Qed.

Lemma idxmax_key (s : list (K * float)) (k : K) :
  idxmax s = Ok k -> In k (map fst s).
Proof.
  unfold idxmax.
  destruct (List.filter _ s) as [|g rest] eqn:E; [discriminate|].
  intros [= <-]. apply List.in_map.
  pose proof (first_max_in snd g rest) as H. rewrite <- E in H.
  apply List.filter_In in H. apply H.
Qed.
End GroupKeys.

(** X8. When rule 5 emits its recommendation, the best day is the weekday
    of a row of the series and the best hour is the hour of a row of the
    series: the rule never names a day or an hour without data. *)
Theorem best_day_and_hour_are_in_the_series (df : DataFrame)
    (ts : list Timestamp) (recs : list Recommendation) :
  df_get df "date_start" = Ok (ColTime ts) ->
  snd (scheduling_rule df) = Ok recs ->
  exists day hour,
    recs = [scheduling_recommendation day hour] /\
    In day (map day_name ts) /\ In hour (map ts_hour ts) /\
    ts <> [].
Proof.
  intros Hts. unfold scheduling_rule, assign_day_of_week, assign_hour.
  rewrite Hts. cbn [rbind dt]. rewrite df_get_set_ne by discriminate.
  rewrite Hts. cbn [rbind dt snd]. fold (with_day_and_hour df ts).
  intros H. rbind_inv_as H day Hday. rbind_inv_as H hour Hhour.
  injection H as <-. exists day, hour. split; [reflexivity|].
  unfold best_day_of_week in Hday. unfold best_hour in Hhour.
  unfold with_day_and_hour in Hday, Hhour.
  rewrite df_get_set_ne, df_get_set_eq in Hday by discriminate.
  rewrite df_get_set_eq in Hhour.
  cbn [rbind] in Hday, Hhour.
  rbind_inv_as Hday v Hv. rbind_inv_as Hday vs Hvs.
  rbind_inv_as Hhour v' Hv'. rbind_inv_as Hhour vs' Hvs'.
  apply idxmax_key, groupby_sum_keys in Hday.
  apply idxmax_key, groupby_sum_keys in Hhour.
  split; [exact Hday|]. split; [exact Hhour|].
  destruct ts; [destruct Hday|discriminate].
Qed.

Lemma best_day_and_hour_are_in_the_series_witness :
  let ts := [{| ts_day := 20000; ts_hour := 9 |};
             {| ts_day := 20001; ts_hour := 14 |}] in
  let df : DataFrame :=
    [("date_start", ColTime ts); ("conversions", ColFloat [1; 4]%float)] in
  exists day hour,
    [scheduling_recommendation "Saturday" 14] = [scheduling_recommendation day hour] /\
    In day (map day_name ts) /\ In hour (map ts_hour ts) /\ ts <> [].
Proof.
  intros ts df.
  apply (best_day_and_hour_are_in_the_series df ts); reflexivity.
Defined.

(** ** Rule 1 on the strings of the API *)

Lemma get_some (d : pydict) (k : string) (dflt v : pyval) :
  d !! k = Some v -> get d k dflt = v.
Proof. intros H. unfold get. rewrite H. reflexivity. Qed.

Lemma safe_float_of_string (s : string) (x : float) :
  s <> ""%string -> py_float_str s = Ok x -> safe_float (PStr s) = Ok x.
Proof.
  intros Hne Hs. unfold safe_float, safe_float_or. cbn [is_none_or_empty].
  destruct (String.eqb_spec s ""); [congruence|].
  cbn [py_float]. rewrite Hs. reflexivity.
Qed.

(** X17. Whenever the guard of rule 1 holds and the frequency field is a
    numeric string above 3, or the cpm field is a numeric string above
    1.95 while the frequency is cited without an exception, rule 1 raises
    [ValueError]: it formats the raw string with a float format. *)
Theorem ctr_rule_raises_on_numeric_strings (ad : AdDetails) (ins : pydict)
    (c : float) (s : string) (x : float) :
  safe_float (get ins "ctr" (PInt 0)) = Ok c ->
  F.lt (c * 100) (avg_ctr_benchmark * 0.7) = true ->
  s <> ""%string -> py_float_str s = Ok x ->
  (ins !! "frequency" = Some (PStr s) /\ F.gt x 3 = true) \/
  (ins !! "cpm" = Some (PStr s) /\ F.gt x (avg_ctr_benchmark * 1.3) = true /\
   is_ok (frequency_cause ins) = true) ->
  ctr_rule ad ins = Raise ValueError.
Proof.
  intros Hc Hlow Hne Hs Hcase. unfold ctr_rule.
  rewrite Hc. cbn [rbind]. rewrite Hlow.
  pose proof (safe_float_of_string s x Hne Hs) as Hx.
  destruct Hcase as [(Hf & Hgt) | (Hm & Hgt & Hok)].
  - unfold frequency_cause. rewrite (get_some _ _ _ _ Hf).
    rewrite Hx. cbn [rbind]. rewrite Hgt. reflexivity.
  - destruct (frequency_cause ins) as [d1|e]; [|discriminate Hok].
    cbn [rbind]. unfold cpm_cause. rewrite (get_some _ _ _ _ Hm).
    rewrite Hx. cbn [rbind]. rewrite Hgt. reflexivity.
Qed.

Lemma ctr_rule_raises_on_numeric_strings_witness :
  ctr_rule {| fields := ∅; creative := None |}
    (<["ctr" := PStr "0.004"]> (<["frequency" := PStr "1.2"]>
     (<["cpm" := PStr "12.50"]> ∅)))
  = Raise ValueError.
Proof.
  apply (ctr_rule_raises_on_numeric_strings _ _ 0.004 "12.50" 12.5);
    try reflexivity; try discriminate.
  right. repeat split; reflexivity.
Defined.

(** ** The short rule set *)

Lemma performance_ctr_cases (ctr : float) :
  (performance_ctr ctr = [low_ctr_recommendation ctr] /\ F.lt ctr 0.8 = true) \/
  (performance_ctr ctr = [high_ctr_recommendation ctr] /\ F.lt ctr 0.8 = false /\
   F.gt ctr 2.5 = true) \/
  (performance_ctr ctr = [] /\ F.lt ctr 0.8 = false /\ F.gt ctr 2.5 = false).
Proof.
  unfold performance_ctr.
  destruct (F.lt ctr 0.8); [left; auto|].
  destruct (F.gt ctr 2.5); [right; left; auto|right; right; auto].
Qed.

Lemma performance_frequency_cases (t : option DataFrame) recs :
  performance_frequency t = Ok recs ->
  recs = [] \/ exists freq, recs = [high_frequency_recommendation freq].
Proof.
  unfold performance_frequency. destruct t as [df|]; [|intros [= <-]; auto].
  intros H. rbind_inv_as H freq Hf.
  destruct (F.gt freq 3.5); injection H as <-; eauto.
Qed.

(** X9. The short rule set returns at most three recommendations, in the
    order click-through rate, cost per conversion, frequency; a low and a
    high click-through rate are never reported together, and only the high
    one has the type success. *)
Theorem performance_recommendations_shape (ins : pydict)
    (t : option DataFrame) (recs : list PerfRecommendation) :
  generate_performance_recommendations ins t = Ok recs ->
  (length recs <= 3)%nat /\
  ~ (In "CTR Baixo"%string (map p_title recs) /\
     In "CTR Alto"%string (map p_title recs)) /\
  (forall r, In r recs -> p_type r = kind_success ->
             p_title r = "CTR Alto"%string) /\
  exists a b c,
    recs = a ++ b ++ c /\
    incl (map p_title a) ["CTR Baixo"; "CTR Alto"]%string /\
    incl (map p_title b) ["Custo Alto por Conversão"]%string /\
    incl (map p_title c) ["Frequência Elevada"]%string.
Proof.
  unfold generate_performance_recommendations. intros H.
  rbind_inv_as H c Hc. rbind_inv_as H k Hk. rbind_inv_as H r3 H3.
  injection H as <-.
  apply performance_frequency_cases in H3.
  assert (H2 : performance_cost k = [] \/
               performance_cost k = [high_cost_recommendation k])
    by (unfold performance_cost; destruct (F.gt k 50); auto).
  destruct (performance_ctr_cases (c * 100)) as [(-> & _)|[(-> & _)|(-> & _)]];
    destruct H2 as [-> | ->]; destruct H3 as [-> | (freq & ->)];
    (split; [simpl; lia|]);
    (split; [simpl; intros (Ha & Hb);
             repeat (destruct Ha as [Ha|Ha]; try discriminate Ha);
             repeat (destruct Hb as [Hb|Hb]; try discriminate Hb); auto|]);
    (split; [intros r Hr Hs; simpl in Hr;
             repeat (destruct Hr as [<-|Hr]; try discriminate Hs; try reflexivity);
             destruct Hr|]);
    eexists _, _, _; (split; [reflexivity|]);
    repeat split; intros x Hx; simpl in *; tauto.
Qed.

Lemma performance_recommendations_shape_witness :
  (length [low_ctr_recommendation 0.5; high_cost_recommendation 80] <= 3)%nat.
Proof.
  apply (performance_recommendations_shape
           (<["ctr" := PStr "0.005"]> (<["cost_per_conversion" := PInt 80]> ∅))
           None).
  reflexivity.
Defined.

(** X10. On a TemporalSeries without rows the short rule set behaves as
    without a series: the mean frequency is NaN, which is not above 3.5, so
    nothing is raised or added for it.  On a series without the column
    frequency it raises [KeyError] (when the two fields normalise). *)
Theorem performance_on_empty_series (ins : pydict) (df : DataFrame) :
  (df_get df "frequency" = Ok (ColFloat []) ->
   generate_performance_recommendations ins (Some df)
   = generate_performance_recommendations ins None) /\
  (df_get df "frequency" = Raise KeyError ->
   is_ok (safe_float (get ins "ctr" (PInt 0))) = true ->
   is_ok (safe_float (get ins "cost_per_conversion" (PInt 0))) = true ->
   generate_performance_recommendations ins (Some df) = Raise KeyError).
Proof.
  unfold generate_performance_recommendations, performance_frequency,
    frequency_mean.
  split.
  - intros ->. reflexivity.
  - intros -> H1 H2.
    destruct (safe_float (get ins "ctr" (PInt 0))); [|discriminate H1].
    destruct (safe_float (get ins "cost_per_conversion" (PInt 0)));
      [|discriminate H2].
    reflexivity.
Qed.

Lemma performance_on_empty_series_witness :
  generate_performance_recommendations {["ctr" := PFloat 0.02]}
    (Some [("date_start", ColTime []); ("frequency", ColFloat [])])
  = generate_performance_recommendations {["ctr" := PFloat 0.02]} None.
Proof.
  apply (performance_on_empty_series {["ctr" := PFloat 0.02]}
           [("date_start", ColTime []); ("frequency", ColFloat [])]).
  reflexivity.
Defined.

(** X11. The two rule sets have different thresholds for the click-through
    rate: between 0.8 % and 1.05 % the engine emits its urgent
    recommendation (when citing the causes does not raise) while the short
    rule set reports no low click-through rate. *)
Theorem rule_sets_disagree_on_ctr (ad : AdDetails) (ins : pydict)
    (t : option DataFrame) (c : float) :
  safe_float (get ins "ctr" (PInt 0)) = Ok c ->
  F.lt (c * 100) 0.8 = false ->
  F.lt (c * 100) (avg_ctr_benchmark * 0.7) = true ->
  (is_ok (frequency_cause ins) = true -> is_ok (cpm_cause ins) = true ->
   fires (ctr_rule ad ins) = true) /\
  (forall recs, generate_performance_recommendations ins t = Ok recs ->
                ~ In "CTR Baixo"%string (map p_title recs)).
Proof.
  intros Hc Hge Hlt. split.
  - intros H1 H2. unfold ctr_rule. rewrite Hc. cbn [rbind]. rewrite Hlt.
    destruct (frequency_cause ins); [|discriminate H1].
    destruct (cpm_cause ins); [|discriminate H2]. reflexivity.
  - intros recs H. unfold generate_performance_recommendations in H.
    rewrite Hc in H. cbn [rbind] in H.
    rbind_inv_as H k Hk. rbind_inv_as H r3 H3. injection H as <-.
    unfold performance_ctr. rewrite Hge.
    apply performance_frequency_cases in H3.
    assert (H2 : performance_cost k = [] \/
                 performance_cost k = [high_cost_recommendation k])
      by (unfold performance_cost; destruct (F.gt k 50); auto).
    destruct (F.gt (c * 100) 2.5); destruct H2 as [-> | ->];
      destruct H3 as [-> | (freq & ->)]; simpl; intros Hin;
      repeat (destruct Hin as [Hin|Hin]; try discriminate Hin); exact Hin.
Qed.

Lemma rule_sets_disagree_on_ctr_witness :
  fires (ctr_rule {| fields := ∅; creative := None |} {["ctr" := PStr "0.009"]})
  = true.
Proof.
  destruct (rule_sets_disagree_on_ctr {| fields := ∅; creative := None |}
              {["ctr" := PStr "0.009"]} None 0.009) as (H & _);
    [reflexivity|reflexivity|reflexivity|].
  apply H; reflexivity.
Defined.

(** ** The action plan *)

Fixpoint count_severity (s : Severity) (recs : list Recommendation) : nat :=
  match recs with
  | [] => 0
  | r :: rest =>
      (if has_severity s r then 1 else 0) + count_severity s rest
  end.

Lemma plan_rows_labels (recs : list Recommendation) :
  Forall (fun r => actions r <> []) recs ->
  exists rows,
    plan_rows recs = Some rows /\
    map prioridade rows = map (fun r => prioridade_label (severity r)) recs.
Proof.
  induction 1 as [|r recs Hr _ (rows & Hrows & Hl)].
  - exists []. split; reflexivity.
  - cbn [plan_rows]. unfold plan_row.
    destruct (actions r) as [|first others]; [congruence|].
    rewrite Hrows. eexists. split; [reflexivity|].
    cbn [map prioridade]. rewrite Hl. reflexivity.
Qed.

Lemma map_insert_by_key {A K} (key : A -> K) (leb : K -> K -> bool)
    (x : A) (l : list A) :
  map key (insert_by_key key leb x l)
  = insert_by_key (fun k => k) leb (key x) (map key l).
Proof.
  induction l as [|y l IH]; [reflexivity|].
  cbn [insert_by_key map]. destruct (leb (key x) (key y)); [reflexivity|].
  cbn [map]. rewrite IH. reflexivity.
Qed.

Lemma map_sort_by_key {A K} (key : A -> K) (leb : K -> K -> bool) (l : list A) :
  map key (sort_by_key key leb l) = sort_by_key (fun k => k) leb (map key l).
Proof.
  induction l as [|x l IH]; [reflexivity|].
  cbn [sort_by_key fold_right map]. rewrite map_insert_by_key.
  unfold sort_by_key in IH. rewrite IH. reflexivity.
Qed.

Lemma Forall_repeat {A} (P : A -> Prop) (x : A) (n : nat) :
  P x -> Forall P (repeat x n).
Proof. intros H. induction n; simpl; constructor; assumption. Qed.

(** The labels of the plan in ascending order: [Alta], [Baixa], [Média]. *)
Lemma sorted_labels (recs : list Recommendation) :
  sort_by_key (fun k => k) String.leb
    (map (fun r => prioridade_label (severity r)) recs)
  = repeat "Alta"%string (count_severity high recs)
    ++ repeat "Baixa"%string (count_severity low recs)
    ++ repeat "Média"%string (count_severity medium recs).
Proof.
  induction recs as [|r recs IH]; [reflexivity|].
  cbn [map sort_by_key fold_right count_severity].
  unfold sort_by_key in IH. rewrite IH. rewrite !(has_severity_spec _ r).
  destruct (severity r); cbn [prioridade_label Nat.add repeat app].
  - apply insert_by_key_head. rewrite !List.Forall_app.
    repeat split; apply Forall_repeat; reflexivity.
  - rewrite app_assoc.
    rewrite insert_by_key_app
      by (rewrite List.Forall_app; split; apply Forall_repeat; reflexivity).
    rewrite <- app_assoc. do 2 f_equal.
    apply insert_by_key_head. apply Forall_repeat. reflexivity.
  - rewrite insert_by_key_app by (apply Forall_repeat; reflexivity).
    f_equal. apply (insert_by_key_head (fun k : string => k) String.leb).
    rewrite List.Forall_app. split; apply Forall_repeat; reflexivity.
Qed.

Lemma action_count_has_first (ad : AdDetails) (r : Recommendation) :
  action_count_ok ad r -> actions r <> [].
Proof.
  intros [H|(H & _)] E; rewrite E in H; simpl in H; lia.
Qed.

(** X12. For every list that the engine returns and that is not empty
    (the plan is built on that branch only), the action plan of
    [show_ad_results] is built without an [IndexError] (every
    recommendation has a first action) and has one row for each
    recommendation.  The plan is sorted by the label of the priority, as a
    string: the rows Alta come first, then the rows Baixa, then the rows
    Média, so the low recommendations are listed above the medium ones. *)
Theorem action_plan_order (inp : Inputs) (recs : list Recommendation) :
  snd (generate_ai_optimization_recommendations inp) = Ok recs ->
  recs <> [] ->
  exists rows,
    sorted_action_plan recs = Some rows /\
    length rows = length recs /\
    map prioridade rows
    = repeat "Alta"%string (count_severity high recs)
      ++ repeat "Baixa"%string (count_severity low recs)
      ++ repeat "Média"%string (count_severity medium recs).
Proof.
  rewrite emitted_then_prioritized. intros H _. rbind_inv_as H em Hem.
  injection H as <-. apply emitted_actions in Hem.
  assert (Hp : Forall (fun r => actions r <> []) (prioritize em)).
  { eapply Permutation_Forall; [apply sort_by_key_perm|].
    eapply List.Forall_impl; [|exact Hem].
    intros r. apply action_count_has_first. }
  destruct (plan_rows_labels _ Hp) as (rows & Hrows & Hl).
  unfold sorted_action_plan. rewrite Hrows. eexists. split; [reflexivity|].
  split.
  - rewrite <- (Permutation_length (sort_by_key_perm prioridade String.leb rows)).
    rewrite <- (length_map prioridade rows), Hl. apply length_map.
  - rewrite map_sort_by_key, Hl. apply sorted_labels.
Qed.

Lemma action_plan_order_witness :
  let ad := {| fields := ∅; creative := None |} in
  let df : DataFrame :=
    [("date_start", ColTime [{| ts_day := 20000; ts_hour := 9 |}]);
     ("conversions", ColFloat [1%float])] in
  let inp := {| ad_details := ad;
                insights := <["ctr" := PFloat 0.05]> {["frequency" := PFloat 4]};
                temporal_data := Some df; demographics := [] |} in
  let recs := [frequency_recommendation ad 4;
               scheduling_recommendation "Friday" 9] in
  exists rows,
    sorted_action_plan recs = Some rows /\
    length rows = length recs /\
    map prioridade rows = ["Baixa"; "Média"]%string.
Proof.
  intros ad df inp recs.
  apply (action_plan_order inp recs); [reflexivity|discriminate].
Defined.

(** ** Demographic segments *)

Definition segment_keys : gset string :=
  {[ "age"; "gender"; "impressions"; "reach"; "clicks"; "spend";
     "conversions"; "ctr"; "cpm" ]}%string.

Lemma demographic_segment_keys (insight d : pydict) :
  demographic_segment insight = Ok d ->
  dom d = segment_keys /\
  d !! "age" = Some (get insight "age" (PStr "N/A")) /\
  d !! "gender" = Some (get insight "gender" (PStr "N/A")) /\
  d !! "segment_type" = None /\ d !! "video_views" = None.
Proof.
  unfold demographic_segment. intros H.
  rbind_inv_as H i Hi. rbind_inv_as H re Hre. rbind_inv_as H cl Hcl.
  rbind_inv_as H sp Hsp. rbind_inv_as H co Hco. rbind_inv_as H ct Hct.
  rbind_inv_as H cp Hcp. injection H as <-.
  split; [|split; [|split; [|split]]].
  - rewrite !dom_insert_L, dom_empty_L. unfold segment_keys. set_solver.
  - apply lookup_insert_eq.
  - rewrite lookup_insert_ne by discriminate. apply lookup_insert_eq.
  - rewrite !lookup_insert_ne by discriminate. apply lookup_empty.
  - rewrite !lookup_insert_ne by discriminate. apply lookup_empty.
Qed.

Lemma processed_data_rows (insights : list pydict) (d : pydict) :
  In d (processed_data insights) ->
  exists insight, In insight insights /\ demographic_segment insight = Ok d.
Proof.
  induction insights as [|i insights IH]; cbn [processed_data]; [intros []|].
  destruct (demographic_segment i) as [seg|e] eqn:E.
  - intros [<-|H]; [exists i; split; [left; reflexivity|exact E]|].
    destruct (IH H) as (i' & Hi' & Hd). exists i'. split; [right; exact Hi'|exact Hd].
  - intros H. destruct (IH H) as (i' & Hi' & Hd).
    exists i'. split; [right; exact Hi'|exact Hd].
Qed.

(** X13. Every row that [get_ad_demographics] returns has the nine keys
    age, gender, impressions, reach, clicks, spend, conversions, ctr and cpm
    and no other; there are as many of them as rows of the API whose fields
    normalise without an exception, and the filters on the keys age and
    gender (rule 4 of the engine, the demographic tab) keep all of them. *)
Theorem processed_data_shape (insights : list pydict) :
  Forall (fun d => dom d = segment_keys) (processed_data insights) /\
  length (processed_data insights)
  = length (List.filter (fun i => is_ok (demographic_segment i)) insights) /\
  List.filter (fun d => has_key d "age" && has_key d "gender")
    (processed_data insights)
  = processed_data insights /\
  demo_rows (processed_data insights)
  = demo_rows (List.filter (fun d => has_key d "age") (processed_data insights)).
Proof.
  split; [|split; [|split]].
  - apply List.Forall_forall. intros d Hd.
    apply processed_data_rows in Hd. destruct Hd as (i & _ & Hd).
    apply demographic_segment_keys in Hd. apply Hd.
  - induction insights as [|i insights IH]; [reflexivity|].
    cbn [processed_data List.filter].
    destruct (demographic_segment i); cbn [is_ok length]; rewrite IH; reflexivity.
  - induction insights as [|i insights IH]; [reflexivity|].
    cbn [processed_data].
    destruct (demographic_segment i) as [seg|e] eqn:E; [|exact IH].
    cbn [List.filter]. apply demographic_segment_keys in E.
    destruct E as (_ & Ha & Hg & _). unfold has_key at 1 2.
    rewrite Ha, Hg. cbn [andb]. rewrite IH. reflexivity.
  - induction insights as [|i insights IH]; [reflexivity|].
    cbn [processed_data].
    destruct (demographic_segment i) as [seg|e] eqn:E; [|exact IH].
    cbn [List.filter demo_rows]. apply demographic_segment_keys in E.
    destruct E as (_ & Ha & _). unfold has_key. rewrite Ha.
    cbn [demo_rows]. unfold has_key. rewrite Ha, IH. reflexivity.
Qed.

(** X14. On the rows that [get_ad_demographics] returns, the only
    demographic rows of the application, [show_detailed_audience_analysis]
    finds no data for any segment type (no row has the key segment_type)
    and [show_video_analysis] finds no video data (no row has the key
    video_views): both would return before any analysis.  Neither function
    has a call site in the application. *)
Theorem audience_and_video_analysis_find_nothing (insights : list pydict) :
  (forall segment_type : string,
     segment_data (processed_data insights) segment_type = []) /\
  video_data (processed_data insights) = Ok [].
Proof.
  assert (H : Forall (fun d => d !! "segment_type" = None /\
                               d !! "video_views" = None)
                (processed_data insights)).
  { apply List.Forall_forall. intros d Hd.
    apply processed_data_rows in Hd. destruct Hd as (i & _ & Hd).
    apply demographic_segment_keys in Hd. tauto. }
  split.
  - intros segment_type. unfold segment_data.
    induction H as [|d rows (Hs & _) _ IH]; [reflexivity|].
    cbn [List.filter]. unfold get at 1. rewrite Hs. exact IH.
  - induction H as [|d rows (_ & Hv) _ IH]; [reflexivity|].
    cbn [video_data]. rewrite Hv. cbn [rbind]. rewrite IH. reflexivity.
Qed.

(** ** Daily rows *)

Lemma temporal_row_unfold (insight : Insight) :
  temporal_row insight
  = do xs <- conversion_values (default [] (i_actions insight));
    let f := i_fields insight in
    Ok (<["conversions" := py_sum xs]>
        (<["unique_clicks" := get f "unique_clicks" (PInt 0)]>
        (<["cost_per_conversion" := get f "cost_per_conversion" (PInt 0)]>
        (<["conversions" := get f "conversions" (PInt 0)]>
        (<["cpm" := get f "cpm" (PInt 0)]>
        (<["frequency" := get f "frequency" (PInt 0)]>
        (<["ctr" := get f "ctr" (PInt 0)]>
        (<["clicks" := get f "clicks" (PInt 0)]>
        (<["spend" := get f "spend" (PInt 0)]>
        (<["reach" := get f "reach" (PInt 0)]>
        (<["impressions" := get f "impressions" (PInt 0)]>
        (<["date_start" := get f "date_start" (PInt 0)]> ∅)))))))))))).
Proof. reflexivity. Qed.

(** X15. In a daily row the value of conversions is the sum of the values
    of the actions of type conversion, and the integer 0 when there is
    none: the field conversions of the API is written first and then
    overwritten, so it never reaches the frame.  Every other field is
    copied, 0 standing for a missing one, and the row has no key actions. *)
Theorem daily_conversions_come_from_actions (insight : Insight) (row : pydict) :
  temporal_row insight = Ok row ->
  (exists xs,
     conversion_values (default [] (i_actions insight)) = Ok xs /\
     row !! "conversions" = Some (py_sum xs)) /\
  row !! "actions" = None /\
  (forall field,
     In field temporal_fields ->
     field <> "actions"%string -> field <> "conversions"%string ->
     row !! field = Some (get (i_fields insight) field (PInt 0))) /\
  (forall v, temporal_row {| i_fields := <["conversions" := v]> (i_fields insight);
                             i_actions := i_actions insight |} = Ok row) /\
  (i_actions insight = None \/ i_actions insight = Some [] ->
   row !! "conversions" = Some (PInt 0)).
Proof.
  rewrite temporal_row_unfold. intros H. rbind_inv_as H xs Hxs.
  cbn zeta in H. injection H as <-.
  split; [|split; [|split; [|split]]].
  - exists xs. split; [exact Hxs|]. apply lookup_insert_eq.
  - rewrite !lookup_insert_ne by discriminate. apply lookup_empty.
  - intros field Hin Hna Hnc. unfold temporal_fields in Hin. simpl in Hin.
    repeat (destruct Hin as [<-|Hin];
            [first [congruence
                   | rewrite !lookup_insert_ne by discriminate;
                     apply lookup_insert_eq]|]).
    destruct Hin.
  - intros v. rewrite temporal_row_unfold. cbn [i_fields i_actions].
    rewrite Hxs. cbn [rbind]. cbn zeta. f_equal.
    unfold get. rewrite !lookup_insert_ne by discriminate.
    rewrite lookup_insert_eq. cbn [default from_option id].
    apply map_eq. intros k. rewrite !lookup_insert, !lookup_empty.
    repeat case_decide; try reflexivity; congruence.
  - intros Hno. rewrite lookup_insert_eq.
    destruct Hno as [Hno|Hno]; rewrite Hno in Hxs; injection Hxs as <-;
      reflexivity.
Qed.

Lemma daily_conversions_come_from_actions_witness :
  match temporal_row {| i_fields := <["conversions" := PStr "5"]>
                                      {["date_start" := PStr "2024-10-04"]};
                        i_actions := Some [] |} with
  | Ok row => row !! "conversions" = Some (PInt 0)
  | Raise _ => False
  end.
Proof.
  destruct (temporal_row _) as [row|e] eqn:E; [|discriminate E].
  apply (daily_conversions_come_from_actions _ row E). right. reflexivity.
Defined.

(** ** Strategic analysis *)

(** X16. The action plan of the strategic analysis is never empty and has
    at most three entries.  It is the default entry (scale the performance)
    exactly when the click-through rate, the conversion rate and the
    frequency pass their thresholds, whatever the cost per conversion: a
    cost per conversion above 60 (1.2 times the benchmark of 50) is listed
    among the improvements and has no entry in the plan. *)
Theorem strategic_plan_ignores_cost (m : Aggregate) (freq_mean : float) :
  (1 <= length (strategic_action_plan m freq_mean) <= 3)%nat /\
  (strategic_action_plan m freq_mean = [plan_default] <->
   F.lt (a_ctr m) (benchmark_ctr * 0.8) = false /\
   F.lt (a_conversion_rate m) (benchmark_conversion_rate * 0.8) = false /\
   F.gt freq_mean 3.5 = false) /\
  (F.lt (a_ctr m) (benchmark_ctr * 0.8) = false ->
   F.lt (a_conversion_rate m) (benchmark_conversion_rate * 0.8) = false ->
   F.gt freq_mean 3.5 = false ->
   F.gt (a_cost_per_conversion m) (benchmark_cost_per_conversion * 1.2) = true ->
   length (improvements m freq_mean) = 1%nat /\
   strategic_action_plan m freq_mean = [plan_default]).
Proof.
  unfold strategic_action_plan, improvements.
  destruct (F.lt (a_ctr m) (benchmark_ctr * 0.8)),
    (F.lt (a_conversion_rate m) (benchmark_conversion_rate * 0.8)),
    (F.gt freq_mean 3.5);
    (split; [simpl; lia|]);
    (split; [split; [intros H; try discriminate H; auto
                    | intros (H1 & H2 & H3); try discriminate; reflexivity]|]);
    intros H1 H2 H3 H4; try discriminate.
  rewrite H4. split; reflexivity.
Qed.

Lemma strategic_plan_ignores_cost_witness :
  let m := {| a_ctr := 2.5; a_conversion_rate := 4; a_cost_per_conversion := 90;
              a_cpm := 8; a_cpc := 1 |} in
  length (improvements m 2) = 1%nat /\
  strategic_action_plan m 2 = [plan_default].
Proof.
  intros m.
  destruct (strategic_plan_ignores_cost m 2) as (_ & _ & H).
  apply H; reflexivity.
Defined.

(** ** Strengths *)

Lemma zero_over_positive (c y : float) :
  F.is_zero c = true -> F.gt y 0 = true -> F.is_zero (c / y * 100) = true.
Proof.
  intros Hc Hy. unfold F.gt in Hy. rewrite FloatAxioms.ltb_spec in Hy.
  assert (Hq : (c / y = 0 \/ c / y = -0)%float).
  { destruct (is_zero_cases c Hc) as [-> | ->].
    - left. apply Prim2SF_inj. rewrite FloatAxioms.div_spec.
      destruct (Prim2SF y) as [s|s| |s m e]; try discriminate Hy;
        destruct s; try discriminate Hy; reflexivity.
    - right. apply Prim2SF_inj. rewrite FloatAxioms.div_spec.
      destruct (Prim2SF y) as [s|s| |s m e]; try discriminate Hy;
        destruct s; try discriminate Hy; reflexivity. }
  destruct Hq as [-> | ->]; reflexivity.
Qed.

(** X18. An ad without conversions is praised and blamed at once: its cost
    per conversion is 0, which is below 0.8 times the benchmark, so the
    strategic analysis lists the low cost per conversion (R$0.00) among the
    strengths, while the conversion rate, which is 0 too, is listed among
    the improvements. *)
Theorem no_conversions_is_a_strength (ins : pydict) (m : Aggregate)
    (freq_mean : float) :
  strategic_metrics ins = Ok m ->
  normalizes_to_zero (get ins "conversions" (PInt 0)) ->
  In [Lit "Custo por conversão baixo (R$"; FmtF 2 0;
      Lit ") - Eficiência de gastos"] (strengths m) /\
  F.is_zero (a_conversion_rate m) = true /\
  In [Lit "Taxa de conversão baixa ("; FmtF 2 (a_conversion_rate m);
      Lit "%) - Otimizar landing page e jornada do usuário"]
     (improvements m freq_mean).
Proof.
  intros Hm (c & Hc & Hc0).
  unfold strategic_metrics in Hm.
  rbind_inv_as Hm imp0 Himp0. rbind_inv_as Hm ctr Hctr.
  rbind_inv_as Hm clicks Hclicks. rbind_inv_as Hm conversions Hconv.
  rbind_inv_as Hm spend Hspend. rbind_inv_as Hm impressions Himp.
  injection Hm as <-. rewrite Hc in Hconv. injection Hconv as <-.
  assert (Hrate : F.is_zero (if F.gt clicks 0 then (c / clicks * 100)%float
                             else 0%float) = true).
  { destruct (F.gt clicks 0) eqn:E; [|reflexivity].
    apply zero_over_positive; assumption. }
  split; [|split].
  - unfold strengths. cbn [a_cost_per_conversion].
    rewrite (gt_zero_false c Hc0).
    apply in_or_app. right. apply in_or_app. right. left. reflexivity.
  - exact Hrate.
  - unfold improvements. cbn [a_conversion_rate].
    apply in_or_app. right. apply in_or_app. left.
    destruct (is_zero_cases _ Hrate) as [-> | ->]; left; reflexivity.
Qed.

Lemma no_conversions_is_a_strength_witness :
  let ins : pydict :=
    <["impressions" := PStr "1200"]> (<["clicks" := PStr "30"]>
    (<["spend" := PStr "45.10"]> (<["ctr" := PStr "0.025"]> ∅))) in
  match strategic_metrics ins with
  | Ok m =>
      In [Lit "Custo por conversão baixo (R$"; FmtF 2 0;
          Lit ") - Eficiência de gastos"] (strengths m)
  | Raise _ => False
  end.
Proof.
  intros ins. destruct (strategic_metrics ins) as [m|e] eqn:E; [|discriminate E].
  apply (no_conversions_is_a_strength ins m 0 E).
  exists 0%float. split; reflexivity.
Defined.

(** ** Action statistics *)

Lemma is_prefix_app (p l : list ascii) : is_prefix p (p ++ l) = true.
Proof.
  induction p as [|c p IH]; [reflexivity|].
  simpl. rewrite Ascii.eqb_refl. exact IH.
Qed.

Lemma is_prefix_split (p l : list ascii) :
  is_prefix p l = true -> exists r, l = (p ++ r)%list.
Proof.
  revert l. induction p as [|c p IH]; intros l; [exists l; reflexivity|].
  destruct l as [|d l]; [discriminate|]. simpl.
  destruct (Ascii.eqb_spec c d) as [->|]; [|discriminate].
  intros H. destruct (IH l H) as (r & ->). exists r. reflexivity.
Qed.

Lemma chars_append (a b : string) : chars (String.append a b) = (chars a ++ chars b)%list.
Proof.
  unfold chars. induction a as [|c a IH]; simpl; [reflexivity|].
  rewrite IH. reflexivity.
Qed.

Lemma chars_inj (a b : string) : chars a = chars b -> a = b.
Proof.
  intros H. rewrite <- (string_of_list_ascii_of_string a), <- (string_of_list_ascii_of_string b).
  unfold chars in H. rewrite H. reflexivity.
Qed.

Lemma startswith_action (k : string) :
  startswith k "action_" = true <-> exists t, k = String.append "action_" t.
Proof.
  unfold startswith. split.
  - intros H. apply is_prefix_split in H. destruct H as (r & Hr).
    exists (string_of_list_ascii r). apply chars_inj.
    rewrite chars_append. unfold chars at 3. rewrite list_ascii_of_string_of_list_ascii.
    exact Hr.
  - intros (t & ->). rewrite chars_append. apply is_prefix_app.
Qed.

Lemma after_underscore_action (t : string) :
  after_underscore (String.append "action_" t) = Some t.
Proof.
  unfold after_underscore. simpl. unfold chars.
  rewrite string_of_list_ascii_of_string. reflexivity.
Qed.

Lemma append_inj (p a b : string) :
  String.append p a = String.append p b -> a = b.
Proof. induction p as [|c p IH]; simpl; [auto|]. intros [= H]. auto. Qed.

(** The condition of the filter is that of its first disjunct. *)
Lemma tab_key (k : string) :
  startswith k "action_" || startswith k "action_value_" = true
  <-> exists t, k = String.append "action_" t.
Proof.
  rewrite <- startswith_action. split; [|intros ->; reflexivity].
  destruct (startswith k "action_") eqn:E; [reflexivity|]. simpl.
  unfold startswith in *. intros H. apply is_prefix_split in H.
  destruct H as (r & Hr). rewrite Hr in E. simpl in E.
  discriminate E.
Qed.

(** No key of [actions] lacks the underscore: [split('_', 1)[1]] does not
    raise. *)
Lemma tab_keys_split (insights : gmap string ival) (k : string) :
  k ∈ dom (tab_actions insights) -> is_Some (after_underscore k).
Proof.
  rewrite elem_of_dom. intros (v & Hv). unfold tab_actions in Hv.
  apply map_lookup_filter_Some in Hv. destruct Hv as (_ & Hk).
  cbn [fst] in Hk. apply tab_key in Hk. destruct Hk as (t & ->).
  rewrite after_underscore_action. eauto.
Qed.

Lemma action_types_spec (insights : gmap string ival) (t : string) :
  t ∈ action_types (tab_actions insights)
  <-> is_Some (insights !! String.append "action_" t).
Proof.
  unfold action_types. rewrite elem_of_set_omap. split.
  - intros (k & Hk & Ht). apply elem_of_dom in Hk. destruct Hk as (v & Hv).
    unfold tab_actions in Hv. apply map_lookup_filter_Some in Hv.
    destruct Hv as (Hv & Hk). cbn [fst] in Hk. apply tab_key in Hk. destruct Hk as (t' & ->).
    rewrite after_underscore_action in Ht. injection Ht as <-. eauto.
  - intros (v & Hv). exists (String.append "action_" t). split.
    + apply elem_of_dom. exists v. unfold tab_actions.
      apply map_lookup_filter_Some. split; [exact Hv|].
      cbn [fst]. apply tab_key. eauto.
    + apply after_underscore_action.
Qed.

Lemma tab_actions_lookup (insights : gmap string ival) (t : string) :
  tab_actions insights !! String.append "action_" t
  = insights !! String.append "action_" t.
Proof.
  unfold tab_actions.
  destruct (insights !! String.append "action_" t) as [v|] eqn:E.
  - apply map_lookup_filter_Some. split; [exact E|].
    cbn [fst]. apply tab_key. eauto.
  - apply map_lookup_filter_None. left. exact E.
Qed.

Lemma add_stats_dom (prefix : string) (stats : list ActionStat)
    (d0 d : gmap string float) (k : string) :
  add_stats prefix stats d0 = Ok d ->
  (is_Some (d !! k) <->
   is_Some (d0 !! k) \/
   exists a, In a stats /\ k = String.append prefix (type_name a)).
Proof.
  revert d0. induction stats as [|a stats IH]; intros d0; cbn [add_stats].
  - intros [= <-]. split; [auto|]. intros [H|(a & [] & _)]. exact H.
  - intros H. rbind_inv_as H v Hv. rewrite (IH _ H). clear IH H.
    rewrite lookup_insert_is_Some'. split.
    + intros [[Hk|H]|(a' & Ha' & Hk)].
      * right. exists a. split; [left; reflexivity|symmetry; exact Hk].
      * left. exact H.
      * right. exists a'. split; [right; exact Ha'|exact Hk].
    + intros [H|(a' & [<-|Ha'] & Hk)].
      * left. right. exact H.
      * left. left. symmetry. exact Hk.
      * right. exists a'. split; assumption.
Qed.

Lemma add_stats_source (prefix : string) (stats : list ActionStat)
    (d0 d : gmap string float) (k : string) (x : float) :
  add_stats prefix stats d0 = Ok d -> d !! k = Some x ->
  d0 !! k = Some x \/
  exists a, In a stats /\ k = String.append prefix (type_name a) /\
            safe_float (default (PInt 0) (value a)) = Ok x.
Proof.
  revert d0. induction stats as [|a stats IH]; intros d0; cbn [add_stats].
  - intros [= <-] H. left. exact H.
  - intros H Hk. rbind_inv_as H v Hv.
    destruct (IH _ H Hk) as [H0|(a' & Ha' & Hka & Hx)].
    + apply lookup_insert_Some in H0.
      destruct H0 as [(<- & <-)|(_ & H0)]; [right|left; exact H0].
      exists a. split; [left; reflexivity|]. split; [reflexivity|exact Hv].
    + right. exists a'. split; [right; exact Ha'|]. split; assumption.
Qed.

(** The value stored under the key of an entry is the normalised value of
    an entry of that type in the same list. *)
Lemma add_stats_lookup (prefix : string) (stats : list ActionStat)
    (d0 d : gmap string float) (a : ActionStat) :
  add_stats prefix stats d0 = Ok d -> In a stats ->
  exists a' x,
    In a' stats /\ type_name a' = type_name a /\
    safe_float (default (PInt 0) (value a')) = Ok x /\
    d !! String.append prefix (type_name a) = Some x.
Proof.
  revert d0. induction stats as [|a0 stats IH]; intros d0; cbn [add_stats];
    [intros _ []|].
  intros H Hin. rbind_inv_as H v Hv. destruct Hin as [<-|Hin].
  - assert (Hs : is_Some (d !! String.append prefix (type_name a0))).
    { apply (add_stats_dom _ _ _ _ _ H). left. rewrite lookup_insert_eq. eauto. }
    destruct Hs as (x & Hx).
    destruct (add_stats_source _ _ _ _ _ _ H Hx) as [H0|(a' & Ha' & Hka & Hxa)].
    + rewrite lookup_insert_eq in H0. injection H0 as <-.
      exists a0, v. split; [left; reflexivity|]. split; [reflexivity|].
      split; assumption.
    + exists a', x. split; [right; exact Ha'|].
      split; [symmetry; exact (append_inj _ _ _ Hka)|]. split; assumption.
  - destruct (IH _ H Hin) as (a' & x & Ha' & Ht & Hx & Hd).
    exists a', x. split; [right; exact Ha'|]. split; [exact Ht|].
    split; assumption.
Qed.

Lemma insight_dict_keys (raw d : gmap string ival)
    (acts avs : list ActionStat) (k : string) :
  stats_of raw "actions" = Ok acts ->
  stats_of raw "action_values" = Ok avs ->
  insight_dict raw = Some d ->
  (is_Some (d !! k) <->
   (exists a, In a acts /\ k = String.append "action_" (type_name a)) \/
   (exists a, In a avs /\ k = String.append "action_value_" (type_name a)) \/
   is_Some (raw !! k)).
Proof.
  intros Hacts Havs. unfold insight_dict, action_data.
  rewrite Hacts, Havs. cbn [rbind].
  destruct (add_stats "action_" acts ∅) as [d1|e] eqn:E1; [|discriminate].
  cbn [rbind].
  destruct (add_stats "action_value_" avs d1) as [d2|e] eqn:E2; [|discriminate].
  intros [= <-].
  rewrite lookup_union_is_Some, lookup_fmap, fmap_is_Some.
  rewrite (add_stats_dom _ _ _ _ k E2), (add_stats_dom _ _ _ _ k E1).
  rewrite lookup_empty. split.
  - intros [[[H|H]|H]|H]; [destruct H as (? & [=])|auto..].
  - intros [H|[H|H]]; auto.
Qed.

(** X19. What the tab of actions shows.  The action types of the tab are
    the types of the list actions, and besides, for every entry of
    action_values of type t, a type value_t, and a type for every other key
    of the row of the API that starts with action_, which the key
    action_values itself does: it gives the type values.  Under the type
    value_t the tab shows, as the number of actions, the monetary value of
    the actions of type t, truncated. *)
Theorem action_values_are_shown_as_action_types (raw d : gmap string ival)
    (acts avs : list ActionStat) :
  stats_of raw "actions" = Ok acts ->
  stats_of raw "action_values" = Ok avs ->
  insight_dict raw = Some d ->
  (forall t,
     t ∈ action_types (tab_actions d) <->
     (exists a, In a acts /\ t = type_name a) \/
     (exists a, In a avs /\ t = String.append "value_" (type_name a)) \/
     is_Some (raw !! String.append "action_" t)) /\
  (forall a, In a avs ->
     exists a' x,
       In a' avs /\ type_name a' = type_name a /\
       safe_float (default (PInt 0) (value a')) = Ok x /\
       action_count (tab_actions d) (String.append "value_" (type_name a))
       = safe_int (PFloat x)) /\
  (is_Some (raw !! "action_values"%string) ->
   "values"%string ∈ action_types (tab_actions d)).
Proof.
  intros Hacts Havs Hd.
  assert (Htypes : forall t,
     t ∈ action_types (tab_actions d) <->
     (exists a, In a acts /\ t = type_name a) \/
     (exists a, In a avs /\ t = String.append "value_" (type_name a)) \/
     is_Some (raw !! String.append "action_" t)).
  { intros t. rewrite action_types_spec.
    rewrite (insight_dict_keys raw d acts avs _ Hacts Havs Hd). split.
    - intros [(a & Ha & Hk)|[(a & Ha & Hk)|H]].
      + left. exists a. split; [exact Ha|]. exact (append_inj _ _ _ Hk).
      + right. left. exists a. split; [exact Ha|].
        exact (append_inj "action_" _ _ Hk).
      + right. right. exact H.
    - intros [(a & Ha & ->)|[(a & Ha & ->)|H]].
      + left. eauto.
      + right. left. exists a. split; [exact Ha|reflexivity].
      + right. right. exact H. }
  split; [exact Htypes|]. split.
  - intros a Ha. revert Hd. unfold insight_dict, action_data.
    rewrite Hacts, Havs. cbn [rbind].
    destruct (add_stats "action_" acts ∅) as [d1|e] eqn:E1; [|discriminate].
    cbn [rbind].
    destruct (add_stats "action_value_" avs d1) as [d2|e] eqn:E2; [|discriminate].
    intros [= <-].
    destruct (add_stats_lookup _ _ _ _ a E2 Ha) as (a' & x & Ha' & Ht & Hx & Hl).
    exists a', x. split; [exact Ha'|]. split; [exact Ht|]. split; [exact Hx|].
    unfold action_count.
    change (String.append "action_" (String.append "value_" (type_name a)))
      with (String.append "action_value_" (type_name a)).
    change (String.append "action_value_" (type_name a))
      with (String.append "action_" (String.append "value_" (type_name a))) at 1.
    rewrite tab_actions_lookup.
    change (String.append "action_" (String.append "value_" (type_name a)))
      with (String.append "action_value_" (type_name a)).
    rewrite (lookup_union_Some_l _ _ _ (Scalar (PFloat x)));
      [reflexivity|].
    rewrite lookup_fmap, Hl. reflexivity.
  - intros H. apply Htypes. right. right. exact H.
Qed.

Lemma action_values_are_shown_as_action_types_witness :
  let purchases := {| action_type := Some "purchase"%string;
                      value := Some (PStr "3") |} in
  let revenue := {| action_type := Some "purchase"%string;
                    value := Some (PStr "149.90") |} in
  let raw : gmap string ival :=
    <["impressions" := Scalar (PStr "1200")]>
    (<["actions" := Stats [purchases]]>
    (<["action_values" := Stats [revenue]]> ∅)) in
  match insight_dict raw with
  | Some d =>
      "value_purchase"%string ∈ action_types (tab_actions d) /\
      "values"%string ∈ action_types (tab_actions d)
  | None => False
  end.
Proof.
  intros purchases revenue raw.
  destruct (insight_dict raw) as [d|] eqn:E; [|vm_compute in E; discriminate E].
  destruct (action_values_are_shown_as_action_types raw d [purchases] [revenue]
              eq_refl eq_refl E) as (Ht & _ & Hv).
  split.
  - apply Ht. right. left. exists revenue. split; [left; reflexivity|reflexivity].
  - apply Hv. vm_compute. eauto.
Defined.

(** ** The engine as the application calls it *)

Lemma safe_float_raises (v : pyval) (e : exn) :
  safe_float v = Raise e -> e = OverflowError.
Proof.
  unfold safe_float, safe_float_or.
  destruct (is_none_or_empty v); [discriminate|].
  destruct (py_float v) as [x|e'] eqn:E; [discriminate|].
  apply py_float_raises in E.
  destruct E as [-> | [-> | (-> & _)]]; simpl; congruence.
Qed.

Lemma selected_ad_details_fields
    (selected_ad selected_campaign selected_adset : pydict) (details : AdDetails) :
  selected_ad_details selected_ad selected_campaign selected_adset = Ok details ->
  creative details = None /\
  fields details !! "creative" = None /\
  fields details !! "ad_type" = None /\
  fields details !! "targeting" = None /\
  fields details !! "bid_strategy" = None /\
  fields details !! "campaign_objective"
  = Some (get selected_campaign "objective" (PStr "N/A")).
Proof.
  unfold selected_ad_details. intros H.
  rbind_inv_as H ad_id H1. rbind_inv_as H campaign_id H2.
  rbind_inv_as H adset_id H3. injection H as <-. cbn [creative fields].
  split; [reflexivity|].
  repeat split;
    first [ rewrite !lookup_insert_ne by discriminate; apply lookup_empty
          | rewrite !lookup_insert_ne by discriminate; apply lookup_insert_eq ].
Qed.

Lemma selected_ad_details_ok (ad campaign adset selected_ad selected_adset : pydict) :
  ad_row ad = Ok selected_ad -> adset_row adset = Ok selected_adset ->
  is_ok (selected_ad_details selected_ad (campaign_row campaign) selected_adset)
  = true.
Proof.
  unfold ad_row, adset_row. intros Ha Hs.
  rbind_inv_as Ha bid Hbid. injection Ha as <-.
  rbind_inv_as Hs daily Hdaily. rbind_inv_as Hs lifetime Hlifetime.
  injection Hs as <-. reflexivity.
Qed.

(** X20. What the engine cannot do in the application.  The details of the
    selected ad are built for whatever the three queries returned (an ad,
    its campaign and its ad set, as [get_ads], [get_campaigns] and
    [get_adsets] copy them); they have no key creative (no dictionary and
    no scalar under it), ad_type, targeting or bid_strategy, and always the
    key campaign_objective.  So rule 6
    never runs (no recommendation comes from [analyze_creative_elements]):
    what the engine returns is a permutation of what rules 1 to 5 emit;
    rule 2 never raises [KeyError]; and no recommendation has the two
    video actions: each has three or four actions. *)
Theorem application_details_switch_rule_6_off
    (ad campaign adset selected_ad selected_adset : pydict) :
  ad_row ad = Ok selected_ad -> adset_row adset = Ok selected_adset ->
  exists details,
    selected_ad_details selected_ad (campaign_row campaign) selected_adset
    = Ok details /\
    creative details = None /\
    fields details !! "creative" = None /\
    fields details !! "ad_type" = None /\
    fields details !! "targeting" = None /\
    fields details !! "bid_strategy" = None /\
    forall (ins : pydict) (t : option DataFrame) (demo : list pydict),
      let inp := {| ad_details := details; insights := ins; temporal_data := t;
                    demographics := demo |} in
      (forall e, cost_rule details ins = Raise e -> e = OverflowError) /\
      (forall recs,
         snd (generate_ai_optimization_recommendations inp) = Ok recs ->
         (exists r14 r5,
            rules_1_to_4 inp = Ok r14 /\ snd (rule_5 inp) = Ok r5 /\
            Permutation (r14 ++ r5) recs) /\
         Forall (fun r => (3 <= length (actions r) <= 4)%nat) recs).
Proof.
  intros Ha Hs.
  pose proof (selected_ad_details_ok ad campaign adset _ _ Ha Hs) as Hok.
  destruct (selected_ad_details selected_ad (campaign_row campaign) selected_adset)
    as [details|e] eqn:Hd; [|discriminate Hok].
  exists details. split; [reflexivity|].
  destruct (selected_ad_details_fields _ _ _ _ Hd)
    as (Hcr & Hcs & Htype & Htarget & Hbid & Hobj).
  split; [exact Hcr|]. split; [exact Hcs|].
  split; [exact Htype|]. split; [exact Htarget|].
  split; [exact Hbid|].
  intros ins t demo inp. split.
  - intros e. unfold cost_rule.
    destruct (safe_float (get ins "cost_per_conversion" (PInt 0))) as [c|e1] eqn:E1;
      [|intros [= <-]; exact (safe_float_raises _ _ E1)].
    destruct (safe_float (get ins "conversion_rate" (PInt 0))) as [r|e2] eqn:E2;
      [|intros [= <-]; exact (safe_float_raises _ _ E2)].
    cbn [rbind]. unfold cost_rule_on, getitem. rewrite Hobj.
    destruct (_ && _)%bool; [|discriminate]. cbn [rbind].
    destruct (F.gt _ _); discriminate.
  - intros recs H. split.
    + rewrite emitted_then_prioritized in H. rbind_inv_as H em Hem.
      injection H as <-. unfold emitted in Hem.
      destruct (rules_1_to_4 inp) as [r14|e] eqn:H14; [|discriminate Hem].
      pose proof (rule_5_frame inp) as (Had & _).
      destruct (rule_5 inp) as [inp' r5] eqn:H5. cbn [fst snd] in *.
      rbind_inv_as Hem r5' Hr5. unfold rule_6 in Hem.
      rewrite Had in Hem. unfold inp in Hem. cbn [ad_details] in Hem.
      rewrite Hcr, Hcs in Hem. cbn [rbind] in Hem. injection Hem as <-.
      exists r14, r5'. split; [reflexivity|]. split; [exact Hr5|].
      rewrite app_nil_r. apply sort_by_key_perm.
    + rewrite emitted_then_prioritized in H. rbind_inv_as H em Hem.
      injection H as <-. apply emitted_actions in Hem.
      eapply Permutation_Forall; [apply sort_by_key_perm|].
      eapply List.Forall_impl; [|exact Hem].
      intros r [Hr|(_ & _ & Hv)]; [exact Hr|].
      unfold inp in Hv. cbn [ad_details] in Hv. unfold get in Hv.
      rewrite Htype in Hv. discriminate Hv.
Qed.

Lemma application_details_switch_rule_6_off_witness :
  let ad : pydict :=
    <["id" := PStr "120210"]> (<["name" := PStr "Oferta de inverno"]>
    {["bid_amount" := PStr "250"]}) in
  let campaign : pydict :=
    <["id" := PStr "77"]> {["objective" := PStr "OUTCOME_SALES"]} in
  let adset : pydict :=
    <["id" := PStr "5150"]> {["bid_strategy" := PStr "LOWEST_COST_WITHOUT_CAP"]} in
  match ad_row ad, adset_row adset with
  | Ok selected_ad, Ok selected_adset =>
      exists details,
        selected_ad_details selected_ad (campaign_row campaign) selected_adset
        = Ok details /\
        fields details !! "bid_strategy" = None
  | _, _ => False
  end.
Proof.
  intros ad campaign adset.
  destruct (ad_row ad) as [selected_ad|e] eqn:Ea; [|discriminate Ea].
  destruct (adset_row adset) as [selected_adset|e] eqn:Es; [|discriminate Es].
  destruct (application_details_switch_rule_6_off ad campaign adset _ _ Ea Es)
    as (details & Hd & _ & _ & _ & _ & Hbid & _).
  exists details. split; [exact Hd|exact Hbid].
Defined.

(** ** Rule 5 on a daily series *)

(** X21. On a series whose time stamps are all at midnight, as the daily
    rows of [get_ad_insights_over_time] are (date_start is a date), the best
    hour of rule 5 is 0 whatever the data, and the recommendation asks to
    raise the bids between -1 and 1 h. *)
Theorem daily_series_best_hour_is_midnight (df : DataFrame)
    (ts : list Timestamp) (recs : list Recommendation) :
  df_get df "date_start" = Ok (ColTime ts) ->
  Forall (fun t => ts_hour t = 0) ts ->
  snd (scheduling_rule df) = Ok recs ->
  exists day,
    recs = [scheduling_recommendation day 0] /\
    In day (map day_name ts) /\
    In [Lit "Aumentar bids em 15% entre "; Str (PInt (-1)); Lit "-";
        Str (PInt 1); Lit "h"]
       (actions (scheduling_recommendation day 0)).
Proof.
  intros Hts Hmid. unfold scheduling_rule, assign_day_of_week, assign_hour.
  rewrite Hts. cbn [rbind dt]. rewrite df_get_set_ne by discriminate.
  rewrite Hts. cbn [rbind dt snd]. fold (with_day_and_hour df ts).
  intros H. rbind_inv_as H day Hday. rbind_inv_as H hour Hhour.
  injection H as <-.
  unfold best_day_of_week in Hday. unfold best_hour in Hhour.
  unfold with_day_and_hour in Hday, Hhour.
  rewrite df_get_set_ne, df_get_set_eq in Hday by discriminate.
  rewrite df_get_set_eq in Hhour.
  cbn [rbind] in Hday, Hhour.
  rbind_inv_as Hday v Hv. rbind_inv_as Hday vs Hvs.
  rbind_inv_as Hhour v' Hv'. rbind_inv_as Hhour vs' Hvs'.
  apply idxmax_key, groupby_sum_keys in Hday.
  apply idxmax_key, groupby_sum_keys in Hhour.
  assert (Hzero : hour = 0).
  { apply List.in_map_iff in Hhour. destruct Hhour as (t & <- & Hin).
    rewrite List.Forall_forall in Hmid. exact (Hmid t Hin). }
  subst hour. exists day. split; [reflexivity|]. split; [exact Hday|].
  right. left. reflexivity.
Qed.

Lemma daily_series_best_hour_is_midnight_witness :
  let ts := [{| ts_day := 20000; ts_hour := 0 |};
             {| ts_day := 20001; ts_hour := 0 |}] in
  let df : DataFrame :=
    [("date_start", ColTime ts); ("conversions", ColFloat [1; 4]%float)] in
  exists day,
    [scheduling_recommendation "Saturday" 0] = [scheduling_recommendation day 0] /\
    In day (map day_name ts) /\
    In [Lit "Aumentar bids em 15% entre "; Str (PInt (-1)); Lit "-";
        Str (PInt 1); Lit "h"]
       (actions (scheduling_recommendation day 0)).
Proof.
  intros ts df.
  apply (daily_series_best_hour_is_midnight df ts); [reflexivity| |reflexivity].
  repeat constructor.
Defined.
